(** * MSME Cybersecurity Insights dashboard ([app.py])

    A shallow embedding of the reporting script and of the pandas, numpy,
    scikit-learn and plotly operations it calls, followed by the
    properties of the specification, each stated over these definitions.

    Conventions.
    - A [float64] is represented by the exact rational it stands for, or by
      one of the special values [FInf], [FNaN]; rounding is not modelled.
    - A count ([len], [.sum()]) is an integer of [Z]; a table never has the
      2^63 rows an [int64] overflow would need.
    - The script is a computation in the monad [M]: it appends elements to
      the page and ends normally, by [st.stop()] or by an uncaught exception.
      An element records what it is drawn from; drawing itself is taken to
      succeed.
    - What the script reads from outside is a parameter: the file reader,
      the random generator, the datetime parser, Python's reading of a text
      as a float, and the sort numpy applies (its outcome on equal values
      differs between builds).
    - The libraries are those the script was written for: pandas 2.x
      (where [resample] still takes the alias ["H"] and columns read from a
      file have numpy dtypes), scikit-learn 1.x and plotly.express 5.x with
      statsmodels installed. *)

From Stdlib Require Import String Ascii ZArith QArith Bool Lia Arith List.
From Stdlib Require Import Permutation Sorted.
Import ListNotations.
Local Open Scope string_scope.
Local Open Scope Z_scope.
Local Open Scope list_scope.

(* ------------------------------------------------------------------ *)
(** ** Python values and control *)
(* ------------------------------------------------------------------ *)

Module Py.

Inductive exn : Type :=
| ValueError
| TypeError
| AttributeError
| ZeroDivisionError
| OSError
| OtherError.

(** How a statement ends: with a value, with the [StopException] of
    [st.stop()], or with an exception. *)
Inductive result (A : Type) : Type :=
| Ok (a : A)
| Stopped
| Raise (e : exn).
Arguments Ok {A} a.
Arguments Stopped {A}.
Arguments Raise {A} e.

(** [float64] values. *)
Inductive pyfloat : Type :=
| Finite (q : Q)
| FInf (positive_sign : bool)
| FNaN.

(** An integer is a Python [int] (from [len]) or a [numpy.int64] (from
    [.sum()]); the two differ in what dividing by zero does. *)
Inductive intval : Type :=
| PyInt (z : Z)
| NpInt64 (z : Z).

Definition int_of (i : intval) : Z :=
  match i with PyInt z => z | NpInt64 z => z end.

(** [a / b] with [b] a Python [int]. *)
Definition truediv (a : intval) (b : Z) : result pyfloat :=
  if b =? 0 then
    match a with
    | PyInt _ => Raise ZeroDivisionError
    | NpInt64 z =>
        Ok (if z =? 0 then FNaN else FInf (0 <? z))
    end
  else Ok (Finite (inject_Z (int_of a) / inject_Z b)).

(** [x * 100] on a float. *)
Definition mul100 (x : pyfloat) : pyfloat :=
  match x with
  | Finite q => Finite (q * 100)
  | FInf s => FInf s
  | FNaN => FNaN
  end.

Definition is_finite (x : pyfloat) : bool :=
  match x with Finite _ => true | _ => false end.

(** A call into a library, which returns or raises. *)
Inductive outcome (A : Type) : Type :=
| Returns (a : A)
| Raises (e : exn).
Arguments Returns {A} a.
Arguments Raises {A} e.

Definition result_of {A : Type} (o : outcome A) : result A :=
  match o with
  | Returns a => Ok a
  | Raises e => Raise e
  end.

Definition bind_result {A B : Type} (r : result A) (k : A -> result B)
    : result B :=
  match r with
  | Ok a => k a
  | Stopped => Stopped
  | Raise e => Raise e
  end.

Fixpoint map_result {A B : Type} (f : A -> result B) (l : list A)
    : result (list B) :=
  match l with
  | [] => Ok []
  | x :: l' =>
      bind_result (f x) (fun y =>
      bind_result (map_result f l') (fun ys => Ok (y :: ys)))
  end.

End Py.
Import Py.

(* ------------------------------------------------------------------ *)
(** ** numpy: the portable [argsort(kind="quicksort")]

    [aquicksort] of [npysort/quicksort.cpp] on an array [v] of counts: an
    introsort over the index array [tosort], with median-of-three
    partitions above 16 elements, insertion sort below, and heapsort once
    the depth limit is spent.  Pointers are positions in the index array;
    the loops run on fuel that the lengths bound.  Builds of numpy that
    dispatch a SIMD kernel sort differently, which is why the script takes
    its sort as a parameter; this one is the sort of the examples. *)
(* ------------------------------------------------------------------ *)

Module Numpy.

(** [a[i]], [a[i] = x] and [INTP_SWAP]. *)
Definition get (a : list nat) (i : Z) : nat := nth (Z.to_nat i) a O.

Fixpoint set_at (n : nat) (x : nat) (a : list nat) : list nat :=
  match n, a with
  | _, [] => []
  | O, _ :: a' => x :: a'
  | S n', y :: a' => y :: set_at n' x a'
  end.

Definition set (a : list nat) (i : Z) (x : nat) : list nat :=
  set_at (Z.to_nat i) x a.

Definition swap (a : list nat) (i j : Z) : list nat :=
  set (set a i (get a j)) j (get a i).

Section Argsort.

Variable v : list nat.

(** [v[*p]] *)
Definition val (a : list nat) (i : Z) : nat := nth (get a i) v O.

(** [do ++pi; while (v[*pi] < vp)] and [do --pj; while (vp < v[*pj])],
    entered after the first step. *)
Fixpoint scan_up (fuel : nat) (a : list nat) (vp : nat) (pi : Z) : Z :=
  match fuel with
  | O => pi
  | S f => if (val a pi <? vp)%nat then scan_up f a vp (pi + 1) else pi
  end.

Fixpoint scan_down (fuel : nat) (a : list nat) (vp : nat) (pj : Z) : Z :=
  match fuel with
  | O => pj
  | S f => if (vp <? val a pj)%nat then scan_down f a vp (pj - 1) else pj
  end.

Fixpoint partition_loop (fuel : nat) (a : list nat) (vp : nat) (pi pj : Z)
    : list nat * Z :=
  match fuel with
  | O => (a, pi)
  | S f =>
      let pi' := scan_up (length a) a vp (pi + 1) in
      let pj' := scan_down (length a) a vp (pj - 1) in
      if pj' <=? pi' then (a, pi')
      else partition_loop f (swap a pi' pj') vp pi' pj'
  end.

(** One partition of [pl..pr]: the new index array and where the pivot
    lands. *)
Definition partition (a : list nat) (pl pr : Z) : list nat * Z :=
  let pm := pl + Z.shiftr (pr - pl) 1 in
  let a := if (val a pm <? val a pl)%nat then swap a pm pl else a in
  let a := if (val a pr <? val a pm)%nat then swap a pr pm else a in
  let a := if (val a pm <? val a pl)%nat then swap a pm pl else a in
  let vp := val a pm in
  let a := swap a pm (pr - 1) in
  let '(a, pi) := partition_loop (length a) a vp pl (pr - 1) in
  (swap a pi (pr - 1), pi).

(** The insertion sort of [pl..pr]. *)
Fixpoint shift_back (fuel : nat) (a : list nat) (vp : nat) (pl pj : Z)
    : list nat * Z :=
  match fuel with
  | O => (a, pj)
  | S f =>
      if (pl <? pj) && (vp <? val a (pj - 1))%nat
      then shift_back f (set a pj (get a (pj - 1))) vp pl (pj - 1)
      else (a, pj)
  end.

Fixpoint insertion (fuel : nat) (a : list nat) (pl pr pi : Z) : list nat :=
  match fuel with
  | O => a
  | S f =>
      if pi <=? pr then
        let vi := get a pi in
        let '(a, pj) := shift_back (length a) a (nth vi v O) pl pi in
        insertion f (set a pj vi) pl pr (pi + 1)
      else a
  end.

(** [aheapsort] on the [n] entries after position [base]. *)
Fixpoint sift (fuel : nat) (a : list nat) (base : Z) (tmp : nat) (i j n : Z)
    : list nat * Z :=
  match fuel with
  | O => (a, i)
  | S f =>
      if j <=? n then
        let j := if (j <? n) && (val a (base + j) <? val a (base + j + 1))%nat
                 then j + 1 else j in
        if (nth tmp v O <? val a (base + j))%nat
        then sift f (set a (base + i) (get a (base + j))) base tmp j (j + j) n
        else (a, i)
      else (a, i)
  end.

Fixpoint heapify (fuel : nat) (a : list nat) (base : Z) (l n : Z) : list nat :=
  match fuel with
  | O => a
  | S f =>
      if 0 <? l then
        let tmp := get a (base + l) in
        let '(a, i) := sift (length a) a base tmp l (Z.shiftl l 1) n in
        heapify f (set a (base + i) tmp) base (l - 1) n
      else a
  end.

Fixpoint extract (fuel : nat) (a : list nat) (base : Z) (n : Z) : list nat :=
  match fuel with
  | O => a
  | S f =>
      if 1 <? n then
        let tmp := get a (base + n) in
        let a := set a (base + n) (get a (base + 1)) in
        let n := n - 1 in
        let '(a, i) := sift (length a) a base tmp 1 2 n in
        extract f (set a (base + i) tmp) base n
      else a
  end.

Definition aheapsort (a : list nat) (pl : Z) (n : Z) : list nat :=
  let base := pl - 1 in
  let a := heapify (length a) a base (Z.shiftr n 1) n in
  extract (length a) a base n.

(** Where control stands in the outer loop. *)
Inductive label : Type := Top | Partition | StackPop.

Fixpoint aquicksort_from (fuel : nat) (at_ : label) (a : list nat)
    (pl pr cdepth : Z) (stack : list (Z * Z * Z)) : list nat :=
  match fuel with
  | O => a
  | S f =>
      match at_ with
      | Top =>
          if cdepth <? 0
          then aquicksort_from f StackPop (aheapsort a pl (pr - pl + 1))
                               pl pr cdepth stack
          else aquicksort_from f Partition a pl pr cdepth stack
      | Partition =>
          if 16 <? pr - pl then
            let '(a, pi) := partition a pl pr in
            let cdepth := cdepth - 1 in
            if pi - pl <? pr - pi
            then aquicksort_from f Partition a pl (pi - 1) cdepth
                                 ((pi + 1, pr, cdepth) :: stack)
            else aquicksort_from f Partition a (pi + 1) pr cdepth
                                 ((pl, pi - 1, cdepth) :: stack)
          else aquicksort_from f StackPop
                               (insertion (length a) a pl pr (pl + 1))
                               pl pr cdepth stack
      | StackPop =>
          match stack with
          | [] => a
          | (l, r, d) :: stack' => aquicksort_from f Top a l r d stack'
          end
      end
  end.

End Argsort.

(** [np.argsort(v, kind="quicksort")] *)
Definition aquicksort (v : list nat) : list nat :=
  let n := length v in
  aquicksort_from v (4 * n + 4) Top (seq 0 n) 0 (Z.of_nat n - 1)
                  (2 * Z.log2 (Z.of_nat n)) [].

End Numpy.
Import Numpy.

(* ------------------------------------------------------------------ *)
(** ** pandas tables *)
(* ------------------------------------------------------------------ *)

Module Pandas.

(** A cell of a table read from a delimited file, or written by
    [pd.to_datetime]: an integer, a float, a boolean, text, a missing value
    ([NaN]), a timestamp of a datetime column (in nanoseconds, by the wall
    clock of the column's time zone), a missing timestamp ([NaT]), or a
    Python [datetime] that keeps a UTC offset of its own, in a column that
    pandas leaves as objects. *)
Inductive cell : Type :=
| VInt (z : Z)
| VFloat (q : Q)
| VBool (b : bool)
| VStr (s : string)
| VNaN
| VTimestamp (ns : Z)
| VNaT
| VDatetime (ns : Z) (utcoffset : Z).

(** The numeric value of a cell, if it has one. *)
Definition num (c : cell) : option Q :=
  match c with
  | VInt z => Some (inject_Z z)
  | VFloat q => Some q
  | VBool b => Some (if b then 1%Q else 0%Q)
  | _ => None
  end.

(** Elementwise [==]: numbers by value, text by content, a missing value
    equal to nothing (not even to itself). *)
Definition cell_eqb (a b : cell) : bool :=
  match num a, num b with
  | Some x, Some y => Qeq_bool x y
  | None, None =>
      match a, b with
      | VStr s, VStr t => String.eqb s t
      | VTimestamp s, VTimestamp t => Z.eqb s t
      | _, _ => false
      end
  | _, _ => false
  end.

Record DataFrame : Type := mkDF {
  columns : list string;
  rows : list (list cell)
}.

(** [pd.DataFrame()] *)
Definition empty_frame : DataFrame := mkDF [] [].

(** [len(df)] *)
Definition len (df : DataFrame) : Z := Z.of_nat (length (rows df)).

(** [df.empty]: some axis has length 0. *)
Definition empty (df : DataFrame) : bool :=
  match rows df, columns df with
  | [], _ => true
  | _, [] => true
  | _, _ => false
  end.

(** [name in df.columns] *)
Definition has_column (name : string) (df : DataFrame) : bool :=
  existsb (String.eqb name) (columns df).

(** Position of a column label. *)
Fixpoint position (name : string) (cols : list string) : option nat :=
  match cols with
  | [] => None
  | c :: cols' =>
      if String.eqb name c then Some O
      else option_map S (position name cols')
  end.

(** The cell of a row at a position; a short row reads as missing. *)
Definition at_pos (i : nat) (r : list cell) : cell := nth i r VNaN.

(** [df[name]] for a label that is present. *)
Definition column (name : string) (df : DataFrame) : list cell :=
  match position name (columns df) with
  | Some i => map (at_pos i) (rows df)
  | None => []
  end.

(** [row.get(name, default)] for a row of [df.iterrows()]. *)
Definition row_get (df : DataFrame) (r : list cell) (name : string)
    (default : cell) : cell :=
  match position name (columns df) with
  | Some i => at_pos i r
  | None => default
  end.

(** [df.head(n)] *)
Definition head (n : nat) (df : DataFrame) : DataFrame :=
  mkDF (columns df) (firstn n (rows df)).

(** *** Rows as [iterrows] hands them out

    [df.iterrows()] makes of each row a Series of one dtype, the common
    dtype of the columns.  With a column of text, booleans or datetimes
    that dtype is [object] and every cell stays as it is stored; in a table
    of [int64] and [float64] columns only it is [float64], and the
    integers are converted.  [df.head(n)] keeps the dtypes of [df]. *)
Definition is_number (c : cell) : bool :=
  match c with VInt _ | VFloat _ | VNaN => true | _ => false end.

Definition is_float64 (c : cell) : bool :=
  match c with VFloat _ | VNaN => true | _ => false end.

Definition upcasts (df : DataFrame) : bool :=
  forallb (forallb is_number) (rows df)
  && existsb (existsb is_float64) (rows df).

Definition as_float (c : cell) : cell :=
  match c with VInt z => VFloat (inject_Z z) | _ => c end.

(** A row of [df], or of a head of [df], as the loop sees it. *)
Definition series_of (df : DataFrame) (r : list cell) : list cell :=
  if upcasts df then map as_float r else r.

(** [(s == v).sum()] *)
Definition count_eq (v : cell) (s : list cell) : Z :=
  Z.of_nat (length (filter (fun c => cell_eqb c v) s)).

(** Rows are as wide as the header and labels are distinct, as
    [pd.read_csv] delivers them. *)
Definition well_formed (df : DataFrame) : Prop :=
  NoDup (columns df) /\
  Forall (fun r => length r = length (columns df)) (rows df).

(** *** Index labels

    The labels [value_counts] and [np.unique] work on: a number by its
    value (in lowest terms, so that equal numbers are equal labels), text,
    or a timestamp.  Missing values have no label. *)
Inductive key : Type :=
| KNum (q : Q)
| KStr (s : string)
| KTime (ns : Z).

Definition key_of (c : cell) : option key :=
  match c with
  | VStr s => Some (KStr s)
  | VTimestamp t => Some (KTime t)
  | VNaN | VNaT => None
  | _ => option_map (fun q => KNum (Qred q)) (num c)
  end.

Definition key_eqb (a b : key) : bool :=
  match a, b with
  | KNum p, KNum q => Z.eqb (Qnum p) (Qnum q) && Pos.eqb (Qden p) (Qden q)
  | KStr s, KStr t => String.eqb s t
  | KTime s, KTime t => Z.eqb s t
  | _, _ => false
  end.

(** [s.dropna()] as labels *)
Fixpoint dropna (s : list cell) : list key :=
  match s with
  | [] => []
  | c :: s' =>
      match key_of c with
      | Some k => k :: dropna s'
      | None => dropna s'
      end
  end.

(** *** [Series.value_counts()]

    The hash table of [value_counts_arraylike]: one entry per distinct
    label, in the order the labels are first seen, with its count. *)
Fixpoint bump (k : key) (tbl : list (key * nat)) : list (key * nat) :=
  match tbl with
  | [] => [(k, 1%nat)]
  | (k', n) :: tbl' =>
      if key_eqb k k' then (k', S n) :: tbl'
      else (k', n) :: bump k tbl'
  end.

Definition count_table (ks : list key) : list (key * nat) :=
  fold_left (fun tbl k => bump k tbl) ks [].

(** [arr[indexer]]; positions outside the array select nothing. *)
Definition take_at {A : Type} (indexer : list nat) (arr : list A) : list A :=
  flat_map (fun i => match nth_error arr i with
                     | Some x => [x]
                     | None => []
                     end) indexer.

(** [nargsort(items, kind="quicksort", ascending=False)]: the values and
    their positions are reversed, sorted ascending by [argsort], and the
    outcome is reversed.  [argsort] is numpy's sort of the build in use. *)
Definition nargsort_desc (argsort : list nat -> list nat) (items : list nat)
    : list nat :=
  let non_nans := rev items in
  let non_nan_idx := rev (seq 0 (length items)) in
  rev (take_at (argsort non_nans) non_nan_idx).

(** [sort_values(ascending=False)] of entries with a count. *)
Definition sort_values_desc {A : Type} (argsort : list nat -> list nat)
    (cnt : A -> nat) (l : list A) : list A :=
  take_at (nargsort_desc argsort (map cnt l)) l.

Definition value_counts (argsort : list nat -> list nat) (s : list cell)
    : list (key * nat) :=
  sort_values_desc argsort snd (count_table (dropna s)).

(** [s.value_counts().head(3).index.tolist()] *)
Definition top3 (argsort : list nat -> list nat) (s : list cell)
    : list key :=
  map fst (firstn 3 (value_counts argsort s)).

(** [', '.join(labels)]: every item has to be a [str]. *)
Definition str_of_key (k : key) : result string :=
  match k with
  | KStr s => Ok s
  | _ => Raise TypeError
  end.

Definition join (sep : string) (ks : list key) : result string :=
  bind_result (map_result str_of_key ks) (fun ss =>
  Ok (String.concat sep ss)).

(** *** Frames built from other frames *)

(** [df[[n1, n2]].copy()] for labels that are present. *)
Definition select (names : list string) (df : DataFrame) : DataFrame :=
  mkDF names
       (map (fun r => map (fun n => row_get df r n VNaN) names) (rows df)).

(** [df.take(locs)] *)
Definition take (locs : list nat) (df : DataFrame) : DataFrame :=
  mkDF (columns df) (map (fun i => nth i (rows df) []) locs).

(** [df.sample(n)]: [n] positions drawn without replacement by
    [choice population n], the generator's [choice(population, size=n,
    replace=False)]; more than the population cannot be drawn. *)
Definition sample (choice : nat -> nat -> list nat) (n : nat)
    (df : DataFrame) : result DataFrame :=
  if (length (rows df) <? n)%nat then Raise ValueError
  else Ok (take (choice (length (rows df)) n) df).

(** Replace position [i] of a row. *)
Fixpoint set_nth (i : nat) (v : cell) (r : list cell) : list cell :=
  match i, r with
  | _, [] => []
  | O, _ :: r' => v :: r'
  | S i', c :: r' => c :: set_nth i' v r'
  end.

Fixpoint zip_set (i : nat) (rs : list (list cell)) (vs : list cell)
    : list (list cell) :=
  match rs, vs with
  | r :: rs', v :: vs' => set_nth i v r :: zip_set i rs' vs'
  | _, _ => rs
  end.

(** [df[name] = values] for a label that is present. *)
Definition set_column (name : string) (vs : list cell) (df : DataFrame)
    : DataFrame :=
  match position name (columns df) with
  | Some i => mkDF (columns df) (zip_set i (rows df) vs)
  | None => df
  end.

(** *** A labelled matrix: [pd.DataFrame(values, index=..., columns=...)]

    The constructor refuses values whose shape is not the one the labels
    imply. *)
Record Matrix : Type := mkMatrix {
  index : list string;
  mcolumns : list string;
  values : list (list Z)
}.

Definition frame_of_matrix (vals : list (list Z)) (idx cols : list string)
    : result Matrix :=
  if (length vals =? length idx)%nat
     && forallb (fun r => (length r =? length cols)%nat) vals
  then Ok (mkMatrix idx cols vals)
  else Raise ValueError.

(** *** Timestamps: [pd.to_datetime], [set_index(...).resample("H").size()]
    and [idxmax] *)

(** What [pd.to_datetime(..., errors="coerce")] makes of one value: a
    timestamp; [NaT], for a value that does not parse; or, when the values
    of the column carry different UTC offsets, a Python [datetime] with its
    offset, the column being left as objects. *)
Inductive parsed : Type :=
| Stamp (ns : Z)
| Unparsed
| Aware (ns : Z) (utcoffset : Z).

(** The cell written for a parsed value, and the timestamp of a cell. *)
Definition time_cell (p : parsed) : cell :=
  match p with
  | Stamp ns => VTimestamp ns
  | Unparsed => VNaT
  | Aware ns off => VDatetime ns off
  end.

Definition cell_time (c : cell) : option Z :=
  match c with VTimestamp ns => Some ns | _ => None end.

(** The instant a value parsed to, if it parsed. *)
Definition instant (p : parsed) : option Z :=
  match p with
  | Stamp ns => Some ns
  | Unparsed => None
  | Aware ns _ => Some ns
  end.

(** A column of timestamps and [NaT] is a datetime column, and as an
    index a [DatetimeIndex]; with any other cell it is not. *)
Definition is_datetime64 (c : cell) : bool :=
  match c with VTimestamp _ | VNaT => true | _ => false end.

Definition HOUR : Z := 3600 * 1000000000.

(** Start of the hour a timestamp falls in. *)
Definition floor_hour (t : Z) : Z := t - t mod HOUR.

(** Timestamps of an index that are not [NaT]. *)
Fixpoint valid (idx : list (option Z)) : list Z :=
  match idx with
  | [] => []
  | Some t :: idx' => t :: valid idx'
  | None :: idx' => valid idx'
  end.

Definition minimum (t : Z) (ts : list Z) : Z := fold_left Z.min ts t.
Definition maximum (t : Z) (ts : list Z) : Z := fold_left Z.max ts t.

(** Number of timestamps in the window [[h, h + HOUR)]. *)
Definition in_window (h : Z) (ts : list Z) : Z :=
  Z.of_nat (length (filter (fun t => (h <=? t) && (t <? h + HOUR)) ts)).

(** Window starts [lo, lo + HOUR, ...], [n] of them. *)
Fixpoint windows (lo : Z) (n : nat) : list Z :=
  match n with
  | O => []
  | S n' => lo :: windows (lo + HOUR) n'
  end.

(** The hourly counts of an index, one entry per hour from the hour of
    the earliest timestamp to the hour of the latest one.  [NaT] entries
    fall in no window.  An index without entries gives an empty series; an
    index with entries that are all [NaT] has the edges [NaT], and the
    first bin cannot be computed from them ([NaT] has no [normalize]): an
    [AttributeError]. *)
Definition resample_hourly_size (idx : list (option Z))
    : result (list (Z * Z)) :=
  match idx with
  | [] => Ok []
  | _ :: _ =>
      match valid idx with
      | [] => Raise AttributeError
      | t :: ts =>
          let lo := floor_hour (minimum t ts) in
          let hi := floor_hour (maximum t ts) in
          let n := S (Z.to_nat ((hi - lo) / HOUR)) in
          Ok (map (fun h => (h, in_window h (t :: ts))) (windows lo n))
      end
  end.

(** [s.idxmax()]: the label of the first maximum. *)
Fixpoint idxmax_from (best : Z * Z) (s : list (Z * Z)) : Z :=
  match s with
  | [] => fst best
  | (h, c) :: s' =>
      if snd best <? c then idxmax_from (h, c) s'
      else idxmax_from best s'
  end.

Definition idxmax (s : list (Z * Z)) : result Z :=
  match s with
  | [] => Raise ValueError
  | b :: s' => Ok (idxmax_from b s')
  end.

End Pandas.
Import Pandas.

(* ------------------------------------------------------------------ *)
(** ** scikit-learn: [confusion_matrix(y_true, y_pred)] *)
(* ------------------------------------------------------------------ *)

Module Sklearn.

(** The class label of a target cell.  A missing value or a number that
    is not an integer is not a class label. *)
Definition label_of (c : cell) : result key :=
  match c with
  | VStr s => Ok (KStr s)
  | VInt _ | VFloat _ | VBool _ =>
      match num c with
      | Some q =>
          if Pos.eqb (Qden (Qred q)) 1 then Ok (KNum (Qred q))
          else Raise ValueError
      | None => Raise ValueError
      end
  | _ => Raise ValueError
  end.

Definition is_text (k : key) : bool :=
  match k with KStr _ => true | _ => false end.

(** Labels are all text or all numbers. *)
Definition one_kind (ks : list key) : bool :=
  forallb is_text ks || forallb (fun k => negb (is_text k)) ks.

Definition key_leb (a b : key) : bool :=
  match a, b with
  | KNum p, KNum q => Qle_bool p q
  | KStr s, KStr t => String.leb s t
  | KTime s, KTime t => s <=? t
  | _, _ => true
  end.

(** [unique_labels]: the distinct labels in ascending order. *)
Fixpoint insert_unique (k : key) (l : list key) : list key :=
  match l with
  | [] => [k]
  | y :: l' =>
      if key_eqb k y then l
      else if key_leb k y then k :: l
      else y :: insert_unique k l'
  end.

Definition unique_labels (ks : list key) : list key :=
  fold_left (fun acc k => insert_unique k acc) ks [].

(** Number of samples with true label [a] and predicted label [b]. *)
Definition cooccur (a b : key) (pairs : list (key * key)) : Z :=
  Z.of_nat (length (filter (fun p => key_eqb (fst p) a && key_eqb (snd p) b)
                           pairs)).

(** Called without [labels=]: one row and one column per label that
    occurs in [y_true] or [y_pred]. *)
Definition confusion_matrix (y_true y_pred : list cell)
    : result (list (list Z)) :=
  bind_result (map_result label_of y_true) (fun t =>
  bind_result (map_result label_of y_pred) (fun p =>
  if one_kind (t ++ p) then
    let labels := unique_labels (t ++ p) in
    Ok (map (fun a => map (fun b => cooccur a b (combine t p)) labels)
            labels)
  else Raise ValueError)).

End Sklearn.
Import Sklearn.

(* ------------------------------------------------------------------ *)
(** ** plotly.express: the trendline of [px.scatter]

    [px.scatter(df, x=..., y=..., trendline="ols")] fits a line by ordinary
    least squares when more than one row has both values.  For the fit the
    rows are sorted by [x] and both columns are converted to floats: a
    column that holds text next to numbers cannot be sorted (a
    [TypeError]), and a text that does not read as a float cannot be
    converted (a [ValueError]).  With one complete row or none no line is
    fitted and nothing is converted. *)
(* ------------------------------------------------------------------ *)

Module Plotly.

Section Trendline.

(** Whether Python's [float] accepts a text. *)
Variable float_text : string -> bool.

Definition present (c : cell) : bool :=
  match c with VNaN | VNaT => false | _ => true end.

Definition is_str (c : cell) : bool :=
  match c with VStr _ => true | _ => false end.

(** [sort_values] compares the values that are present with each other. *)
Definition sortable (s : list cell) : bool :=
  forallb (fun c => is_str c || negb (present c)) s
  || forallb (fun c => negb (is_str c)) s.

(** [astype(np.float64)] on a value. *)
Definition converts (c : cell) : bool :=
  match c with VStr t => float_text t | _ => true end.

Definition ols_trendline (x y : list cell) : result unit :=
  let complete :=
    filter (fun p => present (fst p) && present (snd p)) (combine x y) in
  if (1 <? length complete)%nat then
    if negb (sortable x) then Raise TypeError
    else if forallb converts x && forallb converts y then Ok tt
    else Raise ValueError
  else Ok tt.

End Trendline.

End Plotly.
Import Plotly.

(* ------------------------------------------------------------------ *)
(** ** Streamlit: the page and the script monad *)
(* ------------------------------------------------------------------ *)

Module Streamlit.

(** A piece of an f-string: literal text or a formatted value. *)
Inductive piece : Type :=
| Lit (s : string)
| FmtInt (z : Z)                       (* [f"{z:,}"] *)
| FmtFloat2 (x : pyfloat)              (* [f"{x:.2f}"] *)
| FmtCell (c : cell)                   (* [f"{c}"] *)
| FmtJoin (sep : string) (ks : list key)  (* [sep.join(map(str, ks))] *)
| FmtHour (ns : Z).                    (* [strftime('%Y-%m-%d %H:00')] *)

Definition text : Type := list piece.

Inductive figure : Type :=
| Pie (names : list string) (vals : list Z) (title : string)
| Scatter (points : DataFrame) (title : string)
| Heatmap (m : Matrix) (title : string).

Inductive widget : Type :=
| Title (s : string)
| Caption (t : text)
| ErrorBox (t : text)
| WarningBox (s : string)
| InfoBox (s : string)
| SuccessBox (s : string)
| Metric (label : string) (value : text)
| Divider
| Subheader (s : string)
| Write (t : text)
| PlotlyChart (f : figure).

(** A script: from the page so far to how it ends and the page then. *)
Definition M (A : Type) : Type := list widget -> result A * list widget.

Definition ret {A : Type} (a : A) : M A := fun page => (Ok a, page).

Definition bind {A B : Type} (m : M A) (k : A -> M B) : M B :=
  fun page =>
    match m page with
    | (Ok a, page') => k a page'
    | (Stopped, page') => (Stopped, page')
    | (Raise e, page') => (Raise e, page')
    end.

(** A computation that draws nothing. *)
Definition lift {A : Type} (r : result A) : M A := fun page => (r, page).

Definition emit (w : widget) : M unit := fun page => (Ok tt, page ++ [w]).

(** [st.stop()] *)
Definition stop : M unit := fun page => (Stopped, page).

Definition when (b : bool) (m : M unit) : M unit :=
  if b then m else ret tt.

Fixpoint for_each {A : Type} (l : list A) (body : A -> M unit) : M unit :=
  match l with
  | [] => ret tt
  | x :: l' => bind (body x) (fun _ => for_each l' body)
  end.

Definition run {A : Type} (m : M A) : result A * list widget := m [].

End Streamlit.
Import Streamlit.

Notation "x <- c1 ;; c2" := (bind c1 (fun x => c2))
  (at level 61, c1 at next level, right associativity).
Notation "c1 ;; c2" := (bind c1 (fun _ => c2))
  (at level 61, right associativity).

(* ------------------------------------------------------------------ *)
(** ** The script *)
(* ------------------------------------------------------------------ *)

Module App.

Section Script.

(** The world of a run: the file reader, numpy's sort, the random
    generator behind [DataFrame.sample], Python's reading of a text as a
    float, and the datetime parser (it returns what it makes of each value
    of the column, or raises, as on a column of booleans). *)
Variable read_csv : string -> result DataFrame.
Variable argsort : list nat -> list nat.
Variable choice : nat -> nat -> list nat.
Variable float_text : string -> bool.
Variable to_datetime : list cell -> outcome (list parsed).

(** *** Load data *)

Definition load_csv (path : string) : result DataFrame :=
  match read_csv path with
  | Ok df => Ok df
  | _ => Ok empty_frame
  end.

(** *** Basic split *)

Definition total (df_full : DataFrame) : Z := len df_full.

Definition total_anoms (df_full df_expl : DataFrame) : intval :=
  if has_column "predicted" df_full then
    NpInt64 (count_eq (VInt 1) (column "predicted" df_full))
  else if has_column "classification" df_full then
    NpInt64 (count_eq (VInt 1) (column "classification" df_full))
  else PyInt (len df_expl).

Definition total_norms (df_full df_expl : DataFrame) : Z :=
  total df_full - int_of (total_anoms df_full df_expl).

Definition anom_rate (df_full df_expl : DataFrame) : result pyfloat :=
  if 0 <? total df_full then
    bind_result (truediv (total_anoms df_full df_expl) (total df_full))
                (fun x => Ok (mul100 x))
  else Ok (Finite 0).

Record Summary : Type := mkSummary {
  s_total : Z;
  s_anoms : Z;
  s_norms : Z;
  s_rate : pyfloat
}.

(** Lines 46--57 as one function. *)
Definition summarize (df_full df_expl : DataFrame) : result Summary :=
  bind_result (anom_rate df_full df_expl) (fun rate =>
  Ok (mkSummary (total df_full)
                (int_of (total_anoms df_full df_expl))
                (total_norms df_full df_expl)
                rate)).

Definition metrics (df_full df_expl : DataFrame) : M unit :=
  rate <- lift (anom_rate df_full df_expl) ;;
  emit (Metric "Total Requests" [FmtInt (total df_full)]) ;;
  emit (Metric "Detected Anomalies"
               [FmtInt (int_of (total_anoms df_full df_expl))]) ;;
  emit (Metric "Anomaly Rate" [FmtFloat2 rate; Lit "%"]).

Definition traffic_mix (df_full df_expl : DataFrame) : M unit :=
  emit (Subheader "📊 Traffic Mix") ;;
  emit (PlotlyChart
          (Pie ["Normal"; "Anomalous"]
               [total_norms df_full df_expl;
                int_of (total_anoms df_full df_expl)]
               "Normal vs Anomalous")).

(** *** Model accuracy *)

(** [(a == b).mean()] *)
Definition match_mean (a b : list cell) : pyfloat :=
  match combine a b with
  | [] => FNaN
  | ps =>
      Finite (inject_Z (Z.of_nat (length (filter (fun p =>
                          cell_eqb (fst p) (snd p)) ps)))
              / inject_Z (Z.of_nat (length ps)))
  end.

Definition accuracy (acc_df : DataFrame) : pyfloat :=
  mul100 (match_mean (column "true_label" acc_df)
                     (column "predicted" acc_df)).

Definition cm (acc_df : DataFrame) : result (list (list Z)) :=
  confusion_matrix (column "true_label" acc_df)
                   (column "predicted" acc_df).

Definition cm_df (acc_df : DataFrame) : result Matrix :=
  bind_result (cm acc_df) (fun m =>
  frame_of_matrix m ["Actual Normal"; "Actual Attack"]
                    ["Pred Normal"; "Pred Attack"]).

(** Lines 98--105: the scatter plot of a sample, once its trendline is
    fitted. *)
Definition fig_reg (points : DataFrame) : result figure :=
  bind_result (ols_trendline float_text (column "true_label" points)
                             (column "predicted" points)) (fun _ =>
  Ok (Scatter points "True Label vs Predicted (Regression Fit)")).

Definition accuracy_section (df_pred : DataFrame) : M unit :=
  emit (Subheader "📈 Model Accuracy & Regression Plot") ;;
  if negb (empty df_pred) && has_column "true_label" df_pred
     && has_column "predicted" df_pred
  then
    let acc_df := select ["true_label"; "predicted"] df_pred in
    emit (Metric "Model Accuracy" [FmtFloat2 (accuracy acc_df); Lit "%"]) ;;
    points <- lift (sample choice
                      (Nat.min 2000 (length (rows acc_df))) acc_df) ;;
    fig <- lift (fig_reg points) ;;
    emit (PlotlyChart fig) ;;
    m <- lift (cm_df acc_df) ;;
    emit (PlotlyChart (Heatmap m "Confusion Matrix"))
  else
    emit (WarningBox
      "⚠️ Prediction dataset not loaded or missing `true_label` / `predicted` columns.").

(** *** Insights *)

Definition top_threats (df_expl : DataFrame) : list key :=
  top3 argsort (column "reasons" df_expl).

Definition top_ips (df_expl : DataFrame) : list key :=
  top3 argsort (column "host" df_expl).

(** The table after line 149: the column is overwritten with what it
    parses to.  (If the parser raises, the table is as it was.) *)
Definition coerce_timestamps (df_expl : DataFrame) : DataFrame :=
  match to_datetime (column "timestamp" df_expl) with
  | Returns stamps => set_column "timestamp" (map time_cell stamps) df_expl
  | Raises _ => df_expl
  end.

(** Line 150: [resample] asks for a [DatetimeIndex] and raises a
    [TypeError] on any other index. *)
Definition hourly (df_expl : DataFrame) : result (list (Z * Z)) :=
  let index := column "timestamp" df_expl in
  if forallb is_datetime64 index
  then resample_hourly_size (map cell_time index)
  else Raise TypeError.

(** Lines 150--153 on the coerced table: the peak, if one is written. *)
Definition peak (df_expl : DataFrame) : result (option Z) :=
  bind_result (hourly df_expl) (fun h =>
  if (0 <? length h)%nat then
    bind_result (idxmax h) (fun p => Ok (Some p))
  else Ok None).

(** The section returns the table as it leaves it. *)
Definition insights_section (df_expl : DataFrame) : M DataFrame :=
  emit (Subheader "🔎 Key Insights (From Explained Anomalies)") ;;
  if negb (empty df_expl) then
    when (has_column "reasons" df_expl)
         (s <- lift (join ", " (top_threats df_expl)) ;;
          emit (Write [Lit "• Most common threats detected: **"; Lit s;
                       Lit "**"])) ;;
    when (has_column "host" df_expl)
         (emit (Write [Lit "• Top suspicious sources: **";
                       FmtJoin ", " (top_ips df_expl); Lit "**"])) ;;
    if has_column "timestamp" df_expl then
      stamps <- lift (result_of
                        (to_datetime (column "timestamp" df_expl))) ;;
      let df_expl' :=
        set_column "timestamp" (map time_cell stamps) df_expl in
      p <- lift (peak df_expl') ;;
      match p with
      | Some t =>
          emit (Write [Lit "• Peak suspicious activity at: **"; FmtHour t;
                       Lit "**"])
      | None => ret tt
      end ;;
      ret df_expl'
    else ret df_expl
  else
    emit (InfoBox "No GenAI explanations available yet.") ;;
    ret df_expl.

(** *** Recommended actions *)

Definition recommended_actions : M unit :=
  emit (Subheader "✅ Recommended Actions") ;;
  emit (Write [Lit "
- **Block or rate-limit** top suspicious IPs or User-Agents.  
- **Patch/remove legacy endpoints** (e.g., `/cgi-bin/*`).  
- **Restrict HTTP methods** to only `GET`, `POST`, `HEAD`.  
- **Enable WAF rules** for SQL keywords and path traversal.  
- **Investigate repeated server errors (5xx)** in logs.  
"]).

(** *** Sample alerts *)

(** What the loop body writes for one row of [sample.iterrows()]. *)
Definition alert_card (df : DataFrame) (row : list cell) : list widget :=
  [ ErrorBox [Lit "🚨 ";
              FmtCell (row_get df row "summary" (VStr "Suspicious request"))];
    Write [Lit "**Reason:** "; FmtCell (row_get df row "reasons" (VStr "-"))];
    Write [Lit "**Impact:** "; FmtCell (row_get df row "impact" (VStr "-"))];
    Write [Lit "**Suggested Action:** ";
           FmtCell (row_get df row "suggested_action" (VStr "-"))];
    Caption
      [Lit "Method: "; FmtCell (row_get df row "Method" (VStr "-"));
       Lit " | URL: "; FmtCell (row_get df row "URL" (VStr "-"));
       Lit " | User-Agent: ";
       FmtCell (row_get df row "User-Agent" (VStr "-"))];
    Write [Lit "---"] ].

Definition alerts_section (df_expl : DataFrame) : M unit :=
  emit (Subheader "🚨 Sample Alerts (Top 5)") ;;
  if negb (empty df_expl) then
    let sample := head 5 df_expl in
    for_each (map (series_of df_expl) (rows sample))
             (fun row => for_each (alert_card sample row) emit)
  else
    emit (SuccessBox "✅ No anomaly explanations to show.").

(** *** The page, from validation on (lines 33--188) *)

Definition dashboard (df_full df_expl df_pred : DataFrame) : M unit :=
  when (empty df_full)
       (emit (ErrorBox [Lit "❌ Could not load full dataset."]) ;; stop) ;;
  when (empty df_expl)
       (emit (WarningBox
          "⚠️ No explained anomalies file loaded. Some insights may be missing.")) ;;
  when (empty df_pred)
       (emit (WarningBox
          "⚠️ No prediction results file loaded. Accuracy analysis may be missing.")) ;;
  metrics df_full df_expl ;;
  emit Divider ;;
  traffic_mix df_full df_expl ;;
  emit Divider ;;
  accuracy_section df_pred ;;
  emit Divider ;;
  df_expl' <- insights_section df_expl ;;
  emit Divider ;;
  recommended_actions ;;
  emit Divider ;;
  alerts_section df_expl'.

(** *** The whole script *)

Definition app (full_csv expl_csv pred_csv : string) : M unit :=
  emit (Title "🛡️ MSME Cybersecurity Insights") ;;
  emit (Caption
    [Lit "Business-friendly security insights based on anomaly detection + GenAI explanations"]) ;;
  df_full <- lift (load_csv full_csv) ;;
  df_expl <- lift (load_csv expl_csv) ;;
  df_pred <- lift (load_csv pred_csv) ;;
  dashboard df_full df_expl df_pred.

End Script.

End App.
Import App.

(* ------------------------------------------------------------------ *)
(** ** Vocabulary of the specification

    Definitions the statements below are written with: rows counted
    directly, the parts of the page, the order that describes the most
    frequent values, and the tables of the examples. *)
(* ------------------------------------------------------------------ *)

(** *** Rows counted directly *)

(** Number of rows whose cell under [name] equals [v]. *)
Definition rows_where (name : string) (v : cell) (df : DataFrame) : Z :=
  Z.of_nat (length (filter (fun r => cell_eqb (row_get df r name VNaN) v)
                           (rows df))).

(** Number of rows whose cells under [a] and [b] are equal. *)
Definition rows_agreeing (a b : string) (df : DataFrame) : Z :=
  Z.of_nat (length (filter (fun r => cell_eqb (row_get df r a VNaN)
                                              (row_get df r b VNaN))
                           (rows df))).

(** Number of positions with true label [a] and predicted label [b]. *)
Definition pairs_where (a b : Z) (y_true y_pred : list cell) : Z :=
  Z.of_nat (length (filter (fun p => cell_eqb (fst p) (VInt a)
                                     && cell_eqb (snd p) (VInt b))
                           (combine y_true y_pred))).

(** *** The page in parts *)

(** A script is uniform when what it does is independent of the page it
    starts from: it ends the same way and appends the same elements. *)
Definition uniform {A : Type} (m : M A) : Prop :=
  forall page, m page = (fst (run m), page ++ snd (run m)).

(** The rate as the summarizer computes it. *)
Definition rate_of (df_full df_expl : DataFrame) : pyfloat :=
  Finite (if 0 <? len df_full then
            inject_Z (int_of (total_anoms df_full df_expl))
            / inject_Z (len df_full) * 100
          else 0).

(** What lines 37--41 write. *)
Definition warnings_page (df_expl df_pred : DataFrame) : list widget :=
  (if empty df_expl then
     [WarningBox
        "⚠️ No explained anomalies file loaded. Some insights may be missing."]
   else []) ++
  (if empty df_pred then
     [WarningBox
        "⚠️ No prediction results file loaded. Accuracy analysis may be missing."]
   else []).

(** What lines 62--83 write. *)
Definition summary_page (df_full df_expl : DataFrame) : list widget :=
  [ Metric "Total Requests" [FmtInt (len df_full)];
    Metric "Detected Anomalies"
           [FmtInt (int_of (total_anoms df_full df_expl))];
    Metric "Anomaly Rate" [FmtFloat2 (rate_of df_full df_expl); Lit "%"];
    Divider;
    Subheader "📊 Traffic Mix";
    PlotlyChart
      (Pie ["Normal"; "Anomalous"]
           [total_norms df_full df_expl;
            int_of (total_anoms df_full df_expl)]
           "Normal vs Anomalous");
    Divider ].

(** The sample the scatter plot is drawn from (line 99). *)
Definition sample_points (choice : nat -> nat -> list nat)
    (df_pred : DataFrame) : DataFrame :=
  let n := length (rows df_pred) in
  take (choice n (Nat.min 2000 n)) (select ["true_label"; "predicted"] df_pred).

(** How fitting the trendline of that sample ends (line 98). *)
Definition trendline_of (choice : nat -> nat -> list nat)
    (float_text : string -> bool) (df_pred : DataFrame) : result unit :=
  ols_trendline float_text
    (column "true_label" (sample_points choice df_pred))
    (column "predicted" (sample_points choice df_pred)).

(** A text that Python does not read as a number. *)
Definition not_a_number (float_text : string -> bool) (c : cell) : bool :=
  match c with
  | VStr s => negb (float_text s)
  | _ => false
  end.

(** A column without text. *)
Definition no_text (s : list cell) : bool :=
  forallb (fun c => negb (is_str c)) s.

(** What the accuracy section writes before the scatter plot. *)
Definition accuracy_head (df_pred : DataFrame) : list widget :=
  [ Subheader "📈 Model Accuracy & Regression Plot";
    Metric "Model Accuracy"
           [FmtFloat2 (accuracy (select ["true_label"; "predicted"] df_pred));
            Lit "%"] ].

(** What the accuracy section writes before the confusion matrix. *)
Definition accuracy_front (choice : nat -> nat -> list nat)
    (df_pred : DataFrame) : list widget :=
  let acc_df := select ["true_label"; "predicted"] df_pred in
  let n := length (rows df_pred) in
  [ Subheader "📈 Model Accuracy & Regression Plot";
    Metric "Model Accuracy" [FmtFloat2 (accuracy acc_df); Lit "%"];
    PlotlyChart
      (Scatter (take (choice n (Nat.min 2000 n)) acc_df)
               "True Label vs Predicted (Regression Fit)") ].

Section Page_vocabulary.

Variable argsort : list nat -> list nat.
Variable choice : nat -> nat -> list nat.
Variable float_text : string -> bool.
Variable to_datetime : list cell -> outcome (list parsed).

(** Lines 85--188: what follows the traffic mix. *)
Definition remainder (df_expl df_pred : DataFrame) : M unit :=
  accuracy_section choice float_text df_pred ;;
  emit Divider ;;
  df_expl' <- insights_section argsort to_datetime df_expl ;;
  emit Divider ;;
  recommended_actions ;;
  emit Divider ;;
  alerts_section df_expl'.

End Page_vocabulary.

(** The values the page reports under the label Model Accuracy. *)
Definition reported_accuracy (page : list widget) : list text :=
  flat_map (fun w =>
              match w with
              | Metric label v =>
                  if String.eqb label "Model Accuracy" then [v] else []
              | _ => []
              end) page.

(** The page shows a confusion matrix. *)
Definition has_heatmap (page : list widget) : bool :=
  existsb (fun w => match w with
                    | PlotlyChart (Heatmap _ _) => true
                    | _ => false
                    end) page.

(** The page shows one of the notices that stand in for the insights
    ([st.info]) and for the alerts ([st.success]). *)
Definition has_notice (page : list widget) : bool :=
  existsb (fun w => match w with
                    | InfoBox _ | SuccessBox _ => true
                    | _ => false
                    end) page.

(** The cell a card shows for a field: the cell of the row under the
    column of that name, or the placeholder when the table has no such
    column. *)
Definition shown (df : DataFrame) (row : list cell)
    (name placeholder : string) : cell :=
  match find (fun p => String.eqb name (fst p)) (combine (columns df) row)
  with
  | Some p => snd p
  | None => VStr placeholder
  end.

(** The claim about the headline as the specification words it: in every
    card, a [summary] that is absent or empty gives the placeholder. *)
Definition headline_defaults_when_absent_or_empty : Prop :=
  forall (df : DataFrame) (row : list cell),
    In row (rows (head 5 df)) ->
    has_column "summary" df = false
      \/ row_get df row "summary" VNaN = VNaN ->
    nth 0 (alert_card (head 5 df) row) Divider =
      ErrorBox [Lit "🚨 "; FmtCell (VStr "Suspicious request")].

(** *** The most frequent values *)

(** Equality of labels is decidable. *)
Definition key_eq_dec (a b : key) : {a = b} + {a <> b}.
Proof.
  decide equality;
    [ decide equality; [apply Pos.eq_dec | apply Z.eq_dec]
    | apply string_dec | apply Z.eq_dec ].
Defined.

(** How often a label occurs. *)
Definition occurrences (k : key) (ks : list key) : nat :=
  length (filter (key_eqb k) ks).

(** Where a label is first seen. *)
Fixpoint first_seen (k : key) (ks : list key) : nat :=
  match ks with
  | [] => O
  | k' :: ks' => if key_eqb k k' then O else S (first_seen k ks')
  end.

(** The count a table holds for a label. *)
Fixpoint count_of (k : key) (tbl : list (key * nat)) : nat :=
  match tbl with
  | [] => O
  | (k', n) :: tbl' => if key_eqb k k' then n else count_of k tbl'
  end.

(** [a] ranks before [b]: it occurs more often, or as often and is seen
    first. *)
Definition ranks_before (ks : list key) (a b : key) : Prop :=
  (occurrences b ks < occurrences a ks
   \/ (occurrences a ks = occurrences b ks
       /\ first_seen a ks < first_seen b ks))%nat.

(** The ranking in full, for a list [top] of most frequent values of a
    column [s]: its entries are distinct values of the column; there are
    three of them, or as many as the column has distinct values if these
    are fewer; they stand in rank order; and every value left out ranks
    after every value listed, so that equal counts are told apart by first
    appearance also across the cut after the third. *)
Definition most_frequent (s : list cell) (top : list key) : Prop :=
  let ks := dropna s in
  NoDup top /\
  (forall k, In k top -> In k ks) /\
  length top = Nat.min 3 (length (nodup key_eq_dec ks)) /\
  StronglySorted (ranks_before ks) top /\
  (forall k t, In k ks -> ~ In k top -> In t top -> ranks_before ks t k).

(** The same without a rule for equal counts: the entries stand in
    descending order of count, and no value left out occurs more often
    than a value listed. *)
Definition most_frequent_by_count (s : list cell) (top : list key) : Prop :=
  let ks := dropna s in
  NoDup top /\
  (forall k, In k top -> In k ks) /\
  length top = Nat.min 3 (length (nodup key_eq_dec ks)) /\
  StronglySorted (fun a b => (occurrences b ks <= occurrences a ks)%nat)
                 top /\
  (forall k t, In k ks -> ~ In k top -> In t top ->
               (occurrences k ks <= occurrences t ks)%nat).

(** Values of equal count stand in [top] in the order in which they are
    first seen in the column. *)
Definition ties_in_first_seen_order (s : list cell) (top : list key)
    : Prop :=
  let ks := dropna s in
  StronglySorted
    (fun a b => occurrences a ks = occurrences b ks ->
                (first_seen a ks < first_seen b ks)%nat)
    top.

(** The claim about the top lists as the specification words it, for a
    given sort: on a table with rows and the column, the three most
    frequent values in descending order of count, values of equal count
    in the order they are first seen. *)
Definition top_values_keep_first_seen_order
    (argsort : list nat -> list nat) : Prop :=
  forall df_expl : DataFrame,
    empty df_expl = false ->
    (has_column "reasons" df_expl = true ->
     most_frequent_by_count (column "reasons" df_expl)
                            (top_threats argsort df_expl)
     /\ ties_in_first_seen_order (column "reasons" df_expl)
                                 (top_threats argsort df_expl))
    /\ (has_column "host" df_expl = true ->
        most_frequent_by_count (column "host" df_expl)
                               (top_ips argsort df_expl)
        /\ ties_in_first_seen_order (column "host" df_expl)
                                    (top_ips argsort df_expl)).

(** The array [value_counts] hands to numpy's sort for a column: the
    counts of its distinct values, last seen first. *)
Definition counts_to_sort (s : list cell) : list nat :=
  rev (map snd (count_table (dropna s))).

(** [p] names each of [n] positions once. *)
Definition is_permutation (n : nat) (p : list nat) : bool :=
  (length p =? n)%nat
  && forallb (fun i => existsb (Nat.eqb i) p) (seq 0 n).

(** Neighbours in a list pass a test. *)
Fixpoint adjacent {A : Type} (test : A -> A -> bool) (l : list A) : bool :=
  match l with
  | [] => true
  | x :: l' =>
      match l' with
      | [] => true
      | y :: _ => test x y && adjacent test l'
      end
  end.

(** [p] is an outcome of sorting the counts [cs]: a permutation of the
    positions along which the counts do not decrease. *)
Definition sorts (cs : list nat) (p : list nat) : bool :=
  is_permutation (length cs) p
  && adjacent (fun i j => (nth i cs O <=? nth j cs O)%nat) p.

(** [p] is the outcome of a stable sort of [cs]: positions of equal
    counts stay in order. *)
Definition sorts_stably (cs : list nat) (p : list nat) : bool :=
  is_permutation (length cs) p
  && adjacent (fun i j => (nth i cs O <? nth j cs O)%nat
                          || ((nth i cs O =? nth j cs O)%nat && (i <? j)%nat))
              p.

(** The order of the ascending pass of [sort_values] and the order of
    its outcome, for elements with a count and a place in the input. *)
Section Orders.

Context {A : Type}.
Variable cnt : A -> nat.
Variable idx : A -> nat.

Definition asc_order (a b : A) : Prop :=
  (cnt a < cnt b \/ (cnt a = cnt b /\ idx b < idx a))%nat.

Definition desc_order (a b : A) : Prop :=
  (cnt b < cnt a \/ (cnt a = cnt b /\ idx a < idx b))%nat.

End Orders.

(** *** Binary labels *)

(** A label cell of a binary problem. *)
Definition binary (c : cell) : Prop := c = VInt 0 \/ c = VInt 1.

(** The labels Normal and Attack. *)
Definition K0 : key := KNum (0 # 1).
Definition K1 : key := KNum (1 # 1).

Definition class_of (c : cell) : key :=
  if cell_eqb c (VInt 1) then K1 else K0.

(** The labels met so far, in ascending order. *)
Definition seen (b0 b1 : bool) : list key :=
  (if b0 then [K0] else []) ++ (if b1 then [K1] else []).

(** *** Tables of the examples *)

(** One request without label columns, and three explanations. *)
Definition fallback_full : DataFrame :=
  mkDF ["Method"; "URL"] [[VStr "GET"; VStr "/index.jsp"]].

Definition fallback_expl : DataFrame :=
  mkDF ["reasons"] [[VStr "sqli"]; [VStr "xss"]; [VStr "sqli"]].

(** The pairs (0,0), (1,1), (1,0), (0,0). *)
Definition spec_predictions : DataFrame :=
  mkDF ["true_label"; "predicted"]
       [[VInt 0; VInt 0]; [VInt 1; VInt 1]; [VInt 1; VInt 0];
        [VInt 0; VInt 0]].

(** The pairs (0,0), (0,1), (1,0), (1,1). *)
Definition spec_pairs : DataFrame :=
  mkDF ["true_label"; "predicted"]
       [[VInt 0; VInt 0]; [VInt 0; VInt 1]; [VInt 1; VInt 0];
        [VInt 1; VInt 1]].

(** A predictions table in which one class only occurs. *)
Definition single_class : DataFrame :=
  mkDF ["true_label"; "predicted"] [[VInt 0; VInt 0]].

(** One explanation whose [summary] is empty. *)
Definition empty_summary : DataFrame :=
  mkDF ["summary"; "reasons"] [[VNaN; VStr "sqli"]].

(** Two explanations without a [summary] column. *)
Definition two_explanations : DataFrame :=
  mkDF ["reasons"; "URL"]
       [[VStr "sqli"; VStr "/a"]; [VStr "xss"; VStr "/b"]].

(** Predictions labelled in words. *)
Definition text_labels : DataFrame :=
  mkDF ["true_label"; "predicted"]
       [[VStr "normal"; VStr "normal"]; [VStr "attack"; VStr "normal"]].

(** One explanation whose reason is a number. *)
Definition numeric_reason : DataFrame :=
  mkDF ["reasons"; "URL"] [[VInt 404; VStr "/a"]].

(** Thirty-eight explanations, each with a reason of its own. *)
Definition thirty_eight_reasons : DataFrame :=
  mkDF ["reasons"]
       (map (fun r => [VStr r])
            ["r00"; "r01"; "r02"; "r03"; "r04"; "r05"; "r06"; "r07"; "r08";
             "r09"; "r10"; "r11"; "r12"; "r13"; "r14"; "r15"; "r16"; "r17";
             "r18"; "r19"; "r20"; "r21"; "r22"; "r23"; "r24"; "r25"; "r26";
             "r27"; "r28"; "r29"; "r30"; "r31"; "r32"; "r33"; "r34"; "r35";
             "r36"; "r37"]).

(** Five explanations with the reasons x, x, y, y, z and three hosts. *)
Definition five_reasons : DataFrame :=
  mkDF ["reasons"; "host"]
       [[VStr "x"; VStr "10.0.0.1"]; [VStr "x"; VStr "10.0.0.2"];
        [VStr "y"; VStr "10.0.0.2"]; [VStr "y"; VStr "10.0.0.3"];
        [VStr "z"; VStr "10.0.0.2"]].

(** One explanation whose timestamp does not parse. *)
Definition bad_timestamp : DataFrame :=
  mkDF ["summary"; "timestamp"]
       [[VStr "SQL keywords in query"; VStr "yesterday"]].

(** A parser for which nothing parses. *)
Definition parse_nothing (s : list cell) : outcome (list parsed) :=
  Returns (map (fun _ => Unparsed) s).

(** Eleven explanations: three in the hour from 10:00, seven in the hour
    from 11:00, one without a time. *)
Definition two_hours : DataFrame :=
  mkDF ["timestamp"]
       [[VStr "10:05"]; [VStr "11:10"]; [VStr "10:20"]; [VStr "11:15"];
        [VStr "n/a"]; [VStr "11:30"]; [VStr "10:40"]; [VStr "11:45"];
        [VStr "11:50"]; [VStr "11:55"]; [VStr "11:59"]].

Definition MINUTE : Z := 60 * 1000000000.

(** A parser for the table above, on the first day of the epoch. *)
Definition parse_two_hours (s : list cell) : outcome (list parsed) :=
  Returns (map (fun c =>
         match c with
         | VStr "10:05" => Stamp (10 * HOUR + 5 * MINUTE)
         | VStr "10:20" => Stamp (10 * HOUR + 20 * MINUTE)
         | VStr "10:40" => Stamp (10 * HOUR + 40 * MINUTE)
         | VStr "11:10" => Stamp (11 * HOUR + 10 * MINUTE)
         | VStr "11:15" => Stamp (11 * HOUR + 15 * MINUTE)
         | VStr "11:30" => Stamp (11 * HOUR + 30 * MINUTE)
         | VStr "11:45" => Stamp (11 * HOUR + 45 * MINUTE)
         | VStr "11:50" => Stamp (11 * HOUR + 50 * MINUTE)
         | VStr "11:55" => Stamp (11 * HOUR + 55 * MINUTE)
         | VStr "11:59" => Stamp (11 * HOUR + 59 * MINUTE)
         | _ => Unparsed
         end) s).

(** Two explanations stamped in different zones, and a parser for them:
    the same wall-clock time, one and two hours ahead of UTC. *)
Definition two_zones : DataFrame :=
  mkDF ["timestamp"]
       [[VStr "1970-01-01T10:00+01:00"]; [VStr "1970-01-01T10:00+02:00"]].

Definition parse_two_zones (s : list cell) : outcome (list parsed) :=
  Returns (map (fun c =>
         match c with
         | VStr "1970-01-01T10:00+01:00" => Aware (9 * HOUR) HOUR
         | VStr "1970-01-01T10:00+02:00" => Aware (8 * HOUR) (2 * HOUR)
         | _ => Unparsed
         end) s).

(** *** The page of a whole run *)

(** The table a path loads as: what the reader delivers, or the empty
    table when reading fails. *)
Definition loaded (read_csv : string -> result DataFrame) (path : string)
    : DataFrame :=
  match read_csv path with
  | Ok df => df
  | _ => empty_frame
  end.

(** What lines 7--8 write. *)
Definition header_page : list widget :=
  [ Title "🛡️ MSME Cybersecurity Insights";
    Caption
      [Lit "Business-friendly security insights based on anomaly detection + GenAI explanations"] ].

(** What line 34 writes. *)
Definition load_error : widget :=
  ErrorBox [Lit "❌ Could not load full dataset."].

(** The accuracy section without its analysis (lines 88 and 127). *)
Definition accuracy_skipped_page : list widget :=
  [ Subheader "📈 Model Accuracy & Regression Plot";
    WarningBox
      "⚠️ Prediction dataset not loaded or missing `true_label` / `predicted` columns." ].

(** The lines of the insights section (lines 134, 140, 145, 153, 155). *)
Definition insights_head : widget :=
  Subheader "🔎 Key Insights (From Explained Anomalies)".

Definition text_of (k : key) : string :=
  match k with KStr s => s | _ => EmptyString end.

Definition threats_line (ks : list key) : widget :=
  Write [Lit "• Most common threats detected: **";
         Lit (String.concat ", " (map text_of ks)); Lit "**"].

Definition sources_line (ks : list key) : widget :=
  Write [Lit "• Top suspicious sources: **"; FmtJoin ", " ks; Lit "**"].

Definition peak_line (h : Z) : widget :=
  Write [Lit "• Peak suspicious activity at: **"; FmtHour h; Lit "**"].

Definition no_insights_page : list widget :=
  [insights_head; InfoBox "No GenAI explanations available yet."].

(** The threats line and the sources line, each if its column is there. *)
Definition insights_lines (argsort : list nat -> list nat)
    (df_expl : DataFrame) : list widget :=
  (if has_column "reasons" df_expl
   then [threats_line (top_threats argsort df_expl)] else []) ++
  (if has_column "host" df_expl
   then [sources_line (top_ips argsort df_expl)] else []).

(** What lines 162--169 write. *)
Definition actions_page : list widget := snd (run recommended_actions).

(** What lines 176--188 write for a table. *)
Definition no_alerts_page : list widget :=
  [ Subheader "🚨 Sample Alerts (Top 5)";
    SuccessBox "✅ No anomaly explanations to show." ].

Definition alerts_page (df_expl : DataFrame) : list widget :=
  if empty df_expl then no_alerts_page
  else Subheader "🚨 Sample Alerts (Top 5)"
         :: flat_map (alert_card (head 5 df_expl))
                     (map (series_of df_expl) (firstn 5 (rows df_expl))).

(** *** Rows, labels and samples *)

(** Number of rows whose cell under [name] does not equal [v]; a missing
    cell equals nothing. *)
Definition rows_where_not (name : string) (v : cell) (df : DataFrame) : Z :=
  Z.of_nat (length (filter (fun r =>
                              negb (cell_eqb (row_get df r name VNaN) v))
                           (rows df))).

(** The column the anomaly count is read from, if there is one (lines
    48--52). *)
Definition label_column (df_full : DataFrame) : option string :=
  if has_column "predicted" df_full then Some "predicted"
  else if has_column "classification" df_full then Some "classification"
  else None.

(** Some cell of the table is text.  pandas then keeps a row of
    [iterrows] as it is stored, each cell with its own type; rows of
    numbers only are converted to one common type. *)
Definition has_text (df : DataFrame) : bool :=
  existsb (existsb (fun c => match c with VStr _ => true | _ => false end))
          (rows df).

(** A cell that is text or missing. *)
Definition text_or_missing (c : cell) : bool :=
  match key_of c with
  | Some k => is_text k
  | None => true
  end.

(** Two labels occur in a list, and no third one. *)
Definition two_labels (ks : list key) : Prop :=
  exists a b : key,
    a <> b /\ In a ks /\ In b ks /\ forall k, In k ks -> k = a \/ k = b.

(** A label as [label_of] delivers it: text, or a number in lowest
    terms. *)
Definition is_label (k : key) : Prop :=
  match k with
  | KNum q => Qred q = q
  | KStr _ => True
  | KTime _ => False
  end.

(** The generator draws [k] distinct positions of a population of [n]. *)
Definition draws_without_replacement (choice : nat -> nat -> list nat)
    : Prop :=
  forall n k : nat,
    (k <= n)%nat ->
    length (choice n k) = k /\
    NoDup (choice n k) /\
    Forall (fun i => (i < n)%nat) (choice n k).

(** The parser left no value as a [datetime] object with an offset of
    its own: what it returns is a datetime column. *)
Definition datetime64 (stamps : list parsed) : bool :=
  forallb (fun p => match p with Aware _ _ => false | _ => true end) stamps.

(** A reader that finds the full table only. *)
Definition read_full_only (path : string) : result DataFrame :=
  if String.eqb path "csic_database.csv" then Ok fallback_full
  else Raise OSError.

(* ------------------------------------------------------------------ *)
(** ** Basic facts about tables *)
(* ------------------------------------------------------------------ *)

Lemma position_present (name : string) (cols : list string) :
  existsb (String.eqb name) cols = true ->
  exists i, position name cols = Some i.
Proof.
  induction cols as [|c cols IH]; simpl; [discriminate|].
  destruct (String.eqb name c); simpl; intros H.
  - now exists O.
  - destruct (IH H) as [i Hi]. rewrite Hi. now exists (S i).
Qed.

Lemma position_absent (name : string) (cols : list string) :
  existsb (String.eqb name) cols = false -> position name cols = None.
Proof.
  induction cols as [|c cols IH]; simpl; [reflexivity|].
  destruct (String.eqb name c); simpl; [discriminate|].
  intros H. now rewrite (IH H).
Qed.

Lemma column_rows (name : string) (df : DataFrame) :
  has_column name df = true ->
  column name df = map (fun r => row_get df r name VNaN) (rows df).
Proof.
  intros H. destruct (position_present _ _ H) as [i Hi].
  unfold column, row_get. now rewrite Hi.
Qed.

Lemma filter_map_length {A B : Type} (f : A -> B) (p : B -> bool)
    (l : list A) :
  length (filter p (map f l)) = length (filter (fun x => p (f x)) l).
Proof.
  induction l as [|x l IH]; simpl; [reflexivity|].
  destruct (p (f x)); simpl; now rewrite IH.
Qed.

Lemma count_eq_column (name : string) (v : cell) (df : DataFrame) :
  has_column name df = true ->
  count_eq v (column name df) = rows_where name v df.
Proof.
  intros H. unfold count_eq, rows_where.
  now rewrite (column_rows _ _ H), filter_map_length.
Qed.

Lemma empty_false_rows (df : DataFrame) :
  empty df = false -> 0 < len df.
Proof.
  unfold empty, len. destruct (rows df); [discriminate|].
  intros _. simpl length. lia.
Qed.

Lemma row_get_absent (df : DataFrame) (row : list cell) (name : string)
    (default : cell) :
  has_column name df = false -> row_get df row name default = default.
Proof.
  intros H. unfold row_get. now rewrite (position_absent _ _ H).
Qed.

Lemma position_nth_error (name : string) (cols : list string) (i : nat) :
  position name cols = Some i -> nth_error cols i = Some name.
Proof.
  revert i. induction cols as [|c cols IH]; simpl; [discriminate|].
  intros i. destruct (String.eqb_spec name c) as [->|_].
  - intros H. now inversion H.
  - destruct (position name cols) as [j|]; simpl; [|discriminate].
    intros H. inversion H. simpl. now apply IH.
Qed.

Lemma row_get_present (df : DataFrame) (row : list cell) (name : string)
    (default : cell) :
  has_column name df = true ->
  exists i, nth_error (columns df) i = Some name /\
            row_get df row name default = nth i row VNaN.
Proof.
  intros H. destruct (position_present _ _ H) as [i Hi].
  exists i. split; [now apply position_nth_error|].
  unfold row_get. now rewrite Hi.
Qed.

Lemma key_eqb_eq (a b : key) : key_eqb a b = true <-> a = b.
Proof.
  destruct a as [[p1 p2]|s|t], b as [[q1 q2]|s'|t']; simpl;
    try (split; [discriminate | intros H; discriminate H]).
  - rewrite andb_true_iff, Z.eqb_eq, Pos.eqb_eq.
    split; [intros [-> ->]; reflexivity | intros H; now inversion H].
  - rewrite String.eqb_eq. split; [now intros -> | intros H; now inversion H].
  - rewrite Z.eqb_eq. split; [now intros -> | intros H; now inversion H].
Qed.

Lemma key_eqb_refl (a : key) : key_eqb a a = true.
Proof. now apply key_eqb_eq. Qed.

Lemma key_eqb_neq (a b : key) : key_eqb a b = false <-> a <> b.
Proof.
  rewrite <- key_eqb_eq. destruct (key_eqb a b); split; congruence.
Qed.

Lemma key_eqb_sym (a b : key) : key_eqb a b = key_eqb b a.
Proof.
  destruct (key_eqb a b) eqn:E.
  - apply key_eqb_eq in E. subst. now rewrite key_eqb_refl.
  - destruct (key_eqb b a) eqn:E'; [|reflexivity].
    apply key_eqb_eq in E'. subst. now rewrite key_eqb_refl in E.
Qed.

(* ------------------------------------------------------------------ *)
(** ** Table Loader *)
(* ------------------------------------------------------------------ *)

(** C6. For every reader and every path, [load_csv] returns a table and
    never raises or stops: it returns what the reader returns when the
    reader succeeds, and in every other case the empty table, which has
    zero rows and no columns. *)
Theorem load_csv_never_raises :
  forall (read_csv : string -> result DataFrame) (path : string),
    exists df : DataFrame,
      load_csv read_csv path = Ok df /\
      (forall d, read_csv path = Ok d -> df = d) /\
      ((forall d, read_csv path <> Ok d) ->
         df = empty_frame /\ len df = 0 /\ columns df = []
         /\ empty df = true).
Proof.
  intros read_csv path. unfold load_csv.
  destruct (read_csv path) as [d| |e] eqn:E.
  - exists d. split; [reflexivity|]. split.
    + intros d' H. now inversion H.
    + intros H. now destruct (H d).
  - exists empty_frame. repeat split; intros; discriminate.
  - exists empty_frame. repeat split; intros; discriminate.
Qed.

(* ------------------------------------------------------------------ *)
(** ** Traffic Summarizer *)
(* ------------------------------------------------------------------ *)

(** C1. The anomaly count follows the column tiers in order: with a
    [predicted] column it is the number of rows whose [predicted] is 1;
    otherwise, with a [classification] column, the number of rows whose
    [classification] is 1; otherwise the row count of the explanations
    table.  A table with both columns therefore uses [predicted]. *)
Theorem total_anoms_tiers :
  forall df_full df_expl : DataFrame,
    int_of (total_anoms df_full df_expl) =
      if has_column "predicted" df_full then
        rows_where "predicted" (VInt 1) df_full
      else if has_column "classification" df_full then
        rows_where "classification" (VInt 1) df_full
      else len df_expl.
Proof.
  intros df_full df_expl. unfold total_anoms.
  destruct (has_column "predicted" df_full) eqn:Hp.
  - simpl. now apply count_eq_column.
  - destruct (has_column "classification" df_full) eqn:Hc.
    + simpl. now apply count_eq_column.
    + reflexivity.
Qed.

(** A table with both columns: [predicted] decides, [classification] is
    not read. *)
Example total_anoms_both_columns :
  int_of (total_anoms
            (mkDF ["classification"; "predicted"]
                  [[VInt 1; VInt 0]; [VInt 1; VInt 1]; [VInt 1; VInt 0]])
            (mkDF ["reasons"] [[VStr "a"]; [VStr "b"]; [VStr "c"];
                               [VStr "d"]])) = 1.
Proof. reflexivity. Qed.

Lemma truediv_nonzero (a : intval) (b : Z) :
  b <> 0 -> truediv a b = Ok (Finite (inject_Z (int_of a) / inject_Z b)).
Proof.
  intros H. unfold truediv.
  destruct (Z.eqb_spec b 0); [contradiction|reflexivity].
Qed.

Lemma anom_rate_value (df_full df_expl : DataFrame) :
  anom_rate df_full df_expl =
    Ok (Finite (if 0 <? len df_full then
                  inject_Z (int_of (total_anoms df_full df_expl))
                  / inject_Z (len df_full) * 100
                else 0)).
Proof.
  unfold anom_rate, total.
  destruct (Z.ltb_spec 0 (len df_full)) as [H|H]; [|reflexivity].
  rewrite truediv_nonzero by lia. reflexivity.
Qed.

(** C2. For all tables the summarizer returns (it does not raise):
    the total is the row count of the full table, the normal count is the
    total minus the anomaly count, so that the two counts add up to the
    total, and the rate is the finite number [anomalies / total * 100]
    when the total is positive and [0] when it is zero; it is never
    [NaN] or an infinity. *)
Theorem summarize_outputs :
  forall df_full df_expl : DataFrame,
    exists s : Summary,
      summarize df_full df_expl = Ok s /\
      s_total s = len df_full /\
      s_anoms s = int_of (total_anoms df_full df_expl) /\
      s_norms s = s_total s - s_anoms s /\
      s_anoms s + s_norms s = s_total s /\
      s_rate s =
        Finite (if 0 <? s_total s then
                  inject_Z (s_anoms s) / inject_Z (s_total s) * 100
                else 0) /\
      is_finite (s_rate s) = true.
Proof.
  intros df_full df_expl. unfold summarize.
  rewrite anom_rate_value. simpl.
  eexists. split; [reflexivity|]. simpl.
  unfold total_norms, total. repeat split; lia.
Qed.

(* ------------------------------------------------------------------ *)
(** ** Scripts only append to the page *)
(* ------------------------------------------------------------------ *)

Lemma uniform_ret {A : Type} (a : A) : uniform (ret a).
Proof. intros page. unfold run, ret. simpl. now rewrite app_nil_r. Qed.

Lemma uniform_lift {A : Type} (r : result A) : uniform (lift r).
Proof. intros page. unfold run, lift. simpl. now rewrite app_nil_r. Qed.

Lemma uniform_emit (w : widget) : uniform (emit w).
Proof. intros page. reflexivity. Qed.

Lemma uniform_stop : uniform stop.
Proof. intros page. unfold run, stop. simpl. now rewrite app_nil_r. Qed.

Lemma uniform_bind {A B : Type} (m : M A) (k : A -> M B) :
  uniform m -> (forall a, uniform (k a)) -> uniform (bind m k).
Proof.
  intros Hm Hk page. unfold run, bind.
  rewrite (Hm page), (Hm []). simpl.
  destruct (fst (run m)) as [a| |e]; simpl.
  - rewrite (Hk a (page ++ snd (run m))), (Hk a (snd (run m))). simpl.
    now rewrite app_assoc.
  - reflexivity.
  - reflexivity.
Qed.

Lemma uniform_when (b : bool) (m : M unit) :
  uniform m -> uniform (when b m).
Proof. destruct b; simpl; [trivial | intros _; apply uniform_ret]. Qed.

Lemma uniform_for_each {A : Type} (l : list A) (body : A -> M unit) :
  (forall x, uniform (body x)) -> uniform (for_each l body).
Proof.
  intros H. induction l as [|x l IH]; simpl.
  - apply uniform_ret.
  - apply uniform_bind; [apply H | intros _; exact IH].
Qed.

(** The page of a sequence is the page of its first part followed by the
    page of the rest, if the first part ends normally. *)
Lemma run_bind {A B : Type} (m : M A) (k : A -> M B) :
  (forall a, uniform (k a)) ->
  run (bind m k) =
    match run m with
    | (Ok a, page) => (fst (run (k a)), page ++ snd (run (k a)))
    | (Stopped, page) => (Stopped, page)
    | (Raise e, page) => (Raise e, page)
    end.
Proof.
  intros Hk. unfold run at 1. unfold bind. fold (run m).
  destruct (run m) as [[a| |e] page]; try reflexivity.
  apply Hk.
Qed.

Lemma run_emit (w : widget) : run (emit w) = (Ok tt, [w]).
Proof. reflexivity. Qed.

Lemma for_each_emit (ws : list widget) :
  run (for_each ws emit) = (Ok tt, ws).
Proof.
  induction ws as [|w ws IH]; [reflexivity|].
  simpl for_each. rewrite run_bind by (intros _; apply uniform_for_each;
    intros; apply uniform_emit).
  rewrite run_emit, IH. reflexivity.
Qed.

Create HintDb uniform.
#[local] Hint Resolve uniform_ret uniform_lift uniform_emit uniform_stop
  uniform_when uniform_for_each : uniform.

Ltac uniform_step :=
  match goal with
  | |- uniform (bind _ _) => apply uniform_bind; [|intros]
  | |- uniform (when _ _) => apply uniform_when
  | |- uniform (if ?b then _ else _) => destruct b
  | |- uniform (match ?x with Some _ => _ | None => _ end) => destruct x
  | |- uniform (let _ := _ in _) => cbv zeta
  | |- forall _, _ => intros
  | |- uniform _ => solve [auto with uniform]
  end.

Section Sections_uniform.

Variable argsort : list nat -> list nat.
Variable choice : nat -> nat -> list nat.
Variable float_text : string -> bool.
Variable to_datetime : list cell -> outcome (list parsed).

Lemma uniform_metrics (df_full df_expl : DataFrame) :
  uniform (metrics df_full df_expl).
Proof. unfold metrics. repeat uniform_step. Qed.

Lemma uniform_traffic_mix (df_full df_expl : DataFrame) :
  uniform (traffic_mix df_full df_expl).
Proof. unfold traffic_mix. repeat uniform_step. Qed.

Lemma uniform_accuracy_section (df_pred : DataFrame) :
  uniform (accuracy_section choice float_text df_pred).
Proof. unfold accuracy_section. repeat uniform_step. Qed.

Lemma uniform_insights_section (df_expl : DataFrame) :
  uniform (insights_section argsort to_datetime df_expl).
Proof. unfold insights_section. repeat uniform_step. Qed.

Lemma uniform_recommended_actions : uniform recommended_actions.
Proof. unfold recommended_actions. repeat uniform_step. Qed.

Lemma uniform_alerts_section (df_expl : DataFrame) :
  uniform (alerts_section df_expl).
Proof. unfold alerts_section. repeat uniform_step. Qed.

Lemma uniform_dashboard (df_full df_expl df_pred : DataFrame) :
  uniform (dashboard argsort choice float_text to_datetime
             df_full df_expl df_pred).
Proof.
  unfold dashboard.
  repeat first
    [ apply uniform_metrics | apply uniform_traffic_mix
    | apply uniform_accuracy_section | apply uniform_insights_section
    | apply uniform_recommended_actions | apply uniform_alerts_section
    | uniform_step ].
Qed.

End Sections_uniform.

(* ------------------------------------------------------------------ *)
(** ** The page in parts *)
(* ------------------------------------------------------------------ *)

Section Page_parts.

Variable argsort : list nat -> list nat.
Variable choice : nat -> nat -> list nat.
Variable float_text : string -> bool.
Variable to_datetime : list cell -> outcome (list parsed).

Lemma uniform_remainder (df_expl df_pred : DataFrame) :
  uniform (remainder argsort choice float_text to_datetime df_expl df_pred).
Proof.
  unfold remainder.
  repeat first
    [ apply uniform_accuracy_section | apply uniform_insights_section
    | apply uniform_recommended_actions | apply uniform_alerts_section
    | uniform_step ].
Qed.

Lemma run_metrics (df_full df_expl : DataFrame) :
  run (metrics df_full df_expl) =
    (Ok tt, firstn 3 (summary_page df_full df_expl)).
Proof. unfold metrics. rewrite anom_rate_value. reflexivity. Qed.

(** A full table that is empty: the error, and nothing else. *)
Lemma dashboard_empty_full (df_full df_expl df_pred : DataFrame) :
  empty df_full = true ->
  run (dashboard argsort choice float_text to_datetime
         df_full df_expl df_pred) =
    (Stopped, [ErrorBox [Lit "❌ Could not load full dataset."]]).
Proof. intros H. unfold dashboard. rewrite H. reflexivity. Qed.

(** A full table with rows: warnings, the summary, then the remainder. *)
Lemma dashboard_nonempty_full (df_full df_expl df_pred : DataFrame) :
  empty df_full = false ->
  run (dashboard argsort choice float_text to_datetime
         df_full df_expl df_pred) =
    (fst (run (remainder argsort choice float_text to_datetime
                 df_expl df_pred)),
     warnings_page df_expl df_pred ++ summary_page df_full df_expl
       ++ snd (run (remainder argsort choice float_text to_datetime
                      df_expl df_pred))).
Proof.
  intros H. unfold dashboard. rewrite H.
  fold (remainder argsort choice float_text to_datetime df_expl df_pred).
  unfold run at 1, bind, when, metrics.
  rewrite anom_rate_value.
  unfold warnings_page, summary_page, traffic_mix, rate_of, total.
  destruct (empty df_expl), (empty df_pred); cbn -[remainder total_anoms
    total_norms len Qmult Qdiv inject_Z];
    rewrite (uniform_remainder df_expl df_pred); reflexivity.
Qed.

End Page_parts.

(* ------------------------------------------------------------------ *)
(** ** The fallback tier *)
(* ------------------------------------------------------------------ *)

Lemma rate_above_100 (a t : Z) :
  0 < t -> t < a -> (100 < inject_Z a / inject_Z t * 100)%Q.
Proof.
  intros Ht Ha.
  destruct t as [|p|p]; try lia.
  unfold Qlt, Qdiv, Qmult, Qinv, inject_Z. simpl. nia.
Qed.

(** C10. In the fallback tier (a full table with rows but neither a
    [predicted] nor a [classification] column) the anomaly count is the
    row count of the explanations table.  Whenever that table has more
    rows than the full table, the normal count is negative and the rate is
    above 100, and the page shows these very values: the anomaly metric,
    the rate metric and the pie chart carry them unchanged. *)
Theorem fallback_tier_unclamped :
  forall (argsort : list nat -> list nat)
         (choice : nat -> nat -> list nat)
         (float_text : string -> bool)
         (to_datetime : list cell -> outcome (list parsed))
         (df_full df_expl df_pred : DataFrame),
    empty df_full = false ->
    has_column "predicted" df_full = false ->
    has_column "classification" df_full = false ->
    len df_full < len df_expl ->
    total_anoms df_full df_expl = PyInt (len df_expl) /\
    total_norms df_full df_expl = len df_full - len df_expl /\
    total_norms df_full df_expl < 0 /\
    exists q : Q,
      anom_rate df_full df_expl = Ok (Finite q) /\
      (100 < q)%Q /\
      let page :=
        snd (run (dashboard argsort choice float_text to_datetime
                    df_full df_expl df_pred)) in
      In (Metric "Detected Anomalies" [FmtInt (len df_expl)]) page /\
      In (Metric "Anomaly Rate" [FmtFloat2 (Finite q); Lit "%"]) page /\
      In (PlotlyChart
            (Pie ["Normal"; "Anomalous"]
                 [len df_full - len df_expl; len df_expl]
                 "Normal vs Anomalous")) page.
Proof.
  intros argsort choice float_text to_datetime
    df_full df_expl df_pred Hne Hp Hc Hlt.
  pose proof (empty_false_rows _ Hne) as Hpos.
  assert (Ha : total_anoms df_full df_expl = PyInt (len df_expl)).
  { unfold total_anoms. now rewrite Hp, Hc. }
  assert (Hn : total_norms df_full df_expl = len df_full - len df_expl).
  { unfold total_norms, total. now rewrite Ha. }
  split; [exact Ha|]. split; [exact Hn|]. split; [lia|].
  exists (inject_Z (len df_expl) / inject_Z (len df_full) * 100)%Q.
  split.
  { rewrite anom_rate_value, Ha. simpl int_of.
    destruct (Z.ltb_spec 0 (len df_full)); [reflexivity | lia]. }
  split; [now apply rate_above_100|].
  cbv zeta. rewrite dashboard_nonempty_full by exact Hne.
  cbn [snd]. unfold summary_page, rate_of. rewrite Hn, Ha. simpl int_of.
  destruct (Z.ltb_spec 0 (len df_full)); [|lia].
  repeat split; apply in_or_app; right; apply in_or_app; left;
    simpl; tauto.
Qed.

(** One request, three explanations: -2 normal requests. *)
Lemma fallback_tier_unclamped_witness :
  total_norms fallback_full fallback_expl < 0.
Proof.
  exact (proj1 (proj2 (proj2
    (fallback_tier_unclamped aquicksort (fun _ k => seq 0 k) (fun _ => false)
       parse_nothing fallback_full fallback_expl empty_frame
       eq_refl eq_refl eq_refl eq_refl)))).
Defined.

(* ------------------------------------------------------------------ *)
(** ** Accuracy Analyzer *)
(* ------------------------------------------------------------------ *)

Lemma combine_map {A B C : Type} (f : A -> B) (g : A -> C) (l : list A) :
  combine (map f l) (map g l) = map (fun x => (f x, g x)) l.
Proof. induction l; simpl; congruence. Qed.

Lemma column_select_true_label (df : DataFrame) :
  column "true_label" (select ["true_label"; "predicted"] df) =
    map (fun r => row_get df r "true_label" VNaN) (rows df).
Proof.
  unfold column, select. cbn [columns rows].
  change (position "true_label" ["true_label"; "predicted"]) with (Some 0%nat).
  cbv iota. rewrite map_map. reflexivity.
Qed.

Lemma column_select_predicted (df : DataFrame) :
  column "predicted" (select ["true_label"; "predicted"] df) =
    map (fun r => row_get df r "predicted" VNaN) (rows df).
Proof.
  unfold column, select. cbn [columns rows].
  change (position "predicted" ["true_label"; "predicted"]) with (Some 1%nat).
  cbv iota. rewrite map_map. reflexivity.
Qed.

Lemma accuracy_select (df : DataFrame) :
  rows df <> [] ->
  accuracy (select ["true_label"; "predicted"] df) =
    Finite (inject_Z (rows_agreeing "true_label" "predicted" df)
            / inject_Z (len df) * 100).
Proof.
  intros Hne. unfold accuracy, match_mean.
  rewrite column_select_true_label, column_select_predicted, combine_map.
  destruct (map _ (rows df)) as [|x xs] eqn:E.
  { destruct (rows df); [contradiction | discriminate]. }
  rewrite <- E, filter_map_length, length_map. reflexivity.
Qed.

Lemma sample_at_most_all (choice : nat -> nat -> list nat) (df : DataFrame) :
  sample choice (Nat.min 2000 (length (rows df))) df =
    Ok (take (choice (length (rows df)) (Nat.min 2000 (length (rows df))))
             df).
Proof.
  unfold sample.
  destruct (Nat.ltb_spec (length (rows df))
                         (Nat.min 2000 (length (rows df)))); [lia|].
  reflexivity.
Qed.

(** *** The trendline of the scatter plot *)

Lemma ols_trendline_no_text (float_text : string -> bool)
    (x y : list cell) :
  no_text x = true -> no_text y = true ->
  ols_trendline float_text x y = Ok tt.
Proof.
  unfold no_text, ols_trendline. intros Hx Hy.
  destruct (1 <? _)%nat; [|reflexivity].
  unfold sortable. rewrite Hx, orb_true_r. cbn [negb].
  assert (Hc : forall s, forallb (fun c => negb (is_str c)) s = true ->
                         forallb (converts float_text) s = true).
  { intros s Hs. rewrite forallb_forall in *. intros c Hin.
    specialize (Hs c Hin). destruct c; try reflexivity; discriminate. }
  now rewrite (Hc x Hx), (Hc y Hy).
Qed.

(** A sample of a column without text holds no text: its cells are
    cells of the column, or missing. *)
Lemma no_text_take (name : string) (locs : list nat) (df : DataFrame) :
  no_text (column name df) = true ->
  no_text (column name (take locs df)) = true.
Proof.
  unfold no_text, column, take. cbn [columns rows].
  destruct (position name (columns df)) as [i|]; [|reflexivity].
  rewrite !forallb_forall. intros H c Hc.
  apply in_map_iff in Hc as (r & <- & Hr).
  apply in_map_iff in Hr as (j & <- & _).
  destruct (Nat.lt_ge_cases j (length (rows df))) as [Hj | Hj].
  - apply H. apply in_map. now apply nth_In.
  - rewrite (nth_overflow _ _ Hj). unfold at_pos. now destruct i.
Qed.

Lemma trendline_no_text (choice : nat -> nat -> list nat)
    (float_text : string -> bool) (df_pred : DataFrame) :
  let acc_df := select ["true_label"; "predicted"] df_pred in
  no_text (column "true_label" acc_df) = true ->
  no_text (column "predicted" acc_df) = true ->
  trendline_of choice float_text df_pred = Ok tt.
Proof.
  intros acc_df Ht Hp. unfold trendline_of, sample_points.
  apply ols_trendline_no_text; now apply no_text_take.
Qed.

Lemma run_accuracy_section (choice : nat -> nat -> list nat)
    (float_text : string -> bool)
    (df_pred : DataFrame) :
  empty df_pred = false ->
  has_column "true_label" df_pred = true ->
  has_column "predicted" df_pred = true ->
  run (accuracy_section choice float_text df_pred) =
    match trendline_of choice float_text df_pred with
    | Ok _ =>
        match cm_df (select ["true_label"; "predicted"] df_pred) with
        | Ok m =>
            (Ok tt, accuracy_front choice df_pred
                      ++ [PlotlyChart (Heatmap m "Confusion Matrix")])
        | Stopped => (Stopped, accuracy_front choice df_pred)
        | Raise e => (Raise e, accuracy_front choice df_pred)
        end
    | Stopped => (Stopped, accuracy_head df_pred)
    | Raise e => (Raise e, accuracy_head df_pred)
    end.
Proof.
  intros He Ht Hp. unfold accuracy_section. rewrite He, Ht, Hp.
  cbn [negb andb]. cbv zeta.
  rewrite sample_at_most_all.
  unfold accuracy_front, accuracy_head, trendline_of, sample_points, fig_reg.
  replace (length (rows (select ["true_label"; "predicted"] df_pred)))
    with (length (rows df_pred))
    by (unfold select; cbn [rows]; now rewrite length_map).
  unfold run, bind, emit, lift. cbn [List.app].
  destruct (ols_trendline _ _ _); cbn [bind_result]; [|reflexivity ..].
  destruct (cm_df _); reflexivity.
Qed.

(** With label columns that hold no text the trendline is fitted. *)
Lemma run_accuracy_section_no_text (choice : nat -> nat -> list nat)
    (float_text : string -> bool)
    (df_pred : DataFrame) :
  let acc_df := select ["true_label"; "predicted"] df_pred in
  empty df_pred = false ->
  has_column "true_label" df_pred = true ->
  has_column "predicted" df_pred = true ->
  no_text (column "true_label" acc_df) = true ->
  no_text (column "predicted" acc_df) = true ->
  run (accuracy_section choice float_text df_pred) =
    match cm_df acc_df with
    | Ok m =>
        (Ok tt, accuracy_front choice df_pred
                  ++ [PlotlyChart (Heatmap m "Confusion Matrix")])
    | Stopped => (Stopped, accuracy_front choice df_pred)
    | Raise e => (Raise e, accuracy_front choice df_pred)
    end.
Proof.
  intros acc_df He Ht Hp Hnt Hnp.
  rewrite (run_accuracy_section choice float_text _ He Ht Hp).
  now rewrite (trendline_no_text choice float_text df_pred Hnt Hnp).
Qed.

(** C3. For a predictions table with rows and both label columns, the
    accuracy the page reports is the share of rows of the whole table whose
    [true_label] equals their [predicted], times 100.  The sample for the
    scatter plot is drawn after that: it has [min(2000, row count)]
    positions, so drawing it never fails; a scatter plot on the page is a
    plot of that sample, and it is there whenever its trendline can be
    fitted.  Whatever the random generator picks, and whether or not the
    trendline can be fitted, the reported accuracy is the same. *)
Theorem accuracy_over_full_table :
  forall (choice : nat -> nat -> list nat) (float_text : string -> bool)
         (df_pred : DataFrame),
    empty df_pred = false ->
    has_column "true_label" df_pred = true ->
    has_column "predicted" df_pred = true ->
    let n := length (rows df_pred) in
    let acc_df := select ["true_label"; "predicted"] df_pred in
    let page := snd (run (accuracy_section choice float_text df_pred)) in
    reported_accuracy page =
      [[FmtFloat2
          (Finite (inject_Z (rows_agreeing "true_label" "predicted" df_pred)
                   / inject_Z (len df_pred) * 100));
        Lit "%"]] /\
    sample choice (Nat.min 2000 (length (rows acc_df))) acc_df =
      Ok (take (choice n (Nat.min 2000 n)) acc_df) /\
    (forall points title,
        In (PlotlyChart (Scatter points title)) page ->
        points = take (choice n (Nat.min 2000 n)) acc_df) /\
    (trendline_of choice float_text df_pred = Ok tt ->
       In (PlotlyChart
             (Scatter (take (choice n (Nat.min 2000 n)) acc_df)
                      "True Label vs Predicted (Regression Fit)")) page) /\
    forall (choice' : nat -> nat -> list nat)
           (float_text' : string -> bool),
      reported_accuracy
        (snd (run (accuracy_section choice' float_text' df_pred))) =
        reported_accuracy page.
Proof.
  intros choice float_text df_pred He Ht Hp.
  assert (Hrows : rows df_pred <> []).
  { intros E. unfold empty in He. now rewrite E in He. }
  assert (Hrep : forall c f,
    reported_accuracy (snd (run (accuracy_section c f df_pred))) =
      [[FmtFloat2
          (Finite (inject_Z (rows_agreeing "true_label" "predicted" df_pred)
                   / inject_Z (len df_pred) * 100));
        Lit "%"]]).
  { intros c f. rewrite (run_accuracy_section c f _ He Ht Hp).
    destruct (trendline_of c f df_pred); [destruct (cm_df _)| |];
      cbn [snd]; unfold accuracy_front, accuracy_head;
      rewrite (accuracy_select _ Hrows); reflexivity. }
  assert (Hlen : length (rows (select ["true_label"; "predicted"] df_pred))
                 = length (rows df_pred)).
  { unfold select. cbn [rows]. now rewrite length_map. }
  cbv zeta. split; [apply Hrep|]. split.
  { rewrite sample_at_most_all. now rewrite Hlen. }
  rewrite (run_accuracy_section choice float_text _ He Ht Hp).
  split; [|split].
  - intros points title.
    destruct (trendline_of choice float_text df_pred);
      [destruct (cm_df _)| |]; cbn [snd];
      unfold accuracy_front, accuracy_head; cbn [List.app In];
      intros H;
      repeat match goal with
             | H : _ \/ _ |- _ => destruct H as [H | H]
             end;
      try discriminate; try contradiction;
      injection H as <- _; reflexivity.
  - intros Hfit. rewrite Hfit.
    destruct (cm_df _); cbn [snd]; unfold accuracy_front;
      try apply in_or_app; simpl; tauto.
  - intros c f.
    rewrite <- (run_accuracy_section choice float_text _ He Ht Hp).
    now rewrite !Hrep.
Qed.

(** The pairs (0,0), (1,1), (1,0), (0,0): three rows of four agree, 75. *)
Lemma accuracy_over_full_table_witness :
  reported_accuracy
    (snd (run (accuracy_section (fun _ k => seq 0 k) (fun _ => false)
                 spec_predictions))) =
    [[FmtFloat2 (Finite (300 # 4)); Lit "%"]]
  /\ (300 # 4 == 75)%Q.
Proof.
  split.
  - exact (proj1 (accuracy_over_full_table (fun _ k => seq 0 k)
                    (fun _ => false) spec_predictions
                    eq_refl eq_refl eq_refl)).
  - reflexivity.
Defined.

(** *** The confusion matrix *)

Lemma labels_binary (l : list cell) :
  Forall binary l -> map_result label_of l = Ok (map class_of l).
Proof.
  induction 1 as [|c l [->| ->] _ IH]; [reflexivity| |];
    cbn [map_result map]; rewrite IH; reflexivity.
Qed.

Lemma class_of_cases (c : cell) :
  binary c -> class_of c = K0 \/ class_of c = K1.
Proof. intros [->| ->]; [now left | now right]. Qed.

Lemma unique_labels_binary (ks : list key) (b0 b1 : bool) :
  Forall (fun k => k = K0 \/ k = K1) ks ->
  fold_left (fun acc k => insert_unique k acc) ks (seen b0 b1) =
    seen (b0 || existsb (key_eqb K0) ks) (b1 || existsb (key_eqb K1) ks).
Proof.
  intros H. revert b0 b1.
  induction H as [|k ks [->| ->] _ IH]; intros b0 b1.
  - simpl. now rewrite !orb_false_r.
  - cbn [fold_left existsb].
    replace (insert_unique K0 (seen b0 b1)) with (seen true b1)
      by (destruct b0, b1; reflexivity).
    rewrite IH. change (key_eqb K0 K0) with true.
    change (key_eqb K1 K0) with false.
    now rewrite orb_true_r.
  - cbn [fold_left existsb].
    replace (insert_unique K1 (seen b0 b1)) with (seen b0 true)
      by (destruct b0, b1; reflexivity).
    rewrite IH. change (key_eqb K1 K1) with true.
    change (key_eqb K0 K1) with false.
    rewrite orb_true_r. reflexivity.
Qed.

Lemma existsb_class (a : Z) (k : key) (l : list cell) :
  class_of (VInt a) = k -> In (VInt a) l ->
  existsb (key_eqb k) (map class_of l) = true.
Proof.
  intros Hk Hin. apply existsb_exists. exists k. split.
  - rewrite <- Hk. now apply in_map.
  - apply key_eqb_refl.
Qed.

Lemma one_kind_binary (ks : list key) :
  Forall (fun k => k = K0 \/ k = K1) ks -> one_kind ks = true.
Proof.
  intros H. unfold one_kind. apply orb_true_iff. right.
  apply forallb_forall. intros k Hk. rewrite Forall_forall in H.
  destruct (H k Hk) as [->| ->]; reflexivity.
Qed.

Lemma cooccur_binary (a b : Z) (y_true y_pred : list cell) :
  (a = 0 \/ a = 1) -> (b = 0 \/ b = 1) ->
  Forall binary y_true -> Forall binary y_pred ->
  cooccur (class_of (VInt a)) (class_of (VInt b))
          (combine (map class_of y_true) (map class_of y_pred)) =
    pairs_where a b y_true y_pred.
Proof.
  intros Ha Hb Ht. revert y_pred.
  unfold cooccur, pairs_where.
  induction Ht as [|c y_true Hc _ IH]; intros y_pred Hp; [reflexivity|].
  destruct Hp as [|d y_pred Hd Hp]; [reflexivity|].
  specialize (IH y_pred Hp). cbn [map combine filter fst snd].
  assert (E : key_eqb (class_of c) (class_of (VInt a))
              && key_eqb (class_of d) (class_of (VInt b))
              = cell_eqb c (VInt a) && cell_eqb d (VInt b)).
  { destruct Hc as [->| ->], Hd as [->| ->], Ha as [->| ->],
      Hb as [->| ->]; reflexivity. }
  rewrite E. destruct (cell_eqb c (VInt a) && cell_eqb d (VInt b));
    cbn [length]; lia.
Qed.

(** When every label is 0 or 1 and both occur, the matrix has the rows
    Normal, Attack and the columns Normal, Attack, whatever the order of
    the rows of the table. *)
Lemma cm_df_binary (acc_df : DataFrame) :
  let y_true := column "true_label" acc_df in
  let y_pred := column "predicted" acc_df in
  Forall binary y_true -> Forall binary y_pred ->
  In (VInt 0) (y_true ++ y_pred) -> In (VInt 1) (y_true ++ y_pred) ->
  cm_df acc_df =
    Ok (mkMatrix ["Actual Normal"; "Actual Attack"]
                 ["Pred Normal"; "Pred Attack"]
                 [[pairs_where 0 0 y_true y_pred;
                   pairs_where 0 1 y_true y_pred];
                  [pairs_where 1 0 y_true y_pred;
                   pairs_where 1 1 y_true y_pred]]).
Proof.
  intros y_true y_pred Ht Hp H0 H1.
  unfold cm_df, cm, confusion_matrix. fold y_true y_pred.
  rewrite (labels_binary _ Ht), (labels_binary _ Hp). cbn [bind_result].
  assert (Hks : Forall (fun k => k = K0 \/ k = K1)
                       (map class_of y_true ++ map class_of y_pred)).
  { rewrite <- map_app. apply Forall_map.
    rewrite Forall_forall. intros c Hc. apply class_of_cases.
    apply in_app_or in Hc. rewrite Forall_forall in Ht, Hp.
    destruct Hc; auto. }
  rewrite (one_kind_binary _ Hks).
  unfold unique_labels. change (@nil key) with (seen false false).
  rewrite (unique_labels_binary _ _ _ Hks). cbn [orb].
  rewrite <- map_app.
  rewrite (existsb_class 0 K0 _ eq_refl H0),
          (existsb_class 1 K1 _ eq_refl H1).
  change (seen true true)
    with [class_of (VInt 0); class_of (VInt 1)].
  cbn [map].
  rewrite !cooccur_binary by (auto; lia).
  reflexivity.
Qed.

Example cm_df_spec_pairs :
  cm_df (select ["true_label"; "predicted"] spec_pairs) =
    Ok (mkMatrix ["Actual Normal"; "Actual Attack"]
                 ["Pred Normal"; "Pred Attack"]
                 [[1; 1]; [1; 1]]).
Proof. reflexivity. Qed.

(** Attack rows first: the rows and columns are still Normal, Attack. *)
Example cm_df_attack_first :
  cm_df (mkDF ["true_label"; "predicted"]
              [[VInt 1; VInt 1]; [VInt 1; VInt 1]; [VInt 1; VInt 0];
               [VInt 0; VInt 0]]) =
    Ok (mkMatrix ["Actual Normal"; "Actual Attack"]
                 ["Pred Normal"; "Pred Attack"]
                 [[1; 0]; [1; 2]]).
Proof. reflexivity. Qed.

(** C4. On a predictions table whose rows all carry the label 0 in both
    columns, [confusion_matrix] returns the 1x1 matrix [[1]], the labelled
    frame cannot be built from it, and the accuracy section ends with a
    [ValueError] after the accuracy and the scatter plot, without a
    confusion matrix on the page. *)
Theorem confusion_matrix_single_class :
  forall (choice : nat -> nat -> list nat) (float_text : string -> bool),
    empty single_class = false /\
    has_column "true_label" single_class = true /\
    has_column "predicted" single_class = true /\
    cm (select ["true_label"; "predicted"] single_class) = Ok [[1]] /\
    cm_df (select ["true_label"; "predicted"] single_class) =
      Raise ValueError /\
    run (accuracy_section choice float_text single_class) =
      (Raise ValueError, accuracy_front choice single_class).
Proof.
  intros choice float_text. repeat split.
  now rewrite run_accuracy_section_no_text.
Qed.

(* ------------------------------------------------------------------ *)
(** ** Degradation *)
(* ------------------------------------------------------------------ *)

(** If the accuracy section and the insights section end normally, the
    remainder of the page is the accuracy part, the insights part, the
    recommended actions and the alerts, each written whatever the others
    contain. *)
Lemma run_remainder (argsort : list nat -> list nat)
    (choice : nat -> nat -> list nat)
    (float_text : string -> bool)
    (to_datetime : list cell -> outcome (list parsed))
    (df_expl df_pred df_expl' : DataFrame) (pa pi : list widget) :
  run (accuracy_section choice float_text df_pred) = (Ok tt, pa) ->
  run (insights_section argsort to_datetime df_expl) = (Ok df_expl', pi) ->
  run (remainder argsort choice float_text to_datetime df_expl df_pred) =
    (fst (run (alerts_section df_expl')),
     pa ++ [Divider] ++ pi ++ [Divider]
        ++ snd (run recommended_actions) ++ [Divider]
        ++ snd (run (alerts_section df_expl'))).
Proof.
  intros Ha Hi. unfold remainder.
  rewrite run_bind, Ha.
  2:{ intros. repeat first
        [ apply uniform_insights_section | apply uniform_recommended_actions
        | apply uniform_alerts_section | uniform_step ]. }
  rewrite run_bind, run_emit.
  2:{ intros. repeat first
        [ apply uniform_insights_section | apply uniform_recommended_actions
        | apply uniform_alerts_section | uniform_step ]. }
  rewrite run_bind, Hi.
  2:{ intros. repeat first
        [ apply uniform_recommended_actions
        | apply uniform_alerts_section | uniform_step ]. }
  rewrite run_bind, run_emit.
  2:{ intros. repeat first
        [ apply uniform_recommended_actions
        | apply uniform_alerts_section | uniform_step ]. }
  rewrite run_bind.
  2:{ intros. repeat first [ apply uniform_alerts_section | uniform_step ]. }
  change (run recommended_actions) with
    (Ok tt, snd (run recommended_actions)).
  rewrite run_bind, run_emit by (intros; apply uniform_alerts_section).
  cbn [fst snd List.app]. reflexivity.
Qed.

(** An explanations table that is empty: the two sections that depend on
    it write their notices and nothing else. *)
Lemma run_insights_empty (argsort : list nat -> list nat)
    (to_datetime : list cell -> outcome (list parsed))
    (df_expl : DataFrame) :
  empty df_expl = true ->
  run (insights_section argsort to_datetime df_expl) =
    (Ok df_expl,
     [Subheader "🔎 Key Insights (From Explained Anomalies)";
      InfoBox "No GenAI explanations available yet."]).
Proof. intros H. unfold insights_section. rewrite H. reflexivity. Qed.

Lemma run_alerts_empty (df_expl : DataFrame) :
  empty df_expl = true ->
  run (alerts_section df_expl) =
    (Ok tt, [Subheader "🚨 Sample Alerts (Top 5)";
             SuccessBox "✅ No anomaly explanations to show."]).
Proof. intros H. unfold alerts_section. rewrite H. reflexivity. Qed.

(** A predictions table that is empty or lacks a label column: the
    accuracy section is its warning. *)
Lemma run_accuracy_skipped (choice : nat -> nat -> list nat)
    (float_text : string -> bool)
    (df_pred : DataFrame) :
  negb (empty df_pred) && has_column "true_label" df_pred
    && has_column "predicted" df_pred = false ->
  run (accuracy_section choice float_text df_pred) =
    (Ok tt,
     [Subheader "📈 Model Accuracy & Regression Plot";
      WarningBox
        "⚠️ Prediction dataset not loaded or missing `true_label` / `predicted` columns."]).
Proof. intros H. unfold accuracy_section. rewrite H. reflexivity. Qed.

(** C5. A full table with one row, no explanations, and predictions that
    all carry the label 0: the run ends with a [ValueError] in the accuracy
    section.  The metrics, the pie chart, the accuracy and the scatter plot
    are on the page; the confusion matrix, the notice that replaces the
    insights and the notice that replaces the alerts are not. *)
Theorem degradation_single_class_predictions :
  forall (argsort : list nat -> list nat)
         (choice : nat -> nat -> list nat)
         (float_text : string -> bool)
         (to_datetime : list cell -> outcome (list parsed)),
    let outcome :=
      run (dashboard argsort choice float_text to_datetime fallback_full
             empty_frame single_class) in
    empty fallback_full = false /\
    empty empty_frame = true /\
    empty single_class = false /\
    outcome =
      (Raise ValueError,
       warnings_page empty_frame single_class
         ++ summary_page fallback_full empty_frame
         ++ accuracy_front choice single_class) /\
    has_heatmap (snd outcome) = false /\
    has_notice (snd outcome) = false.
Proof.
  intros argsort choice float_text to_datetime. cbv zeta.
  assert (Hrun :
    run (dashboard argsort choice float_text to_datetime fallback_full
           empty_frame single_class) =
      (Raise ValueError,
       warnings_page empty_frame single_class
         ++ summary_page fallback_full empty_frame
         ++ accuracy_front choice single_class)).
  { rewrite dashboard_nonempty_full by reflexivity.
    unfold remainder.
    rewrite run_bind by
      (intros; repeat first
         [ apply uniform_insights_section
         | apply uniform_recommended_actions
         | apply uniform_alerts_section | uniform_step ]).
    now rewrite run_accuracy_section_no_text. }
  rewrite Hrun. repeat split.
Qed.

(** A [reasons] column of numbers: [join] refuses them, and the run
    ends in the insights section, before the alerts.  (The sources, joined
    through [str], have no such limit.) *)
Example degradation_numeric_reasons :
  forall (choice : nat -> nat -> list nat)
         (float_text : string -> bool)
         (to_datetime : list cell -> outcome (list parsed)),
    let outcome :=
      run (dashboard aquicksort choice float_text to_datetime fallback_full
             numeric_reason empty_frame) in
    fst outcome = Raise TypeError /\
    existsb (fun w => match w with ErrorBox _ => true | _ => false end)
            (snd outcome) = false.
Proof. intros choice float_text to_datetime. split; reflexivity. Qed.

(** The whole script when the full table cannot be read: title, caption
    and the error, then the run stops. *)
Lemma app_stops_without_full_table
    (read_csv : string -> result DataFrame)
    (argsort : list nat -> list nat)
    (choice : nat -> nat -> list nat)
    (float_text : string -> bool)
    (to_datetime : list cell -> outcome (list parsed))
    (full_csv expl_csv pred_csv : string) :
  (forall d, read_csv full_csv <> Ok d) ->
  run (app read_csv argsort choice float_text to_datetime
         full_csv expl_csv pred_csv) =
    (Stopped,
     [Title "🛡️ MSME Cybersecurity Insights";
      Caption
        [Lit "Business-friendly security insights based on anomaly detection + GenAI explanations"];
      ErrorBox [Lit "❌ Could not load full dataset."]]).
Proof.
  intros Hfail.
  assert (Hfull : load_csv read_csv full_csv = Ok empty_frame).
  { unfold load_csv. destruct (read_csv full_csv) as [d| |e] eqn:E;
      [now destruct (Hfail d) | reflexivity | reflexivity]. }
  assert (He : exists d, load_csv read_csv expl_csv = Ok d).
  { unfold load_csv. destruct (read_csv expl_csv); eauto. }
  assert (Hp : exists d, load_csv read_csv pred_csv = Ok d).
  { unfold load_csv. destruct (read_csv pred_csv); eauto. }
  destruct He as [de He], Hp as [dp Hp].
  unfold app. rewrite Hfull, He, Hp.
  unfold run, bind, emit, lift. cbn [List.app].
  rewrite (uniform_dashboard argsort choice float_text to_datetime
             empty_frame de dp).
  rewrite dashboard_empty_full by reflexivity. reflexivity.
Qed.

(* ------------------------------------------------------------------ *)
(** ** Insight Extractor: the most frequent values *)
(* ------------------------------------------------------------------ *)

(** *** Sorted lists *)

Section Sorted_lists.

Context {A : Type}.

Lemma StronglySorted_app (R : A -> A -> Prop) (l1 l2 : list A) :
  StronglySorted R (l1 ++ l2) <->
  StronglySorted R l1 /\ StronglySorted R l2 /\
  (forall a b, In a l1 -> In b l2 -> R a b).
Proof.
  induction l1 as [|x l1 IH]; simpl.
  - split.
    + intros H. repeat split; [constructor | exact H | contradiction].
    + tauto.
  - split.
    + intros H. apply StronglySorted_inv in H. destruct H as [Hs Hf].
      apply IH in Hs. destruct Hs as (H1 & H2 & H3).
      rewrite Forall_app in Hf. destruct Hf as [Hf1 Hf2].
      repeat split; [now constructor | exact H2 |].
      intros a b [->|Ha] Hb.
      * rewrite Forall_forall in Hf2. now apply Hf2.
      * now apply H3.
    + intros (H1 & H2 & H3).
      apply StronglySorted_inv in H1. destruct H1 as [Hs Hf].
      constructor.
      * apply IH. repeat split; auto.
      * rewrite Forall_app. split; [exact Hf|].
        rewrite Forall_forall. intros b Hb. apply H3; auto.
Qed.

Lemma StronglySorted_rev (R : A -> A -> Prop) (l : list A) :
  StronglySorted R l -> StronglySorted (fun a b => R b a) (rev l).
Proof.
  induction 1 as [|x l Hs IH Hf]; simpl; [constructor|].
  apply StronglySorted_app. repeat split.
  - exact IH.
  - repeat constructor.
  - intros a b Ha [<-|[]]. rewrite <- in_rev in Ha.
    rewrite Forall_forall in Hf. now apply Hf.
Qed.

Lemma StronglySorted_weaken (R R' : A -> A -> Prop) (l : list A) :
  (forall a b, In a l -> In b l -> R a b -> R' a b) ->
  StronglySorted R l -> StronglySorted R' l.
Proof.
  intros H Hs. induction Hs as [|x l Hs IH Hf]; [constructor|].
  constructor.
  - apply IH. intros a b Ha Hb. apply H; now right.
  - rewrite Forall_forall in *. intros b Hb.
    apply H; [now left | now right | now apply Hf].
Qed.

Lemma StronglySorted_map {B : Type} (f : A -> B) (R : B -> B -> Prop)
    (l : list A) :
  StronglySorted R (map f l) <->
  StronglySorted (fun a b => R (f a) (f b)) l.
Proof.
  induction l as [|x l IH]; simpl.
  - split; constructor.
  - split; intros H; apply StronglySorted_inv in H; destruct H as [Hs Hf];
      constructor; try (now apply IH).
    + rewrite Forall_forall in *. intros b Hb. apply Hf. now apply in_map.
    + rewrite Forall_forall in *. intros b Hb.
      apply in_map_iff in Hb. destruct Hb as (a & <- & Ha). now apply Hf.
Qed.

Lemma StronglySorted_firstn (R : A -> A -> Prop) (n : nat) (l : list A) :
  StronglySorted R l ->
  StronglySorted R (firstn n l) /\
  (forall a b, In a (firstn n l) -> In b (skipn n l) -> R a b).
Proof.
  intros H. rewrite <- (firstn_skipn n l) in H.
  apply StronglySorted_app in H. tauto.
Qed.

Lemma StronglySorted_NoDup (R : A -> A -> Prop) (l : list A) :
  (forall a, ~ R a a) -> StronglySorted R l -> NoDup l.
Proof.
  intros Hirr. induction 1 as [|x l Hs IH Hf]; constructor; [|exact IH].
  intros Hin. rewrite Forall_forall in Hf. exact (Hirr x (Hf x Hin)).
Qed.

End Sorted_lists.

(** *** Taking by position *)

Section Take_at.

Context {A : Type}.

Lemma take_at_cons (i : nat) (p : list nat) (l : list A) :
  take_at (i :: p) l =
    match nth_error l i with Some x => [x] | None => [] end ++ take_at p l.
Proof. reflexivity. Qed.

Lemma take_at_app (p q : list nat) (l : list A) :
  take_at (p ++ q) l = take_at p l ++ take_at q l.
Proof. apply flat_map_app. Qed.

Lemma take_at_rev (p : list nat) (l : list A) :
  take_at (rev p) l = rev (take_at p l).
Proof.
  induction p as [|i p IH]; [reflexivity|].
  simpl rev. rewrite take_at_app, IH, !take_at_cons, rev_app_distr.
  f_equal. simpl. now destruct (nth_error l i).
Qed.

Lemma in_take_at (p : list nat) (l : list A) (x : A) :
  In x (take_at p l) <-> exists i, In i p /\ nth_error l i = Some x.
Proof.
  unfold take_at. rewrite in_flat_map. split.
  - intros (i & Hi & Hx). exists i. split; [exact Hi|].
    destruct (nth_error l i); [|contradiction].
    destruct Hx as [->|[]]. reflexivity.
  - intros (i & Hi & Hx). exists i. split; [exact Hi|].
    rewrite Hx. now left.
Qed.

Lemma take_at_seq (pre l : list A) :
  take_at (seq (length pre) (length l)) (pre ++ l) = l.
Proof.
  revert pre. induction l as [|x l IH]; intros pre; [reflexivity|].
  cbn [length seq]. rewrite take_at_cons.
  rewrite nth_error_app2, Nat.sub_diag by lia. cbn [nth_error List.app].
  f_equal. specialize (IH (pre ++ [x])).
  rewrite length_app, <- app_assoc in IH. cbn [length List.app] in IH.
  now rewrite Nat.add_1_r in IH.
Qed.

Lemma take_at_permutation (p : list nat) (l : list A) :
  Permutation p (seq 0 (length l)) -> Permutation (take_at p l) l.
Proof.
  intros H. unfold take_at at 1. rewrite H.
  exact (eq_ind _ (fun r => Permutation r l) (Permutation_refl l) _
                (eq_sym (take_at_seq [] l))).
Qed.

Lemma take_at_sorted (Ri : nat -> nat -> Prop) (R : A -> A -> Prop)
    (p : list nat) (l : list A) :
  (forall i j x y, In i p -> In j p -> Ri i j ->
                   nth_error l i = Some x -> nth_error l j = Some y ->
                   R x y) ->
  StronglySorted Ri p -> StronglySorted R (take_at p l).
Proof.
  intros H Hs. induction Hs as [|i p Hs IH Hf]; [constructor|].
  assert (IH' : StronglySorted R (take_at p l)).
  { apply IH. intros a b x y Ha Hb. apply H; now right. }
  rewrite take_at_cons.
  destruct (nth_error l i) as [x|] eqn:Ex; [|exact IH'].
  simpl. constructor; [exact IH'|].
  rewrite Forall_forall. intros y Hy.
  apply in_take_at in Hy. destruct Hy as (j & Hj & Ey).
  rewrite Forall_forall in Hf.
  apply (H i j); [now left | now right | now apply Hf | exact Ex | exact Ey].
Qed.

Lemma sorted_positions (R : A -> A -> Prop) (l : list A) (i j : nat)
    (x y : A) :
  StronglySorted R l -> (i < j)%nat ->
  nth_error l i = Some x -> nth_error l j = Some y -> R x y.
Proof.
  intros Hs. revert i j. induction Hs as [|a l Hs IH Hf]; intros i j Hij.
  - destruct i; discriminate.
  - destruct j as [|j]; [lia|]. destruct i as [|i]; simpl.
    + intros E Ey. inversion E. subst a.
      rewrite Forall_forall in Hf. apply Hf. eapply nth_error_In, Ey.
    + apply IH. lia.
Qed.

End Take_at.

(** *** What the tests on a sort outcome say *)

Lemma is_permutation_spec (n : nat) (p : list nat) :
  is_permutation n p = true -> Permutation p (seq 0 n).
Proof.
  unfold is_permutation. rewrite andb_true_iff, Nat.eqb_eq, forallb_forall.
  intros [Hlen Hall]. symmetry. apply NoDup_Permutation_bis.
  - apply seq_NoDup.
  - rewrite length_seq. lia.
  - intros i Hi. specialize (Hall i Hi). apply existsb_exists in Hall.
    destruct Hall as (j & Hj & E). apply Nat.eqb_eq in E. now subst.
Qed.

Lemma adjacent_sorted {A : Type} (test : A -> A -> bool) (l : list A) :
  adjacent test l = true -> Sorted (fun a b => test a b = true) l.
Proof.
  induction l as [|x l IH]; [constructor|].
  simpl. destruct l as [|y l].
  - intros _. repeat constructor.
  - rewrite andb_true_iff. intros [Hxy Hrest].
    constructor; [now apply IH | now constructor].
Qed.

Lemma sorts_spec (cs p : list nat) :
  sorts cs p = true ->
  Permutation p (seq 0 (length cs)) /\
  StronglySorted (fun i j => (nth i cs O <= nth j cs O)%nat) p.
Proof.
  unfold sorts. rewrite andb_true_iff. intros [Hp Ha]. split.
  - now apply is_permutation_spec.
  - apply adjacent_sorted in Ha. apply Sorted_StronglySorted.
    + intros i j k Hij Hjk. lia.
    + revert Ha. apply Sorted_ind; [constructor|].
      intros a l Hs IH Hr. constructor; [exact IH|].
      destruct Hr; constructor. now apply Nat.leb_le.
Qed.

Lemma sorts_stably_spec (cs p : list nat) :
  sorts_stably cs p = true ->
  Permutation p (seq 0 (length cs)) /\
  StronglySorted (fun i j => (nth i cs O < nth j cs O
                              \/ (nth i cs O = nth j cs O /\ i < j))%nat) p.
Proof.
  unfold sorts_stably. rewrite andb_true_iff. intros [Hp Ha]. split.
  - now apply is_permutation_spec.
  - apply adjacent_sorted in Ha. apply Sorted_StronglySorted.
    + intros i j k Hij Hjk. lia.
    + revert Ha. apply Sorted_ind; [constructor|].
      intros a l Hs IH Hr. constructor; [exact IH|].
      destruct Hr as [|b l Hb]; constructor.
      apply orb_true_iff in Hb. destruct Hb as [Hb|Hb].
      * left. now apply Nat.ltb_lt.
      * apply andb_true_iff in Hb. destruct Hb as [H1 H2].
        right. split; [now apply Nat.eqb_eq | now apply Nat.ltb_lt].
Qed.

(** *** The sort of [sort_values]

    Each entry has a count and a rank among equals ([idx]: where it
    stands in the input).  The ascending sort runs over the reversed input
    and its outcome is reversed. *)

Section Sort_values.

Context {A : Type}.
Variable argsort : list nat -> list nat.
Variable cnt : A -> nat.
Variable idx : A -> nat.

Lemma take_reversed_positions (p : list nat) (l : list A) :
  take_at (take_at p (rev (seq 0 (length l)))) l = take_at p (rev l).
Proof.
  induction p as [|i p IH]; [reflexivity|].
  rewrite !take_at_cons, take_at_app, IH. f_equal.
  rewrite !nth_error_rev, length_seq.
  destruct (Nat.ltb_spec i (length l)) as [Hi|Hi]; [|reflexivity].
  rewrite nth_error_seq.
  destruct (Nat.ltb_spec (length l - S i) (length l)) as [_|H]; [|lia].
  rewrite take_at_cons. cbn [Nat.add]. now rewrite app_nil_r.
Qed.

(** The sort seen from the reversed input. *)
Lemma sort_values_desc_reversed (l : list A) :
  sort_values_desc argsort cnt l =
    rev (take_at (argsort (map cnt (rev l))) (rev l)).
Proof.
  unfold sort_values_desc, nargsort_desc.
  rewrite take_at_rev, length_map, take_reversed_positions, map_rev.
  reflexivity.
Qed.

Lemma sort_values_desc_perm (l : list A) :
  sorts (map cnt (rev l)) (argsort (map cnt (rev l))) = true ->
  Permutation (sort_values_desc argsort cnt l) l.
Proof.
  intros H. apply sorts_spec in H. destruct H as [Hp _].
  rewrite length_map in Hp.
  rewrite sort_values_desc_reversed, <- Permutation_rev.
  rewrite (take_at_permutation _ _ Hp). symmetry. apply Permutation_rev.
Qed.

Lemma nth_count (l : list A) (i : nat) (x : A) :
  nth_error l i = Some x -> nth i (map cnt l) O = cnt x.
Proof.
  intros H. apply nth_error_nth. now rewrite nth_error_map, H.
Qed.

Lemma sort_values_desc_by_count (l : list A) :
  sorts (map cnt (rev l)) (argsort (map cnt (rev l))) = true ->
  StronglySorted (fun a b => (cnt b <= cnt a)%nat)
                 (sort_values_desc argsort cnt l).
Proof.
  intros H. apply sorts_spec in H. destruct H as [_ Hs].
  rewrite sort_values_desc_reversed.
  apply (StronglySorted_rev (fun a b => (cnt a <= cnt b)%nat)).
  revert Hs. apply take_at_sorted.
  intros i j x y _ _ Hij Ex Ey.
  now rewrite (nth_count _ _ _ Ex), (nth_count _ _ _ Ey) in Hij.
Qed.

Lemma sort_values_desc_sorted (l : list A) :
  sorts_stably (map cnt (rev l)) (argsort (map cnt (rev l))) = true ->
  StronglySorted (fun a b => (idx a < idx b)%nat) l ->
  StronglySorted (desc_order cnt idx) (sort_values_desc argsort cnt l).
Proof.
  intros H Hl. apply sorts_stably_spec in H. destruct H as [_ Hs].
  apply StronglySorted_rev in Hl.
  rewrite sort_values_desc_reversed.
  assert (Hasc : StronglySorted (asc_order cnt idx)
                   (take_at (argsort (map cnt (rev l))) (rev l))).
  { revert Hs. apply take_at_sorted.
    intros i j x y _ _ Hij Ex Ey.
    rewrite (nth_count _ _ _ Ex), (nth_count _ _ _ Ey) in Hij.
    unfold asc_order. destruct Hij as [Hlt|[Heq Hlt]]; [now left|].
    right. split; [exact Heq|].
    exact (sorted_positions _ _ _ _ _ _ Hl Hlt Ex Ey). }
  apply StronglySorted_rev in Hasc. revert Hasc.
  apply StronglySorted_weaken.
  intros a b _ _. unfold asc_order, desc_order. lia.
Qed.

Lemma sorts_stably_sorts (cs p : list nat) :
  sorts_stably cs p = true -> sorts cs p = true.
Proof.
  unfold sorts_stably, sorts. rewrite !andb_true_iff.
  intros [Hp Ha]. split; [exact Hp|]. clear Hp.
  induction p as [|i p IH]; [reflexivity|].
  simpl in *. destruct p as [|j p]; [reflexivity|].
  apply andb_true_iff in Ha. destruct Ha as [Hij Hrest].
  apply andb_true_iff. split; [|now apply IH].
  apply Nat.leb_le. apply orb_true_iff in Hij. destruct Hij as [H|H].
  - apply Nat.ltb_lt in H. lia.
  - apply andb_true_iff in H. destruct H as [H _].
    apply Nat.eqb_eq in H. lia.
Qed.

End Sort_values.

(** *** The count table *)

Lemma first_seen_lt (k : key) (ks : list key) :
  In k ks -> (first_seen k ks < length ks)%nat.
Proof.
  induction ks as [|k' ks IH]; simpl; [contradiction|].
  destruct (key_eqb k k') eqn:E; [lia|].
  intros [->|H]; [now rewrite key_eqb_refl in E|].
  specialize (IH H). lia.
Qed.

Lemma first_seen_app_in (k : key) (ks l : list key) :
  In k ks -> first_seen k (ks ++ l) = first_seen k ks.
Proof.
  induction ks as [|k' ks IH]; simpl; [contradiction|].
  destruct (key_eqb k k') eqn:E; [reflexivity|].
  intros [->|H]; [now rewrite key_eqb_refl in E|].
  now rewrite IH.
Qed.

Lemma first_seen_app_new (k : key) (ks : list key) :
  ~ In k ks -> first_seen k (ks ++ [k]) = length ks.
Proof.
  induction ks as [|k' ks IH]; simpl.
  - now rewrite key_eqb_refl.
  - intros H. destruct (key_eqb k k') eqn:E.
    + apply key_eqb_eq in E. subst. tauto.
    + rewrite IH; tauto.
Qed.

Lemma occurrences_app (k : key) (ks l : list key) :
  occurrences k (ks ++ l) = (occurrences k ks + occurrences k l)%nat.
Proof. unfold occurrences. now rewrite filter_app, length_app. Qed.

Lemma keys_bump (k : key) (tbl : list (key * nat)) :
  map fst (bump k tbl) =
    if existsb (key_eqb k) (map fst tbl) then map fst tbl
    else map fst tbl ++ [k].
Proof.
  induction tbl as [|[k' n] tbl IH]; simpl; [reflexivity|].
  destruct (key_eqb k k'); simpl; [reflexivity|].
  rewrite IH. now destruct (existsb _ _).
Qed.

Lemma count_of_bump (x k : key) (tbl : list (key * nat)) :
  count_of x (bump k tbl) =
    (count_of x tbl + (if key_eqb x k then 1 else 0))%nat.
Proof.
  induction tbl as [|[k' n] tbl IH]; simpl.
  - destruct (key_eqb x k); reflexivity.
  - destruct (key_eqb k k') eqn:E; simpl.
    + apply key_eqb_eq in E. subst k'.
      destruct (key_eqb x k); lia.
    + destruct (key_eqb x k') eqn:E'; [|exact IH].
      apply key_eqb_eq in E'. subst k'.
      rewrite key_eqb_sym, E. lia.
Qed.

Lemma count_table_snoc (ks : list key) (k : key) :
  count_table (ks ++ [k]) = bump k (count_table ks).
Proof. unfold count_table. now rewrite fold_left_app. Qed.

Lemma existsb_key_in (k : key) (l : list key) :
  existsb (key_eqb k) l = true <-> In k l.
Proof.
  rewrite existsb_exists. split.
  - intros (x & Hx & E). apply key_eqb_eq in E. now subst.
  - intros H. exists k. split; [exact H | apply key_eqb_refl].
Qed.

(** The labels of the table are the distinct labels of the input, in the
    order they are first seen. *)
Lemma keys_count_table (ks : list key) :
  StronglySorted (fun a b => (first_seen a ks < first_seen b ks)%nat)
                 (map fst (count_table ks)) /\
  (forall x, In x (map fst (count_table ks)) <-> In x ks).
Proof.
  induction ks as [|k ks [IHs IHi]] using rev_ind.
  - split; [constructor | reflexivity].
  - rewrite count_table_snoc, keys_bump.
    destruct (existsb (key_eqb k) (map fst (count_table ks))) eqn:E.
    + apply existsb_key_in in E. split.
      * revert IHs. apply StronglySorted_weaken. intros a b Ha Hb.
        rewrite !first_seen_app_in by now apply IHi. trivial.
      * intros x. rewrite in_app_iff, IHi. simpl.
        split; [tauto|]. intros [H|[<-|[]]]; [exact H | now apply IHi].
    + assert (Hk : ~ In k ks).
      { intros H. apply IHi, existsb_key_in in H. congruence. }
      split.
      * apply StronglySorted_app. repeat split.
        -- revert IHs. apply StronglySorted_weaken. intros a b Ha Hb.
           rewrite !first_seen_app_in by now apply IHi. trivial.
        -- repeat constructor.
        -- intros a b Ha [<-|[]]. apply IHi in Ha.
           rewrite first_seen_app_in, first_seen_app_new by assumption.
           now apply first_seen_lt.
      * intros x. rewrite !in_app_iff, IHi. reflexivity.
Qed.

Lemma count_of_count_table (x : key) (ks : list key) :
  count_of x (count_table ks) = occurrences x ks.
Proof.
  induction ks as [|k ks IH] using rev_ind; [reflexivity|].
  rewrite count_table_snoc, count_of_bump, IH, occurrences_app.
  unfold occurrences at 3. simpl. now destruct (key_eqb x k).
Qed.

Lemma count_of_in (k : key) (n : nat) (tbl : list (key * nat)) :
  NoDup (map fst tbl) -> In (k, n) tbl -> count_of k tbl = n.
Proof.
  induction tbl as [|[k' m] tbl IH]; simpl; [contradiction|].
  intros Hnd [H|H].
  - inversion H. subst. now rewrite key_eqb_refl.
  - inversion Hnd as [|? ? Hnotin Hnd']. subst.
    destruct (key_eqb k k') eqn:E.
    + apply key_eqb_eq in E. subst k'.
      exfalso. apply Hnotin. now apply (in_map fst) in H.
    + now apply IH.
Qed.

(** *** The order of [value_counts] *)

Lemma ranks_before_irrefl (ks : list key) (a : key) : ~ ranks_before ks a a.
Proof. unfold ranks_before. lia. Qed.

Lemma count_table_NoDup (ks : list key) : NoDup (map fst (count_table ks)).
Proof.
  destruct (keys_count_table ks) as [Hs _].
  apply StronglySorted_NoDup in Hs; [exact Hs | intros a; lia].
Qed.

Lemma count_table_entry (ks : list key) (k : key) (n : nat) :
  In (k, n) (count_table ks) -> n = occurrences k ks.
Proof.
  intros H. rewrite <- count_of_count_table. symmetry.
  apply count_of_in; [apply count_table_NoDup | exact H].
Qed.

Section Value_counts.

Variable argsort : list nat -> list nat.

Lemma counts_to_sort_eq (s : list cell) :
  counts_to_sort s = map snd (rev (count_table (dropna s))).
Proof. unfold counts_to_sort. now rewrite map_rev. Qed.

(** The labels of [value_counts], for a sort that sorts. *)
Lemma value_counts_keys (s : list cell) :
  sorts (counts_to_sort s) (argsort (counts_to_sort s)) = true ->
  Permutation (map fst (value_counts argsort s))
              (map fst (count_table (dropna s))) /\
  StronglySorted (fun a b => (occurrences b (dropna s)
                              <= occurrences a (dropna s))%nat)
                 (map fst (value_counts argsort s)).
Proof.
  rewrite counts_to_sort_eq. intros H.
  pose proof (sort_values_desc_perm argsort snd _ H) as Hperm.
  split; [now apply Permutation_map|].
  apply (proj2 (StronglySorted_map fst
           (fun a b => (occurrences b (dropna s)
                        <= occurrences a (dropna s))%nat) _)).
  pose proof (sort_values_desc_by_count argsort snd _ H) as Hs.
  revert Hs. apply StronglySorted_weaken.
  intros [a n] [b m] Ha Hb.
  apply (Permutation_in _ Hperm), count_table_entry in Ha.
  apply (Permutation_in _ Hperm), count_table_entry in Hb.
  simpl. now subst n m.
Qed.

(** The same for a sort that is stable. *)
Lemma value_counts_order (s : list cell) :
  sorts_stably (counts_to_sort s) (argsort (counts_to_sort s)) = true ->
  StronglySorted (ranks_before (dropna s))
                 (map fst (value_counts argsort s)).
Proof.
  rewrite counts_to_sort_eq. intros H.
  pose proof (sort_values_desc_perm argsort snd _
                (sorts_stably_sorts _ _ H)) as Hperm.
  set (ks := dropna s) in *.
  destruct (keys_count_table ks) as [Hs _].
  apply (proj1 (StronglySorted_map fst
           (fun a b => (first_seen a ks < first_seen b ks)%nat) _)) in Hs.
  apply (sort_values_desc_sorted argsort snd
           (fun e => first_seen (fst e) ks) _ H) in Hs.
  apply (proj2 (StronglySorted_map fst (ranks_before ks) _)).
  revert Hs. apply StronglySorted_weaken.
  intros [a n] [b m] Ha Hb.
  apply (Permutation_in _ Hperm), count_table_entry in Ha.
  apply (Permutation_in _ Hperm), count_table_entry in Hb.
  unfold desc_order, ranks_before. simpl. subst n m. trivial.
Qed.

(** What the first three labels are, whatever order [R] the labels are
    known to stand in. *)
Lemma top3_first_three (R : key -> key -> Prop) (s : list cell) :
  sorts (counts_to_sort s) (argsort (counts_to_sort s)) = true ->
  StronglySorted R (map fst (value_counts argsort s)) ->
  NoDup (top3 argsort s) /\
  (forall k, In k (top3 argsort s) -> In k (dropna s)) /\
  length (top3 argsort s)
    = Nat.min 3 (length (nodup key_eq_dec (dropna s))) /\
  StronglySorted R (top3 argsort s) /\
  (forall k t, In k (dropna s) -> ~ In k (top3 argsort s) ->
               In t (top3 argsort s) -> R t k).
Proof.
  intros Hsorts Hs.
  destruct (value_counts_keys s Hsorts) as [Hperm _].
  destruct (keys_count_table (dropna s)) as [_ Hi].
  pose proof (count_table_NoDup (dropna s)) as Hnd.
  unfold top3. rewrite <- firstn_map.
  set (l := map fst (value_counts argsort s)) in *.
  assert (Hnd' : NoDup l).
  { revert Hnd. apply Permutation_NoDup. now symmetry. }
  assert (Hin : forall x, In x l <-> In x (dropna s)).
  { intros x. rewrite <- Hi. split; apply Permutation_in;
      [exact Hperm | now symmetry]. }
  destruct (StronglySorted_firstn _ 3 _ Hs) as [Hs3 Hcross].
  assert (Hsub : forall k, In k (firstn 3 l) -> In k l).
  { intros k H. rewrite <- (firstn_skipn 3 l). apply in_or_app. now left. }
  repeat split.
  - rewrite <- (firstn_skipn 3 l) in Hnd'. now apply NoDup_app_remove_r in Hnd'.
  - intros k H. now apply Hin, Hsub.
  - rewrite length_firstn. f_equal. apply Permutation_length.
    apply NoDup_Permutation; [exact Hnd' | apply NoDup_nodup |].
    intros x. now rewrite nodup_In, Hin.
  - exact Hs3.
  - intros k t Hk Hout Ht. apply Hcross; [exact Ht|].
    apply Hin in Hk. rewrite <- (firstn_skipn 3 l) in Hk.
    apply in_app_or in Hk. tauto.
Qed.

Lemma top3_by_count (s : list cell) :
  sorts (counts_to_sort s) (argsort (counts_to_sort s)) = true ->
  most_frequent_by_count s (top3 argsort s).
Proof.
  intros H. unfold most_frequent_by_count. cbv zeta.
  destruct (top3_first_three _ s H (proj2 (value_counts_keys s H)))
    as (H1 & H2 & H3 & H4 & H5).
  repeat split; auto.
Qed.

Lemma top3_most_frequent (s : list cell) :
  sorts_stably (counts_to_sort s) (argsort (counts_to_sort s)) = true ->
  most_frequent s (top3 argsort s).
Proof.
  intros H. unfold most_frequent. cbv zeta.
  apply top3_first_three; [now apply sorts_stably_sorts|].
  now apply value_counts_order.
Qed.

End Value_counts.

(** The values x, x, y, y, z: x before y, then the singleton. *)
Example top_threats_ties :
  top_threats aquicksort five_reasons = [KStr "x"; KStr "y"; KStr "z"].
Proof. reflexivity. Qed.

(** With numpy's quicksort, thirty-eight reasons seen once each come out
    as the first, the twenty-ninth and the twenty-second. *)
Lemma top_threats_thirty_eight :
  top_threats aquicksort thirty_eight_reasons =
    [KStr "r00"; KStr "r28"; KStr "r21"].
Proof. vm_compute. reflexivity. Qed.

(** On these thirty-eight counts numpy's quicksort does sort: its outcome
    is a permutation along which the counts do not decrease.  It is not
    the outcome of a stable sort. *)
Example aquicksort_thirty_eight :
  let counts := counts_to_sort (column "reasons" thirty_eight_reasons) in
  sorts counts (aquicksort counts) = true /\
  sorts_stably counts (aquicksort counts) = false.
Proof. vm_compute. split; reflexivity. Qed.

(** So it does on the counts of up to sixty-four values seen once each,
    and on counts that fall and rise. *)
Example aquicksort_sorts_examples :
  forallb (fun n => sorts (repeat 1%nat n) (aquicksort (repeat 1%nat n)))
          (seq 0 65) = true /\
  forallb (fun n => let counts := rev (seq 1 n) ++ seq 1 n in
                    sorts counts (aquicksort counts))
          (seq 0 25) = true.
Proof. vm_compute. split; reflexivity. Qed.

(** In the list of the thirty-eight reasons the twenty-ninth stands
    before the twenty-second, which is as frequent and seen before it:
    inside the list the order of equal counts is not the order of first
    appearance. *)
Lemma top_values_order_of_ties_not_kept :
  ~ top_values_keep_first_seen_order aquicksort.
Proof.
  intros H.
  destruct (H thirty_eight_reasons eq_refl) as [Hreasons _].
  destruct (Hreasons eq_refl) as [_ Hties].
  unfold ties_in_first_seen_order in Hties. cbv zeta in Hties.
  rewrite top_threats_thirty_eight in Hties.
  apply StronglySorted_inv in Hties as [Hties _].
  apply StronglySorted_inv in Hties as [_ Hties].
  apply Forall_inv in Hties.
  assert (Hlt : (first_seen (KStr "r28")
                   (dropna (column "reasons" thirty_eight_reasons))
                 < first_seen (KStr "r21")
                     (dropna (column "reasons" thirty_eight_reasons)))%nat)
    by (apply Hties; vm_compute; reflexivity).
  vm_compute in Hlt. lia.
Qed.

(** A list in rank order has its equal counts in first-seen order. *)
Lemma most_frequent_ties (s : list cell) (top : list key) :
  most_frequent s top -> ties_in_first_seen_order s top.
Proof.
  intros (_ & _ & _ & Hs & _). unfold ties_in_first_seen_order.
  cbv zeta in *. induction Hs as [|a l Hl IH Ha]; constructor.
  - exact IH.
  - eapply Forall_impl; [|exact Ha].
    intros b [Hlt|[_ Hlt]] E; [lia | exact Hlt].
Qed.

(** C7, amended. Whenever numpy's sort sorts the counts of the [reasons]
    and of the [host] column, the top threats and the top sources are
    distinct values of these columns, three of them or as many as there
    are, in descending order of count, and no value left out is more
    frequent than a value listed.  If moreover the sort is stable on these
    counts, values of equal count stand in the list in the order they are
    first seen in the table, and the same rule decides across the cut
    after the third which of them are listed. *)
Theorem top_values_by_frequency :
  forall (argsort : list nat -> list nat) (df_expl : DataFrame),
    let reasons := column "reasons" df_expl in
    let hosts := column "host" df_expl in
    sorts (counts_to_sort reasons) (argsort (counts_to_sort reasons))
      = true ->
    sorts (counts_to_sort hosts) (argsort (counts_to_sort hosts)) = true ->
    most_frequent_by_count reasons (top_threats argsort df_expl) /\
    most_frequent_by_count hosts (top_ips argsort df_expl) /\
    (sorts_stably (counts_to_sort reasons)
                  (argsort (counts_to_sort reasons)) = true ->
     ties_in_first_seen_order reasons (top_threats argsort df_expl) /\
     most_frequent reasons (top_threats argsort df_expl)) /\
    (sorts_stably (counts_to_sort hosts)
                  (argsort (counts_to_sort hosts)) = true ->
     ties_in_first_seen_order hosts (top_ips argsort df_expl) /\
     most_frequent hosts (top_ips argsort df_expl)).
Proof.
  intros argsort df_expl reasons hosts Hr Hh.
  split; [now apply top3_by_count|].
  split; [now apply top3_by_count|].
  split; intros H.
  - assert (Hm : most_frequent reasons (top_threats argsort df_expl))
      by now apply top3_most_frequent.
    split; [now apply most_frequent_ties | exact Hm].
  - assert (Hm : most_frequent hosts (top_ips argsort df_expl))
      by now apply top3_most_frequent.
    split; [now apply most_frequent_ties | exact Hm].
Qed.

(** The reasons x, x, y, y, z and three hosts under numpy's quicksort:
    both sorts are stable, and both lists are in first-seen order among
    equals. *)
Lemma top_values_by_frequency_witness :
  (most_frequent_by_count (column "reasons" five_reasons)
                          (top_threats aquicksort five_reasons) /\
   ties_in_first_seen_order (column "reasons" five_reasons)
                            (top_threats aquicksort five_reasons)) /\
  (most_frequent_by_count (column "host" five_reasons)
                          (top_ips aquicksort five_reasons) /\
   ties_in_first_seen_order (column "host" five_reasons)
                            (top_ips aquicksort five_reasons)).
Proof.
  pose proof (top_values_by_frequency aquicksort five_reasons
                eq_refl eq_refl) as (Hcr & Hch & Hr & Hh).
  split; (split; [assumption|]).
  - exact (proj1 (Hr eq_refl)).
  - exact (proj1 (Hh eq_refl)).
Defined.

(* ------------------------------------------------------------------ *)
(** ** Peak window *)
(* ------------------------------------------------------------------ *)

Lemma HOUR_pos : 0 < HOUR.
Proof. reflexivity. Qed.

Lemma floor_hour_bounds (t : Z) :
  floor_hour t <= t < floor_hour t + HOUR.
Proof.
  unfold floor_hour. pose proof (Z.mod_pos_bound t HOUR HOUR_pos). lia.
Qed.

Lemma floor_hour_aligned (t : Z) : floor_hour t mod HOUR = 0.
Proof.
  unfold floor_hour. pose proof HOUR_pos.
  rewrite Zminus_mod_idemp_r, Z.sub_diag. now apply Z.mod_0_l.
Qed.

Lemma aligned_step (a b : Z) :
  a mod HOUR = 0 -> b mod HOUR = 0 -> a < b -> a + HOUR <= b.
Proof.
  pose proof HOUR_pos as Hp. intros Ha Hb Hlt.
  apply Z.mod_divide in Ha; [|lia]. apply Z.mod_divide in Hb; [|lia].
  destruct Ha as [x ->], Hb as [y ->].
  generalize dependent HOUR. intros H Hp Hlt.
  assert (x < y) by nia. assert (x + 1 <= y) by lia. nia.
Qed.

Lemma minimum_spec (ts : list Z) (t : Z) :
  In (minimum t ts) (t :: ts) /\ forall x, In x (t :: ts) -> minimum t ts <= x.
Proof.
  unfold minimum. revert t. induction ts as [|u ts IH]; intros t; simpl.
  - split; [now left | intros x [<-|[]]; lia].
  - destruct (IH (Z.min t u)) as [Hin Hle]. split.
    + destruct Hin as [H|H]; [|now right; right].
      rewrite <- H. destruct (Z.min_spec t u) as [[_ ->]|[_ ->]]; auto.
    + intros x Hx. assert (fold_left Z.min ts (Z.min t u) <= Z.min t u)
        by (apply Hle; now left).
      destruct Hx as [<-|[<-|Hx]]; [lia | lia |].
      apply Hle. now right.
Qed.

Lemma maximum_spec (ts : list Z) (t : Z) :
  In (maximum t ts) (t :: ts) /\ forall x, In x (t :: ts) -> x <= maximum t ts.
Proof.
  unfold maximum. revert t. induction ts as [|u ts IH]; intros t; simpl.
  - split; [now left | intros x [<-|[]]; lia].
  - destruct (IH (Z.max t u)) as [Hin Hle]. split.
    + destruct Hin as [H|H]; [|now right; right].
      rewrite <- H. destruct (Z.max_spec t u) as [[_ ->]|[_ ->]]; auto.
    + intros x Hx. assert (Z.max t u <= fold_left Z.max ts (Z.max t u))
        by (apply Hle; now left).
      destruct Hx as [<-|[<-|Hx]]; [lia | lia |].
      apply Hle. now right.
Qed.

Lemma in_windows (h lo : Z) (n : nat) :
  In h (windows lo n) <->
  exists k : nat, (k < n)%nat /\ h = lo + Z.of_nat k * HOUR.
Proof.
  revert lo. induction n as [|n IH]; intros lo; simpl.
  - split; [contradiction | intros (k & Hk & _); lia].
  - rewrite IH. split.
    + intros [<-|(k & Hk & ->)].
      * exists O. split; [lia | simpl; lia].
      * exists (S k). split; [lia | lia].
    + intros (k & Hk & ->). destruct k as [|k].
      * left. simpl. lia.
      * right. exists k. split; [lia | lia].
Qed.

Lemma windows_sorted (lo : Z) (n : nat) :
  StronglySorted Z.lt (windows lo n).
Proof.
  revert lo. induction n as [|n IH]; intros lo; simpl; constructor.
  - apply IH.
  - rewrite Forall_forall. intros h Hh. apply in_windows in Hh.
    destruct Hh as (k & _ & ->). pose proof HOUR_pos. nia.
Qed.

Lemma in_window_none (h : Z) (ts : list Z) :
  (forall x, In x ts -> x < h \/ h + HOUR <= x) -> in_window h ts = 0.
Proof.
  intros H. unfold in_window.
  induction ts as [|x ts IH]; [reflexivity|]. simpl.
  destruct (H x (or_introl eq_refl)) as [Hx|Hx].
  - replace (h <=? x) with false by (symmetry; apply Z.leb_gt; lia).
    simpl. apply IH. intros y Hy. apply H. now right.
  - replace (x <? h + HOUR) with false by (symmetry; apply Z.ltb_ge; lia).
    rewrite andb_false_r. apply IH. intros y Hy. apply H. now right.
Qed.

Lemma in_window_some (h x : Z) (ts : list Z) :
  In x ts -> h <= x < h + HOUR -> 0 < in_window h ts.
Proof.
  intros Hin Hx. unfold in_window.
  assert (In x (filter (fun t => (h <=? t) && (t <? h + HOUR)) ts)).
  { apply filter_In. split; [exact Hin|].
    apply andb_true_iff. split; [apply Z.leb_le | apply Z.ltb_lt]; lia. }
  destruct (filter _ ts); [contradiction | simpl length; lia].
Qed.

(** [idxmax]: everything before the answer is smaller, nothing after it
    is larger. *)
Lemma idxmax_from_first_maximum (s : list (Z * Z)) (b : Z * Z) :
  exists l1 l2 c,
    b :: s = l1 ++ (idxmax_from b s, c) :: l2 /\
    (forall e, In e l1 -> snd e < c) /\
    (forall e, In e l2 -> snd e <= c).
Proof.
  revert b. induction s as [|[h c] s IH]; intros b; simpl.
  - exists [], [], (snd b). destruct b. simpl. repeat split; contradiction.
  - destruct (Z.ltb_spec (snd b) c) as [Hlt|Hge].
    + destruct (IH (h, c)) as (l1 & l2 & c' & Heq & H1 & H2).
      exists (b :: l1), l2, c'. split; [simpl; now rewrite <- Heq|].
      split; [|exact H2]. intros e [<-|He]; [|now apply H1].
      destruct l1 as [|e0 l1]; simpl in Heq; inversion Heq; subst.
      * exact Hlt.
      * specialize (H1 (h, c) (or_introl eq_refl)). simpl in H1. lia.
    + destruct (IH b) as (l1 & l2 & c' & Heq & H1 & H2).
      destruct l1 as [|e0 l1]; simpl in Heq;
        injection Heq as Hb Hs.
      * exists [], ((h, c) :: l2), c'.
        split; [simpl; congruence|]. split; [contradiction|].
        intros e [<-|He]; [|now apply H2].
        rewrite Hb in Hge. simpl in *. lia.
      * subst e0. exists (b :: (h, c) :: l1), l2, c'.
        split; [simpl; congruence|]. split; [|exact H2].
        pose proof (H1 b (or_introl eq_refl)) as Hb'.
        intros e [<-|[<-|He]]; [exact Hb' | simpl; lia |].
        apply H1. now right.
Qed.

(** If some timestamp of the index is valid, the hourly series is not
    empty and its [idxmax] is the start of an hour that holds at least one
    timestamp and at least as many as any other hour; among the hours
    with that many it is the earliest. *)
Lemma busiest_hour (idx : list (option Z)) (t : Z) (ts : list Z) :
  valid idx = t :: ts ->
  exists s h,
    resample_hourly_size idx = Ok s /\
    (0 <? length s)%nat = true /\
    idxmax s = Ok h /\
    h mod HOUR = 0 /\
    0 < in_window h (t :: ts) /\
    forall h', h' mod HOUR = 0 ->
      in_window h' (t :: ts) <= in_window h (t :: ts) /\
      (in_window h' (t :: ts) = in_window h (t :: ts) -> h <= h').
Proof.
  intros Hv. pose proof HOUR_pos as Hp.
  unfold resample_hourly_size. rewrite Hv.
  destruct idx as [|o idx]; [discriminate|].
  set (T := t :: ts).
  set (lo := floor_hour (minimum t ts)).
  set (hi := floor_hour (maximum t ts)).
  set (n := S (Z.to_nat ((hi - lo) / HOUR))).
  set (f := fun h => (h, in_window h T)).
  destruct (minimum_spec ts t) as [Hmin_in Hmin].
  destruct (maximum_spec ts t) as [Hmax_in Hmax].
  fold T in Hmin_in, Hmin, Hmax_in, Hmax.
  pose proof (floor_hour_bounds (minimum t ts)) as Blo.
  pose proof (floor_hour_bounds (maximum t ts)) as Bhi.
  pose proof (floor_hour_aligned (minimum t ts)) as Alo.
  pose proof (floor_hour_aligned (maximum t ts)) as Ahi.
  fold lo in Blo, Alo. fold hi in Bhi, Ahi.
  assert (Hlohi : lo <= hi).
  { destruct (Z.le_gt_cases lo hi) as [H|H]; [exact H|].
    pose proof (aligned_step hi lo Ahi Alo H).
    specialize (Hmin _ Hmax_in). lia. }
  (* the series starts with the window of the earliest timestamp *)
  assert (Hs : map f (windows lo n) = f lo :: map f (windows (lo + HOUR)
                                                     (Z.to_nat ((hi - lo) / HOUR))))
    by reflexivity.
  exists (map f (windows lo n)), (idxmax_from (f lo)
            (map f (windows (lo + HOUR) (Z.to_nat ((hi - lo) / HOUR))))).
  split; [reflexivity|]. split; [reflexivity|].
  split; [rewrite Hs; reflexivity|].
  destruct (idxmax_from_first_maximum
              (map f (windows (lo + HOUR) (Z.to_nat ((hi - lo) / HOUR))))
              (f lo)) as (l1 & l2 & c & Heq & H1 & H2).
  set (h := idxmax_from _ _) in *.
  rewrite <- Hs in Heq.
  apply map_eq_app in Heq. destruct Heq as (W1 & W2' & HW & <- & Heq).
  apply map_eq_cons in Heq. destruct Heq as (h0 & W2 & -> & Hh0 & <-).
  unfold f in Hh0. inversion Hh0. subst h0 c. clear Hh0.
  pose proof (windows_sorted lo n) as Hsorted. rewrite HW in Hsorted.
  apply StronglySorted_app in Hsorted.
  destruct Hsorted as (_ & Hs2 & Hcross).
  apply StronglySorted_inv in Hs2. destruct Hs2 as [_ Hafter].
  rewrite Forall_forall in Hafter.
  assert (Hbefore : forall w, In w W1 ->
            w < h /\ in_window w T < in_window h T).
  { intros w Hw. split; [apply Hcross; [exact Hw | now left]|].
    apply (H1 (f w)). now apply in_map. }
  assert (Hafter' : forall w, In w W2 ->
            h < w /\ in_window w T <= in_window h T).
  { intros w Hw. split; [now apply Hafter|].
    apply (H2 (f w)). now apply in_map. }
  assert (Hin : forall w, In w (windows lo n) <->
            In w W1 \/ w = h \/ In w W2).
  { intros w. rewrite HW, in_app_iff. simpl. intuition congruence. }
  assert (Hlo_pos : 0 < in_window lo T).
  { apply (in_window_some lo (minimum t ts)); [exact Hmin_in | lia]. }
  assert (Hh_in : In h (windows lo n)) by (apply Hin; auto).
  assert (Hlo_in : In lo (windows lo n)).
  { apply in_windows. exists O. split; [unfold n; lia | simpl; lia]. }
  assert (Hh_pos : 0 < in_window h T).
  { apply Hin in Hlo_in. destruct Hlo_in as [H|[H|H]].
    - apply Hbefore in H. lia.
    - now rewrite <- H.
    - apply Hafter' in H. lia. }
  split.
  { apply in_windows in Hh_in. destruct Hh_in as (k & _ & ->).
    rewrite Z.mod_add by lia. exact Alo. }
  split; [exact Hh_pos|].
  intros h' Ah'.
  destruct (Z.lt_ge_cases h' lo) as [Hlow|Hge].
  { pose proof (aligned_step h' lo Ah' Alo Hlow).
    rewrite (in_window_none h' T); [lia|].
    intros x Hx. right. specialize (Hmin x Hx). lia. }
  destruct (Z.lt_ge_cases hi h') as [Hhigh|Hle].
  { pose proof (aligned_step hi h' Ahi Ah' Hhigh).
    rewrite (in_window_none h' T); [lia|].
    intros x Hx. left. specialize (Hmax x Hx). lia. }
  assert (Hin' : In h' (windows lo n)).
  { apply in_windows.
    apply Z.mod_divide in Ah'; [|lia]. apply Z.mod_divide in Alo; [|lia].
    destruct Ah' as [x Hx], Alo as [y Hy].
    exists (Z.to_nat (x - y)). split.
    - unfold n. assert (x - y <= (hi - lo) / HOUR).
      { apply Z.div_le_lower_bound; [lia | nia]. }
      assert (0 <= x - y) by nia. lia.
    - assert (0 <= x - y) by nia. rewrite Z2Nat.id by lia. nia. }
  apply Hin in Hin'. destruct Hin' as [H|[H|H]].
  - apply Hbefore in H. lia.
  - subst h'. lia.
  - apply Hafter' in H. lia.
Qed.

Lemma at_pos_set_nth (i : nat) (v : cell) (r : list cell) :
  (i < length r)%nat -> at_pos i (set_nth i v r) = v.
Proof.
  unfold at_pos. revert r. induction i as [|i IH]; intros [|c r]; simpl;
    try lia; [reflexivity|].
  intros H. apply IH. lia.
Qed.

Lemma map_at_pos_zip_set (i : nat) (rs : list (list cell)) (vs : list cell) :
  Forall (fun r => (i < length r)%nat) rs ->
  length vs = length rs ->
  map (at_pos i) (zip_set i rs vs) = vs.
Proof.
  intros Hw. revert vs. induction Hw as [|r rs Hr Hrs IH]; intros [|v vs];
    simpl; try discriminate; [reflexivity|].
  intros Hlen. rewrite at_pos_set_nth by exact Hr. f_equal. apply IH. lia.
Qed.

(** Writing a column of a well-formed table and reading it back. *)
Lemma column_set_column (name : string) (vs : list cell) (df : DataFrame) :
  well_formed df ->
  has_column name df = true ->
  length vs = length (rows df) ->
  column name (set_column name vs df) = vs.
Proof.
  intros [_ Hw] Hc Hlen. destruct (position_present _ _ Hc) as [i Hi].
  unfold column, set_column. rewrite Hi. cbn [columns rows]. rewrite Hi.
  apply map_at_pos_zip_set; [|exact Hlen].
  apply position_nth_error in Hi.
  assert (i < length (columns df))%nat
    by (apply nth_error_Some; congruence).
  revert Hw. apply Forall_impl. intros r Hr. lia.
Qed.

(** The column after line 149, for a parser that returns. *)
Lemma column_coerce_timestamps
    (to_datetime : list cell -> outcome (list parsed))
    (df_expl : DataFrame) (stamps : list parsed) :
  well_formed df_expl ->
  has_column "timestamp" df_expl = true ->
  to_datetime (column "timestamp" df_expl) = Returns stamps ->
  length stamps = length (rows df_expl) ->
  column "timestamp" (coerce_timestamps to_datetime df_expl) =
    map time_cell stamps.
Proof.
  intros Hwf Hc Hs Hlen. unfold coerce_timestamps. rewrite Hs.
  apply column_set_column; [exact Hwf | exact Hc | now rewrite length_map].
Qed.

Lemma datetime64_cells (stamps : list parsed) :
  forallb is_datetime64 (map time_cell stamps) = datetime64 stamps.
Proof.
  unfold datetime64. induction stamps as [|[ns| |ns off] l IH];
    cbn [map forallb time_cell is_datetime64 andb]; auto.
Qed.

Lemma datetime64_instants (stamps : list parsed) :
  datetime64 stamps = true ->
  map cell_time (map time_cell stamps) = map instant stamps.
Proof.
  unfold datetime64. induction stamps as [|[ns| |ns off] l IH];
    cbn [map forallb time_cell cell_time instant andb]; intros H;
    try discriminate; [reflexivity | now rewrite IH ..].
Qed.

(** The hourly counts of the table after line 149. *)
Lemma hourly_coerce_timestamps
    (to_datetime : list cell -> outcome (list parsed))
    (df_expl : DataFrame) (stamps : list parsed) :
  well_formed df_expl ->
  has_column "timestamp" df_expl = true ->
  to_datetime (column "timestamp" df_expl) = Returns stamps ->
  length stamps = length (rows df_expl) ->
  hourly (coerce_timestamps to_datetime df_expl) =
    if datetime64 stamps then resample_hourly_size (map instant stamps)
    else Raise TypeError.
Proof.
  intros Hwf Hc Hs Hlen. unfold hourly. cbv zeta.
  rewrite (column_coerce_timestamps _ _ _ Hwf Hc Hs Hlen).
  rewrite datetime64_cells.
  destruct (datetime64 stamps) eqn:E; [|reflexivity].
  now rewrite datetime64_instants.
Qed.

(** The peak the insights section reports for a well-formed table whose
    [timestamp] column parses to a datetime column with at least one
    timestamp: values that do not parse are left out, and the peak is the
    start of the busiest hour among the others, the earliest one if
    several hours are as busy. *)
Lemma peak_busiest_hour (to_datetime : list cell -> outcome (list parsed))
    (df_expl : DataFrame) (stamps : list parsed) (t : Z) (ts : list Z) :
  well_formed df_expl ->
  has_column "timestamp" df_expl = true ->
  to_datetime (column "timestamp" df_expl) = Returns stamps ->
  length stamps = length (rows df_expl) ->
  datetime64 stamps = true ->
  valid (map instant stamps) = t :: ts ->
  exists h,
    peak (coerce_timestamps to_datetime df_expl) = Ok (Some h) /\
    h mod HOUR = 0 /\
    0 < in_window h (t :: ts) /\
    forall h', h' mod HOUR = 0 ->
      in_window h' (t :: ts) <= in_window h (t :: ts) /\
      (in_window h' (t :: ts) = in_window h (t :: ts) -> h <= h').
Proof.
  intros Hwf Hc Hs Hlen Hd Hv.
  unfold peak.
  rewrite (hourly_coerce_timestamps _ _ _ Hwf Hc Hs Hlen), Hd.
  destruct (busiest_hour _ _ _ Hv) as (s & h & Hr & Hne & Hmax & Hrest).
  exists h. rewrite Hr. cbn [bind_result]. rewrite Hne, Hmax.
  split; [reflexivity | exact Hrest].
Qed.

(** Values with offsets of their own: no [DatetimeIndex], no peak. *)
Lemma peak_mixed_offsets (to_datetime : list cell -> outcome (list parsed))
    (df_expl : DataFrame) (stamps : list parsed) :
  well_formed df_expl ->
  has_column "timestamp" df_expl = true ->
  to_datetime (column "timestamp" df_expl) = Returns stamps ->
  length stamps = length (rows df_expl) ->
  datetime64 stamps = false ->
  peak (coerce_timestamps to_datetime df_expl) = Raise TypeError.
Proof.
  intros Hwf Hc Hs Hlen Hd. unfold peak.
  now rewrite (hourly_coerce_timestamps _ _ _ Hwf Hc Hs Hlen), Hd.
Qed.

(** Three timestamps in one hour, seven in the next and one that does
    not parse: the peak is the hour with seven. *)
Example peak_two_hours :
  hourly (coerce_timestamps parse_two_hours two_hours) =
    Ok [(10 * HOUR, 3); (11 * HOUR, 7)] /\
  peak (coerce_timestamps parse_two_hours two_hours) = Ok (Some (11 * HOUR)).
Proof. split; vm_compute; reflexivity. Qed.

(** C8. On a table whose only timestamp does not parse, the coerced
    column holds [NaT], resampling raises an [AttributeError], and the
    insights section ends with it; no peak is written and the guard on the
    length of the hourly series is never reached. *)
Theorem peak_no_parsable_timestamp :
  forall argsort : list nat -> list nat,
    empty bad_timestamp = false /\
    has_column "timestamp" bad_timestamp = true /\
    column "timestamp" (coerce_timestamps parse_nothing bad_timestamp) =
      [VNaT] /\
    hourly (coerce_timestamps parse_nothing bad_timestamp) =
      Raise AttributeError /\
    peak (coerce_timestamps parse_nothing bad_timestamp) =
      Raise AttributeError /\
    run (insights_section argsort parse_nothing bad_timestamp) =
      (Raise AttributeError,
       [Subheader "🔎 Key Insights (From Explained Anomalies)"]).
Proof. intros argsort. repeat split. Qed.

(* ------------------------------------------------------------------ *)
(** ** Alert Renderer *)
(* ------------------------------------------------------------------ *)

Lemma for_each_cards {A : Type} (f : A -> list widget) (l : list A) :
  run (for_each l (fun x => for_each (f x) emit)) = (Ok tt, flat_map f l).
Proof.
  induction l as [|x l IH]; [reflexivity|].
  simpl for_each.
  rewrite run_bind by (intros _; apply uniform_for_each; intros;
                       apply uniform_for_each; intros; apply uniform_emit).
  rewrite for_each_emit, IH. reflexivity.
Qed.

(** The headline of its card is the missing value itself. *)
Lemma headline_empty_summary_not_placeholder :
  ~ headline_defaults_when_absent_or_empty.
Proof.
  intros H.
  specialize (H empty_summary [VNaN; VStr "sqli"]
                (or_introl eq_refl) (or_intror eq_refl)).
  discriminate H.
Qed.

Lemma in_firstn {A : Type} (n : nat) (l : list A) (x : A) :
  In x (firstn n l) -> In x l.
Proof.
  intros H. rewrite <- (firstn_skipn n l). apply in_or_app. now left.
Qed.

Lemma flat_map_ext_in {A B : Type} (f g : A -> list B) (l : list A) :
  (forall x, In x l -> f x = g x) -> flat_map f l = flat_map g l.
Proof.
  induction l as [|x l IH]; intros H; [reflexivity|].
  cbn [flat_map]. rewrite (H x (or_introl eq_refl)), IH; [reflexivity|].
  intros y Hy. apply H. now right.
Qed.

(** With text in the table the rows are handed out as they are stored. *)
Lemma has_text_upcasts (df : DataFrame) :
  has_text df = true -> upcasts df = false.
Proof.
  unfold has_text, upcasts. intros H.
  apply existsb_exists in H as (r & Hr & H).
  apply existsb_exists in H as (c & Hc & H).
  apply andb_false_intro1.
  destruct (forallb (forallb is_number) (rows df)) eqn:E; [|reflexivity].
  rewrite forallb_forall in E. specialize (E r Hr).
  rewrite forallb_forall in E. specialize (E c Hc).
  destruct c; discriminate.
Qed.

Lemma series_of_has_text (df : DataFrame) (r : list cell) :
  has_text df = true -> series_of df r = r.
Proof. intros H. unfold series_of. now rewrite has_text_upcasts. Qed.

Lemma run_alerts_section (df_expl : DataFrame) :
  run (alerts_section df_expl) = (Ok tt, alerts_page df_expl).
Proof.
  unfold alerts_section, alerts_page.
  destruct (empty df_expl); cbn [negb]; [reflexivity|].
  cbv zeta.
  rewrite run_bind by (intros _; apply uniform_for_each; intros;
                       apply uniform_for_each; intros; apply uniform_emit).
  rewrite run_emit, for_each_cards. reflexivity.
Qed.

(** Looking a name up among the labelled cells of a full row is reading
    the row at the position of the label. *)
Lemma find_position (name : string) (cols : list string) (row : list cell)
    (d : cell) :
  length row = length cols ->
  match find (fun p => String.eqb name (fst p)) (combine cols row) with
  | Some p => snd p
  | None => d
  end =
  match position name cols with
  | Some i => at_pos i row
  | None => d
  end.
Proof.
  revert row. induction cols as [|c cols IH]; intros [|x row] Hlen;
    try discriminate; [reflexivity|].
  cbn [combine find fst position].
  destruct (String.eqb name c); [reflexivity|].
  injection Hlen as Hlen. rewrite (IH row Hlen).
  now destruct (position name cols).
Qed.

Lemma find_combine_absent (name : string) (df : DataFrame)
    (row : list cell) :
  has_column name df = false ->
  find (fun p => String.eqb name (fst p)) (combine (columns df) row) = None.
Proof.
  unfold has_column. generalize (columns df) as cols. intros cols.
  revert row. induction cols as [|c cols IH]; intros [|x row] H;
    try reflexivity.
  cbn [existsb] in H. apply orb_false_iff in H as [Hc H].
  cbn [combine find fst]. rewrite Hc. now apply IH.
Qed.

Lemma shown_row_get (df' df : DataFrame) (row : list cell)
    (name placeholder : string) :
  columns df' = columns df ->
  length row = length (columns df) ->
  row_get df' row name (VStr placeholder) = shown df row name placeholder.
Proof.
  intros Hc Hlen. unfold row_get, shown. rewrite Hc.
  symmetry. now apply find_position.
Qed.

Lemma length_series_of (df : DataFrame) (r : list cell) :
  length (series_of df r) = length r.
Proof. unfold series_of. destruct (upcasts df); [apply length_map | easy]. Qed.

Lemma flat_map_map {A B C : Type} (f : A -> B) (g : B -> list C)
    (l : list A) :
  flat_map g (map f l) = flat_map (fun x => g (f x)) l.
Proof.
  induction l as [|x l IH]; [reflexivity|].
  cbn [map flat_map]. now rewrite IH.
Qed.

(** C9, amended. For a well-formed explanations table that is not empty,
    the alerts section ends normally and writes one card per row for the
    first [min(5, row count)] rows, in the order of the table.  A card is
    the headline, the reason, the impact, the suggested action, the
    caption with method, URL and user agent, and a rule.  Each field shows
    the cell of the row, as [iterrows] hands the row out, under its column
    ([summary], [reasons], [impact], [suggested_action], [Method], [URL],
    [User-Agent]), whatever that cell holds, or its placeholder when the
    table has no such column: [Suspicious request] for the headline, [-]
    for the others.  In a table that holds some text the row is handed
    out as it is stored. *)
Theorem alerts_first_rows :
  forall df_expl : DataFrame,
    empty df_expl = false ->
    well_formed df_expl ->
    let field row := shown df_expl (series_of df_expl row) in
    run (alerts_section df_expl) =
      (Ok tt,
       Subheader "🚨 Sample Alerts (Top 5)"
         :: flat_map
              (fun row =>
                 [ ErrorBox
                     [Lit "🚨 ";
                      FmtCell (field row "summary" "Suspicious request")];
                   Write [Lit "**Reason:** ";
                          FmtCell (field row "reasons" "-")];
                   Write [Lit "**Impact:** ";
                          FmtCell (field row "impact" "-")];
                   Write [Lit "**Suggested Action:** ";
                          FmtCell (field row "suggested_action" "-")];
                   Caption
                     [Lit "Method: "; FmtCell (field row "Method" "-");
                      Lit " | URL: "; FmtCell (field row "URL" "-");
                      Lit " | User-Agent: ";
                      FmtCell (field row "User-Agent" "-")];
                   Write [Lit "---"] ])
              (firstn 5 (rows df_expl))) /\
    length (firstn 5 (rows df_expl)) = Nat.min 5 (length (rows df_expl)) /\
    (forall row name placeholder,
        has_column name df_expl = false ->
        field row name placeholder = VStr placeholder) /\
    (forall row name placeholder,
        In row (rows df_expl) ->
        has_column name df_expl = true ->
        exists i, nth_error (columns df_expl) i = Some name /\
                  nth_error (series_of df_expl row) i
                    = Some (field row name placeholder)) /\
    (has_text df_expl = true ->
     forall row, series_of df_expl row = row).
Proof.
  intros df_expl He [_ Hw]. cbv zeta.
  rewrite Forall_forall in Hw.
  assert (Hlen : forall r, In r (rows df_expl) ->
            length (series_of df_expl r) = length (columns df_expl)).
  { intros r Hr. rewrite length_series_of. now apply Hw. }
  split; [|split; [|split; [|split]]].
  - rewrite run_alerts_section. unfold alerts_page. rewrite He.
    rewrite flat_map_map.
    do 2 f_equal. apply flat_map_ext_in. intros r Hr.
    apply in_firstn in Hr. specialize (Hlen r Hr).
    unfold alert_card.
    rewrite !(shown_row_get (head 5 df_expl) df_expl)
      by (exact Hlen || reflexivity).
    reflexivity.
  - apply length_firstn.
  - intros row name placeholder H.
    unfold shown. now rewrite find_combine_absent.
  - intros row name placeholder Hin Hc.
    rewrite <- (shown_row_get df_expl df_expl)
      by (now apply Hlen || reflexivity).
    destruct (row_get_present df_expl (series_of df_expl row) name
                (VStr placeholder) Hc)
      as (i & Hi & Hg).
    exists i. split; [exact Hi|]. rewrite Hg.
    apply nth_error_nth'. rewrite (Hlen row Hin).
    apply nth_error_Some. congruence.
  - intros Htext row. now apply series_of_has_text.
Qed.

(** Two explanations without a [summary] column: two cards, each headed
    by the placeholder. *)
Lemma alerts_first_rows_witness :
  run (alerts_section two_explanations) =
    (Ok tt,
     [ Subheader "🚨 Sample Alerts (Top 5)";
       ErrorBox [Lit "🚨 "; FmtCell (VStr "Suspicious request")];
       Write [Lit "**Reason:** "; FmtCell (VStr "sqli")];
       Write [Lit "**Impact:** "; FmtCell (VStr "-")];
       Write [Lit "**Suggested Action:** "; FmtCell (VStr "-")];
       Caption [Lit "Method: "; FmtCell (VStr "-");
                Lit " | URL: "; FmtCell (VStr "/a");
                Lit " | User-Agent: "; FmtCell (VStr "-")];
       Write [Lit "---"];
       ErrorBox [Lit "🚨 "; FmtCell (VStr "Suspicious request")];
       Write [Lit "**Reason:** "; FmtCell (VStr "xss")];
       Write [Lit "**Impact:** "; FmtCell (VStr "-")];
       Write [Lit "**Suggested Action:** "; FmtCell (VStr "-")];
       Caption [Lit "Method: "; FmtCell (VStr "-");
                Lit " | URL: "; FmtCell (VStr "/b");
                Lit " | User-Agent: "; FmtCell (VStr "-")];
       Write [Lit "---"] ]).
Proof.
  assert (Hwf : well_formed two_explanations).
  { split; [repeat constructor; simpl; intuition discriminate|].
    repeat constructor. }
  exact (eq_trans
    (proj1 (alerts_first_rows two_explanations eq_refl Hwf))
    eq_refl).
Defined.

(** In a table of numbers with a float column the integers of a row are
    shown as floats: a [summary] stored as the integer 1 heads its card
    as 1.0. *)
Example alerts_numbers_only :
  run (alerts_section (mkDF ["summary"; "score"]
                            [[VInt 1; VFloat (1 # 2)]])) =
    (Ok tt,
     [ Subheader "🚨 Sample Alerts (Top 5)";
       ErrorBox [Lit "🚨 "; FmtCell (VFloat 1)];
       Write [Lit "**Reason:** "; FmtCell (VStr "-")];
       Write [Lit "**Impact:** "; FmtCell (VStr "-")];
       Write [Lit "**Suggested Action:** "; FmtCell (VStr "-")];
       Caption [Lit "Method: "; FmtCell (VStr "-");
                Lit " | URL: "; FmtCell (VStr "-");
                Lit " | User-Agent: "; FmtCell (VStr "-")];
       Write [Lit "---"] ]).
Proof. reflexivity. Qed.

(* ------------------------------------------------------------------ *)
(** ** The run as a whole *)
(* ------------------------------------------------------------------ *)

Lemma load_csv_loaded (read_csv : string -> result DataFrame)
    (path : string) :
  load_csv read_csv path = Ok (loaded read_csv path).
Proof. unfold load_csv, loaded. now destruct (read_csv path). Qed.

(** The script is the header followed by the page of the loaded tables. *)
Lemma run_app (read_csv : string -> result DataFrame)
    (argsort : list nat -> list nat)
    (choice : nat -> nat -> list nat)
    (float_text : string -> bool)
    (to_datetime : list cell -> outcome (list parsed))
    (full_csv expl_csv pred_csv : string) :
  run (app read_csv argsort choice float_text to_datetime
         full_csv expl_csv pred_csv) =
    let d := dashboard argsort choice float_text to_datetime
               (loaded read_csv full_csv) (loaded read_csv expl_csv)
               (loaded read_csv pred_csv) in
    (fst (run d), header_page ++ snd (run d)).
Proof.
  unfold app. rewrite !load_csv_loaded.
  unfold run at 1, bind, emit, lift. cbn [List.app].
  rewrite (uniform_dashboard argsort choice float_text to_datetime).
  reflexivity.
Qed.

(** *** No section calls [st.stop()] *)

Lemma map_result_not_stopped {A B : Type} (f : A -> result B) (l : list A) :
  (forall x, f x <> Stopped) -> map_result f l <> Stopped.
Proof.
  intros Hf. induction l as [|x l IH]; cbn [map_result]; [discriminate|].
  destruct (f x) eqn:E; cbn [bind_result];
    [|now apply Hf in E|discriminate].
  destruct (map_result f l); cbn [bind_result];
    [discriminate|contradiction|discriminate].
Qed.

Lemma label_of_not_stopped (c : cell) : label_of c <> Stopped.
Proof.
  unfold label_of, num.
  destruct c; try discriminate; destruct (Pos.eqb _ 1); discriminate.
Qed.

Lemma cm_df_not_stopped (acc_df : DataFrame) : cm_df acc_df <> Stopped.
Proof.
  unfold cm_df, cm, confusion_matrix, frame_of_matrix.
  destruct (map_result label_of (column "true_label" acc_df)) eqn:Et;
    cbn [bind_result];
    [|now apply map_result_not_stopped in Et;
        [|apply label_of_not_stopped] | discriminate].
  destruct (map_result label_of (column "predicted" acc_df)) eqn:Ep;
    cbn [bind_result];
    [|now apply map_result_not_stopped in Ep;
        [|apply label_of_not_stopped] | discriminate].
  destruct (one_kind _); cbn [bind_result]; [|discriminate].
  destruct (_ && _); discriminate.
Qed.

Lemma ols_trendline_not_stopped (float_text : string -> bool)
    (x y : list cell) :
  ols_trendline float_text x y <> Stopped.
Proof.
  unfold ols_trendline. destruct (1 <? _)%nat; [|discriminate].
  destruct (negb (sortable x)); [discriminate|].
  destruct (_ && _); discriminate.
Qed.

Lemma accuracy_section_not_stopped (choice : nat -> nat -> list nat)
    (float_text : string -> bool)
    (df_pred : DataFrame) :
  fst (run (accuracy_section choice float_text df_pred)) <> Stopped.
Proof.
  destruct (negb (empty df_pred) && has_column "true_label" df_pred
            && has_column "predicted" df_pred) eqn:E.
  - apply andb_true_iff in E as [E Hp].
    apply andb_true_iff in E as [He Ht]. apply negb_true_iff in He.
    rewrite (run_accuracy_section choice float_text df_pred He Ht Hp).
    destruct (trendline_of choice float_text df_pred) eqn:T;
      cbn [fst]; try discriminate.
    + destruct (cm_df _) eqn:C; cbn [fst]; try discriminate.
      now apply cm_df_not_stopped in C.
    + now apply ols_trendline_not_stopped in T.
  - rewrite (run_accuracy_skipped choice float_text df_pred E). discriminate.
Qed.

(** [', '.join]: the texts joined, or a [TypeError]. *)
Lemma join_cases (sep : string) (ks : list key) :
  join sep ks =
    if forallb is_text ks then Ok (String.concat sep (map text_of ks))
    else Raise TypeError.
Proof.
  unfold join.
  assert (H : map_result str_of_key ks =
              if forallb is_text ks then Ok (map text_of ks)
              else Raise TypeError).
  { induction ks as [|k ks IH]; [reflexivity|].
    cbn [map_result forallb map]. rewrite IH.
    destruct k; cbn [str_of_key is_text bind_result andb text_of];
      try reflexivity.
    destruct (forallb is_text ks); reflexivity. }
  rewrite H. destruct (forallb is_text ks); reflexivity.
Qed.

Lemma peak_not_stopped (df_expl : DataFrame) : peak df_expl <> Stopped.
Proof.
  unfold peak, hourly, resample_hourly_size. cbv zeta.
  destruct (forallb is_datetime64 _); [|discriminate].
  destruct (map cell_time (column "timestamp" df_expl)) as [|c idx];
    cbn [bind_result]; [cbn; discriminate|].
  destruct (valid (c :: idx)) as [|t ts]; cbn [bind_result];
    [discriminate|].
  destruct (0 <? _)%nat; [|discriminate].
  unfold idxmax. destruct (map _ _); cbn [bind_result]; discriminate.
Qed.

(** The insights section on a table with rows, case by case. *)
Lemma run_insights_section (argsort : list nat -> list nat)
    (to_datetime : list cell -> outcome (list parsed)) (df_expl : DataFrame) :
  empty df_expl = false ->
  run (insights_section argsort to_datetime df_expl) =
    if has_column "reasons" df_expl
       && negb (forallb is_text (top_threats argsort df_expl))
    then (Raise TypeError, [insights_head])
    else if has_column "timestamp" df_expl then
      match to_datetime (column "timestamp" df_expl) with
      | Returns _ =>
          match peak (coerce_timestamps to_datetime df_expl) with
          | Ok (Some h) =>
              (Ok (coerce_timestamps to_datetime df_expl),
               insights_head :: insights_lines argsort df_expl
                 ++ [peak_line h])
          | Ok None =>
              (Ok (coerce_timestamps to_datetime df_expl),
               insights_head :: insights_lines argsort df_expl)
          | Stopped =>
              (Stopped, insights_head :: insights_lines argsort df_expl)
          | Raise e =>
              (Raise e, insights_head :: insights_lines argsort df_expl)
          end
      | Raises e =>
          (Raise e, insights_head :: insights_lines argsort df_expl)
      end
    else (Ok df_expl, insights_head :: insights_lines argsort df_expl).
Proof.
  intros He.
  unfold insights_section, insights_lines, coerce_timestamps. rewrite He.
  cbn [negb]. rewrite join_cases. cbv zeta.
  destruct (has_column "reasons" df_expl),
           (forallb is_text (top_threats argsort df_expl)),
           (has_column "host" df_expl),
           (has_column "timestamp" df_expl);
    cbn [andb negb];
    try (destruct (to_datetime (column "timestamp" df_expl))
           as [stamps|e'];
         cbv beta iota zeta delta [run bind lift emit when ret result_of];
         [destruct (peak _) as [[h|]| |e]|]);
    reflexivity.
Qed.

Lemma insights_section_not_stopped (argsort : list nat -> list nat)
    (to_datetime : list cell -> outcome (list parsed)) (df_expl : DataFrame) :
  fst (run (insights_section argsort to_datetime df_expl)) <> Stopped.
Proof.
  destruct (empty df_expl) eqn:He.
  - rewrite run_insights_empty by exact He. discriminate.
  - rewrite run_insights_section by exact He.
    destruct (_ && _); [discriminate|].
    destruct (has_column "timestamp" df_expl); [|discriminate].
    destruct (to_datetime _); [|discriminate].
    destruct (peak _) as [[h|]| |e] eqn:P; cbn [fst]; try discriminate.
    now apply peak_not_stopped in P.
Qed.

(** The remainder of the page, by how its two fallible sections end. *)
Lemma run_remainder_cases (argsort : list nat -> list nat)
    (choice : nat -> nat -> list nat)
    (float_text : string -> bool)
    (to_datetime : list cell -> outcome (list parsed))
    (df_expl df_pred : DataFrame) :
  run (remainder argsort choice float_text to_datetime df_expl df_pred) =
    match run (accuracy_section choice float_text df_pred) with
    | (Ok _, pa) =>
        match run (insights_section argsort to_datetime df_expl) with
        | (Ok df_expl', pi) =>
            (Ok tt, pa ++ [Divider] ++ pi ++ [Divider] ++ actions_page
                       ++ [Divider] ++ alerts_page df_expl')
        | (Stopped, pi) => (Stopped, pa ++ [Divider] ++ pi)
        | (Raise e, pi) => (Raise e, pa ++ [Divider] ++ pi)
        end
    | (Stopped, pa) => (Stopped, pa)
    | (Raise e, pa) => (Raise e, pa)
    end.
Proof.
  destruct (run (accuracy_section choice float_text df_pred))
    as [[[]| |e] pa] eqn:Ha.
  - destruct (run (insights_section argsort to_datetime df_expl))
      as [[d'| |e] pi] eqn:Hi.
    + rewrite (run_remainder _ _ _ _ _ _ _ _ _ Ha Hi).
      rewrite run_alerts_section. reflexivity.
    + unfold remainder.
      rewrite run_bind, Ha by
        (intros; repeat first
           [ apply uniform_insights_section
           | apply uniform_recommended_actions
           | apply uniform_alerts_section | uniform_step ]).
      rewrite run_bind, run_emit by
        (intros; repeat first
           [ apply uniform_insights_section
           | apply uniform_recommended_actions
           | apply uniform_alerts_section | uniform_step ]).
      rewrite run_bind, Hi by
        (intros; repeat first
           [ apply uniform_recommended_actions
           | apply uniform_alerts_section | uniform_step ]).
      reflexivity.
    + unfold remainder.
      rewrite run_bind, Ha by
        (intros; repeat first
           [ apply uniform_insights_section
           | apply uniform_recommended_actions
           | apply uniform_alerts_section | uniform_step ]).
      rewrite run_bind, run_emit by
        (intros; repeat first
           [ apply uniform_insights_section
           | apply uniform_recommended_actions
           | apply uniform_alerts_section | uniform_step ]).
      rewrite run_bind, Hi by
        (intros; repeat first
           [ apply uniform_recommended_actions
           | apply uniform_alerts_section | uniform_step ]).
      reflexivity.
  - unfold remainder.
    rewrite run_bind, Ha by
      (intros; repeat first
         [ apply uniform_insights_section
         | apply uniform_recommended_actions
         | apply uniform_alerts_section | uniform_step ]).
    reflexivity.
  - unfold remainder.
    rewrite run_bind, Ha by
      (intros; repeat first
         [ apply uniform_insights_section
         | apply uniform_recommended_actions
         | apply uniform_alerts_section | uniform_step ]).
    reflexivity.
Qed.

Lemma remainder_not_stopped (argsort : list nat -> list nat)
    (choice : nat -> nat -> list nat)
    (float_text : string -> bool)
    (to_datetime : list cell -> outcome (list parsed))
    (df_expl df_pred : DataFrame) :
  fst (run (remainder argsort choice float_text to_datetime df_expl df_pred))
    <> Stopped.
Proof.
  rewrite run_remainder_cases.
  pose proof (accuracy_section_not_stopped choice float_text df_pred) as Ha.
  pose proof (insights_section_not_stopped argsort to_datetime df_expl)
    as Hi.
  destruct (run (accuracy_section choice float_text df_pred)) as [[[]| |e] pa];
    cbn [fst] in *; try discriminate; try contradiction.
  destruct (run (insights_section argsort to_datetime df_expl))
    as [[d'| |e] pi]; cbn [fst] in *; try discriminate; contradiction.
Qed.

(** X1. The run ends by [st.stop()] exactly when the full table cannot
    be read or is empty.  Then the page is the title, the caption and the
    load error, and nothing else; with a full table that has rows, no later
    step of the script stops the run.  (A file that cannot be read loads
    as the empty table.) *)
Theorem stops_only_without_full_table :
  forall (read_csv : string -> result DataFrame)
         (argsort : list nat -> list nat)
         (choice : nat -> nat -> list nat)
         (float_text : string -> bool)
         (to_datetime : list cell -> outcome (list parsed))
         (full_csv expl_csv pred_csv : string),
    let outcome :=
      run (app read_csv argsort choice float_text to_datetime
             full_csv expl_csv pred_csv) in
    ((forall d, read_csv full_csv <> Ok d) ->
       empty (loaded read_csv full_csv) = true) /\
    (empty (loaded read_csv full_csv) = true ->
       outcome = (Stopped, header_page ++ [load_error])) /\
    (fst outcome = Stopped -> empty (loaded read_csv full_csv) = true).
Proof.
  intros read_csv argsort choice float_text to_datetime
    full_csv expl_csv pred_csv.
  cbv zeta. rewrite run_app. cbv zeta. split; [|split].
  - intros Hfail. unfold loaded.
    destruct (read_csv full_csv) as [d| |e];
      [now destruct (Hfail d) | reflexivity | reflexivity].
  - intros He. rewrite dashboard_empty_full by exact He. reflexivity.
  - cbn [fst]. intros Hs.
    destruct (empty (loaded read_csv full_csv)) eqn:He; [reflexivity|].
    rewrite dashboard_nonempty_full in Hs by exact He. cbn [fst] in Hs.
    now apply remainder_not_stopped in Hs.
Qed.

(** X2. Graceful degradation where it holds: with a full table that has
    rows, an explanations table that is missing or empty, and a prediction
    table that is missing, empty or without one of its label columns, the
    run ends normally.  The page is the header, the warnings, the summary,
    the accuracy heading with its warning, the insights heading with its
    notice, the recommended actions, and the alerts heading with its
    notice. *)
Theorem degraded_run_completes :
  forall (read_csv : string -> result DataFrame)
         (argsort : list nat -> list nat)
         (choice : nat -> nat -> list nat)
         (float_text : string -> bool)
         (to_datetime : list cell -> outcome (list parsed))
         (full_csv expl_csv pred_csv : string),
    let df_full := loaded read_csv full_csv in
    let df_expl := loaded read_csv expl_csv in
    let df_pred := loaded read_csv pred_csv in
    empty df_full = false ->
    empty df_expl = true ->
    negb (empty df_pred) && has_column "true_label" df_pred
      && has_column "predicted" df_pred = false ->
    run (app read_csv argsort choice float_text to_datetime
           full_csv expl_csv pred_csv) =
      (Ok tt,
       header_page ++ warnings_page df_expl df_pred
         ++ summary_page df_full df_expl
         ++ accuracy_skipped_page ++ [Divider]
         ++ no_insights_page ++ [Divider]
         ++ actions_page ++ [Divider]
         ++ no_alerts_page).
Proof.
  intros read_csv argsort choice float_text to_datetime
    full_csv expl_csv pred_csv
         df_full df_expl df_pred Hf He Hp.
  rewrite run_app. cbv zeta.
  fold df_full df_expl df_pred.
  rewrite dashboard_nonempty_full by exact Hf.
  rewrite run_remainder_cases.
  rewrite (run_accuracy_skipped choice float_text df_pred Hp).
  rewrite (run_insights_empty argsort to_datetime df_expl He).
  unfold alerts_page. rewrite He. reflexivity.
Qed.

(** Only the full table can be read: the page ends normally, with both
    warnings. *)
Lemma degraded_run_completes_witness :
  fst (run (app read_full_only aquicksort (fun _ k => seq 0 k)
              (fun _ => false) parse_nothing "csic_database.csv"
              "csic2010_with_explanations.csv" "csis2010_predictions.csv"))
    = Ok tt.
Proof.
  exact (f_equal fst
    (degraded_run_completes read_full_only aquicksort (fun _ k => seq 0 k)
       (fun _ => false) parse_nothing "csic_database.csv"
       "csic2010_with_explanations.csv" "csis2010_predictions.csv"
       eq_refl eq_refl eq_refl)).
Defined.

(* ------------------------------------------------------------------ *)
(** ** The alerts and the rewritten timestamps *)
(* ------------------------------------------------------------------ *)

Lemma at_pos_set_nth_other (i j : nat) (v : cell) (r : list cell) :
  i <> j -> at_pos j (set_nth i v r) = at_pos j r.
Proof.
  unfold at_pos. revert j r.
  induction i as [|i IH]; intros [|j] [|c r] Hij; cbn;
    try reflexivity; try contradiction.
  apply IH. congruence.
Qed.

(** A column other than the rewritten one reads the same. *)
Lemma row_get_set_nth (df : DataFrame) (changed name : string) (i : nat)
    (v default : cell) (r : list cell) :
  position changed (columns df) = Some i ->
  name <> changed ->
  row_get df (set_nth i v r) name default = row_get df r name default.
Proof.
  intros Hi Hne. unfold row_get.
  destruct (position name (columns df)) as [j|] eqn:Hj; [|reflexivity].
  apply at_pos_set_nth_other. intros ->.
  apply position_nth_error in Hi, Hj. congruence.
Qed.

(** A card depends on the labels of the table and on the row only. *)
Lemma alert_card_columns (df df' : DataFrame) (row : list cell) :
  columns df = columns df' -> alert_card df row = alert_card df' row.
Proof. intros H. unfold alert_card, row_get. now rewrite H. Qed.

Lemma alert_card_set_nth (df : DataFrame) (i : nat) (v : cell)
    (r : list cell) :
  position "timestamp" (columns df) = Some i ->
  alert_card df (set_nth i v r) = alert_card df r.
Proof.
  intros Hi. unfold alert_card.
  rewrite !(row_get_set_nth df "timestamp") by (exact Hi || discriminate).
  reflexivity.
Qed.

Lemma flat_map_firstn_zip_set {B : Type} (f : list cell -> list B)
    (i n : nat) (rs : list (list cell)) (vs : list cell) :
  (forall v r, f (set_nth i v r) = f r) ->
  flat_map f (firstn n (zip_set i rs vs)) = flat_map f (firstn n rs).
Proof.
  intros Hf. revert n vs.
  induction rs as [|r rs IH]; intros n vs; [reflexivity|].
  destruct vs as [|v vs]; [reflexivity|].
  destruct n as [|n]; [reflexivity|].
  cbn [zip_set firstn flat_map]. now rewrite Hf, IH.
Qed.

Lemma zip_set_nil (i : nat) (rs : list (list cell)) (vs : list cell) :
  zip_set i rs vs = [] <-> rs = [].
Proof.
  destruct rs as [|r rs]; [tauto|].
  destruct vs; cbn; split; discriminate.
Qed.

Lemma empty_coerce_timestamps
    (to_datetime : list cell -> outcome (list parsed))
    (df_expl : DataFrame) :
  empty (coerce_timestamps to_datetime df_expl) = empty df_expl.
Proof.
  unfold coerce_timestamps.
  destruct (to_datetime _) as [stamps|e]; [|reflexivity].
  unfold set_column.
  destruct (position "timestamp" (columns df_expl)) as [i|];
    [|reflexivity].
  unfold empty. cbn [rows columns].
  destruct (rows df_expl) as [|r rs]; [reflexivity|].
  destruct (map _ _); reflexivity.
Qed.

(** A row with text in it is not a row of numbers, also after one of its
    cells is overwritten with a timestamp. *)
Lemma set_nth_not_numbers (i : nat) (v : cell) (r : list cell) :
  existsb is_str r = true -> is_number v = false ->
  forallb is_number (set_nth i v r) = false.
Proof.
  revert r. induction i as [|i IH]; intros [|c r] Hr Hv;
    try discriminate; cbn [set_nth forallb].
  - now rewrite Hv.
  - cbn [existsb] in Hr. apply orb_true_iff in Hr as [Hc | Hr].
    + destruct c; try discriminate. reflexivity.
    + rewrite (IH r Hr Hv). apply andb_false_r.
Qed.

Lemma str_not_number (r : list cell) :
  existsb is_str r = true -> forallb is_number r = false.
Proof.
  induction r as [|c r IH]; [discriminate|].
  cbn [existsb forallb]. intros H. apply orb_true_iff in H as [Hc | Hr].
  - destruct c; try discriminate. reflexivity.
  - rewrite (IH Hr). apply andb_false_r.
Qed.

Lemma zip_set_not_numbers (i : nat) (rs : list (list cell))
    (vs : list cell) :
  existsb (existsb is_str) rs = true ->
  Forall (fun v => is_number v = false) vs ->
  forallb (forallb is_number) (zip_set i rs vs) = false.
Proof.
  revert vs. induction rs as [|r rs IH]; intros vs Hrs Hvs;
    [discriminate|].
  cbn [existsb] in Hrs.
  destruct vs as [|v vs]; cbn [zip_set forallb].
  - apply orb_true_iff in Hrs as [Hr | Hrs].
    + now rewrite str_not_number.
    + assert (H : forallb (forallb is_number) rs = false).
      { clear -Hrs. induction rs as [|r rs IH]; [discriminate|].
        cbn [existsb forallb] in *.
        apply orb_true_iff in Hrs as [Hr | Hrs].
        - now rewrite str_not_number.
        - rewrite (IH Hrs). apply andb_false_r. }
      rewrite H. apply andb_false_r.
  - inversion Hvs as [|? ? Hv Hvs']; subst.
    apply orb_true_iff in Hrs as [Hr | Hrs].
    + now rewrite set_nth_not_numbers.
    + rewrite (IH vs Hrs Hvs'). apply andb_false_r.
Qed.

Lemma upcasts_coerce_timestamps
    (to_datetime : list cell -> outcome (list parsed))
    (df_expl : DataFrame) :
  has_text df_expl = true ->
  upcasts (coerce_timestamps to_datetime df_expl) = false.
Proof.
  intros Ht. unfold coerce_timestamps.
  destruct (to_datetime _) as [stamps|e]; [|now apply has_text_upcasts].
  unfold set_column.
  destruct (position "timestamp" (columns df_expl)) as [i|];
    [|now apply has_text_upcasts].
  unfold upcasts. cbn [rows].
  rewrite zip_set_not_numbers; [reflexivity | exact Ht |].
  apply Forall_forall. intros v Hv.
  apply in_map_iff in Hv as (p & <- & _). now destruct p.
Qed.

Lemma alerts_page_coerce
    (to_datetime : list cell -> outcome (list parsed))
    (df_expl : DataFrame) :
  has_text df_expl = true ->
  alerts_page (coerce_timestamps to_datetime df_expl) = alerts_page df_expl.
Proof.
  intros Ht. unfold alerts_page. rewrite empty_coerce_timestamps.
  destruct (empty df_expl); [reflexivity|]. f_equal.
  rewrite (map_ext_in (series_of (coerce_timestamps to_datetime df_expl))
                      (fun r => r))
    by (intros r _; unfold series_of;
        now rewrite upcasts_coerce_timestamps).
  rewrite (map_ext_in (series_of df_expl) (fun r => r))
    by (intros r _; now apply series_of_has_text).
  rewrite !map_id.
  unfold coerce_timestamps.
  destruct (to_datetime _) as [stamps|e]; [|reflexivity].
  unfold set_column.
  destruct (position "timestamp" (columns df_expl)) as [i|] eqn:Hi;
    [|reflexivity].
  cbn [rows].
  rewrite (flat_map_ext _ (alert_card (head 5 df_expl)))
    by (intros r; now apply alert_card_columns).
  apply flat_map_firstn_zip_set.
  intros v r. now apply alert_card_set_nth.
Qed.

(** The table the insights section hands on is the table it was given,
    with or without its timestamps rewritten. *)
Lemma insights_section_returns (argsort : list nat -> list nat)
    (to_datetime : list cell -> outcome (list parsed))
    (df_expl df_expl' : DataFrame) (pi : list widget) :
  run (insights_section argsort to_datetime df_expl) = (Ok df_expl', pi) ->
  df_expl' = df_expl \/ df_expl' = coerce_timestamps to_datetime df_expl.
Proof.
  destruct (empty df_expl) eqn:He.
  - rewrite run_insights_empty by exact He.
    intros [= <- _]. now left.
  - rewrite run_insights_section by exact He.
    destruct (_ && _); [discriminate|].
    destruct (has_column "timestamp" df_expl);
      [|intros [= <- _]; now left].
    destruct (to_datetime _); [|discriminate].
    destruct (peak _) as [[h|]| |e]; try discriminate;
      intros [= <- _]; now right.
Qed.

(** X3. Line 149 overwrites the [timestamp] column of the explanations
    table before the alerts are drawn from that table.  The alerts do not
    notice: a card reads seven columns, none of them [timestamp], so for a
    table with some text in it the alerts section writes for the rewritten
    table what it writes for the table as loaded. *)
Theorem alerts_ignore_timestamp_rewrite :
  forall (to_datetime : list cell -> outcome (list parsed))
         (df_expl : DataFrame),
    has_text df_expl = true ->
    run (alerts_section (coerce_timestamps to_datetime df_expl)) =
      run (alerts_section df_expl).
Proof.
  intros to_datetime df_expl Ht.
  now rewrite !run_alerts_section, alerts_page_coerce.
Qed.

(** One explanation with a summary and a timestamp that does not parse:
    the card is the same after the rewrite. *)
Lemma alerts_ignore_timestamp_rewrite_witness :
  run (alerts_section (coerce_timestamps parse_nothing bad_timestamp)) =
    run (alerts_section bad_timestamp).
Proof.
  exact (alerts_ignore_timestamp_rewrite parse_nothing bad_timestamp
           eq_refl).
Defined.

(* ------------------------------------------------------------------ *)
(** ** The order of the page *)
(* ------------------------------------------------------------------ *)

(** X4. With a full table that has rows, if the accuracy section and the
    insights section end normally, the run ends normally and the page is,
    in this order: the warnings, the summary, what the accuracy section
    wrote, a divider, what the insights section wrote, a divider, the
    recommended actions, a divider, and the alerts.  The alerts are drawn
    from the table the insights section hands on: the explanations table
    as loaded, or that table with its timestamps rewritten. *)
Theorem page_in_order :
  forall (argsort : list nat -> list nat)
         (choice : nat -> nat -> list nat)
         (float_text : string -> bool)
         (to_datetime : list cell -> outcome (list parsed))
         (df_full df_expl df_pred df_expl' : DataFrame)
         (pa pi : list widget),
    empty df_full = false ->
    run (accuracy_section choice float_text df_pred) = (Ok tt, pa) ->
    run (insights_section argsort to_datetime df_expl) = (Ok df_expl', pi) ->
    run (dashboard argsort choice float_text to_datetime
           df_full df_expl df_pred) =
      (Ok tt,
       warnings_page df_expl df_pred ++ summary_page df_full df_expl
         ++ pa ++ [Divider] ++ pi ++ [Divider]
         ++ actions_page ++ [Divider] ++ alerts_page df_expl') /\
    (df_expl' = df_expl
     \/ df_expl' = coerce_timestamps to_datetime df_expl).
Proof.
  intros argsort choice float_text to_datetime
    df_full df_expl df_pred df_expl' pa pi
         Hf Ha Hi.
  split; [|exact (insights_section_returns _ _ _ _ _ Hi)].
  rewrite dashboard_nonempty_full by exact Hf.
  now rewrite run_remainder_cases, Ha, Hi.
Qed.

(** Two explanations with text reasons and no prediction table: the run
    ends normally. *)
Lemma page_in_order_witness :
  fst (run (dashboard aquicksort (fun _ k => seq 0 k) (fun _ => false)
              parse_nothing fallback_full two_explanations empty_frame))
    = Ok tt.
Proof.
  exact (f_equal fst (proj1
    (page_in_order aquicksort (fun _ k => seq 0 k) (fun _ => false)
       parse_nothing fallback_full two_explanations empty_frame two_explanations
       accuracy_skipped_page
       (insights_head :: insights_lines aquicksort two_explanations)
       eq_refl eq_refl eq_refl))).
Defined.

(** X5. An exception ends the page where it is raised.  With a full
    table that has rows, if the accuracy section raises, the page is the
    warnings, the summary and what the accuracy section wrote until then;
    if the insights section raises, the page ends with what that section
    wrote until then.  Either way the recommended actions and the alerts
    are not written, and the run ends with that exception. *)
Theorem exception_ends_page :
  forall (argsort : list nat -> list nat)
         (choice : nat -> nat -> list nat)
         (float_text : string -> bool)
         (to_datetime : list cell -> outcome (list parsed))
         (df_full df_expl df_pred : DataFrame) (e : exn),
    empty df_full = false ->
    (forall pa,
       run (accuracy_section choice float_text df_pred) = (Raise e, pa) ->
       run (dashboard argsort choice float_text to_datetime
              df_full df_expl df_pred) =
         (Raise e,
          warnings_page df_expl df_pred ++ summary_page df_full df_expl
            ++ pa)) /\
    (forall pa pi,
       run (accuracy_section choice float_text df_pred) = (Ok tt, pa) ->
       run (insights_section argsort to_datetime df_expl) = (Raise e, pi) ->
       run (dashboard argsort choice float_text to_datetime
              df_full df_expl df_pred) =
         (Raise e,
          warnings_page df_expl df_pred ++ summary_page df_full df_expl
            ++ pa ++ [Divider] ++ pi)).
Proof.
  intros argsort choice float_text to_datetime df_full df_expl df_pred e Hf.
  split.
  - intros pa Ha.
    rewrite dashboard_nonempty_full by exact Hf.
    now rewrite run_remainder_cases, Ha.
  - intros pa pi Ha Hi.
    rewrite dashboard_nonempty_full by exact Hf.
    now rewrite run_remainder_cases, Ha, Hi.
Qed.

(** A reason that is a number: the [TypeError] of the join ends the page
    after the insights heading. *)
Lemma exception_ends_page_witness :
  run (dashboard aquicksort (fun _ k => seq 0 k) (fun _ => false)
         parse_nothing fallback_full numeric_reason empty_frame) =
    (Raise TypeError,
     warnings_page numeric_reason empty_frame
       ++ summary_page fallback_full numeric_reason
       ++ accuracy_skipped_page ++ [Divider] ++ [insights_head]).
Proof.
  exact (proj2
    (exception_ends_page aquicksort (fun _ k => seq 0 k) (fun _ => false)
       parse_nothing fallback_full numeric_reason empty_frame TypeError eq_refl)
    accuracy_skipped_page [insights_head] eq_refl eq_refl).
Defined.

(* ------------------------------------------------------------------ *)
(** ** The summary, from a label column *)
(* ------------------------------------------------------------------ *)

(** A share of a whole, as a percentage. *)
Lemma share_bounds (a t : Z) :
  0 <= a <= t -> 0 < t ->
  let q := (inject_Z a / inject_Z t * 100)%Q in
  (0 <= q)%Q /\ (q <= 100)%Q /\
  ((q == 100)%Q <-> a = t) /\ ((q == 0)%Q <-> a = 0).
Proof.
  intros Ha Ht. cbv zeta.
  destruct t as [|p|p]; try lia.
  unfold Qle, Qeq, Qdiv, Qmult, Qinv, inject_Z. simpl.
  repeat split; intros; nia.
Qed.

Lemma rows_where_split (name : string) (v : cell) (df : DataFrame) :
  rows_where name v df + rows_where_not name v df = len df.
Proof.
  unfold rows_where, rows_where_not, len.
  rewrite <- Nat2Z.inj_add. f_equal. apply filter_length.
Qed.

Lemma rows_where_nonneg (name : string) (v : cell) (df : DataFrame) :
  0 <= rows_where name v df.
Proof. unfold rows_where. lia. Qed.

Lemma rows_where_not_nonneg (name : string) (v : cell) (df : DataFrame) :
  0 <= rows_where_not name v df.
Proof. unfold rows_where_not. lia. Qed.

Lemma total_anoms_label_column (df_full df_expl : DataFrame)
    (name : string) :
  label_column df_full = Some name ->
  total_anoms df_full df_expl = NpInt64 (rows_where name (VInt 1) df_full).
Proof.
  unfold label_column, total_anoms.
  destruct (has_column "predicted" df_full) eqn:Hp.
  - intros [= <-]. now rewrite count_eq_column.
  - destruct (has_column "classification" df_full) eqn:Hc; [|discriminate].
    intros [= <-]. now rewrite count_eq_column.
Qed.

(** X6. When the full table has a [predicted] column, or failing that a
    [classification] column, the normal count is the number of rows whose
    cell in that column does not equal 1; a row whose label is missing or
    is any other value counts as normal.  Both counts then lie between 0
    and the total, and the rate is a percentage between 0 and 100: it is
    100 exactly when every row is flagged, and 0 exactly when none is. *)
Theorem label_tier_counts_rows :
  forall (df_full df_expl : DataFrame) (name : string),
    label_column df_full = Some name ->
    total_norms df_full df_expl = rows_where_not name (VInt 1) df_full /\
    0 <= int_of (total_anoms df_full df_expl) <= total df_full /\
    0 <= total_norms df_full df_expl <= total df_full /\
    exists q : Q,
      anom_rate df_full df_expl = Ok (Finite q) /\
      (0 <= q)%Q /\ (q <= 100)%Q /\
      (0 < total df_full ->
         ((q == 100)%Q <-> rows_where_not name (VInt 1) df_full = 0) /\
         ((q == 0)%Q <-> rows_where name (VInt 1) df_full = 0)).
Proof.
  intros df_full df_expl name Hn.
  pose proof (total_anoms_label_column df_full df_expl name Hn) as Ha.
  pose proof (rows_where_split name (VInt 1) df_full) as Hs.
  pose proof (rows_where_nonneg name (VInt 1) df_full) as H1.
  pose proof (rows_where_not_nonneg name (VInt 1) df_full) as H2.
  unfold total_norms, total. rewrite Ha. cbn [int_of].
  split; [lia|]. split; [lia|]. split; [lia|].
  rewrite anom_rate_value, Ha. cbn [int_of].
  destruct (Z.ltb_spec 0 (len df_full)) as [Hpos|Hz].
  - eexists. split; [reflexivity|].
    destruct (share_bounds (rows_where name (VInt 1) df_full)
                           (len df_full)) as (B0 & B1 & B2 & B3);
      [lia | exact Hpos |].
    split; [exact B0|]. split; [exact B1|]. intros _. split.
    + rewrite B2. lia.
    + exact B3.
  - exists 0%Q. split; [reflexivity|].
    split; [discriminate|]. split; [discriminate|]. lia.
Qed.

(** Four rows with a [predicted] column, one of them flagged. *)
Lemma label_tier_counts_rows_witness :
  total_norms spec_predictions empty_frame = 3.
Proof.
  exact (eq_trans
    (proj1 (label_tier_counts_rows spec_predictions empty_frame "predicted"
              eq_refl))
    eq_refl).
Defined.

(** *** The order of rows *)

Lemma filter_length_permutation {A : Type} (f : A -> bool) (l l' : list A) :
  Permutation l l' -> length (filter f l) = length (filter f l').
Proof.
  induction 1 as [|x l l' _ IH|x y l|l l' l'' _ IH1 _ IH2]; cbn.
  - reflexivity.
  - destruct (f x); cbn; congruence.
  - destruct (f x), (f y); reflexivity.
  - congruence.
Qed.

Lemma row_get_columns (df df' : DataFrame) (r : list cell) (name : string)
    (default : cell) :
  columns df' = columns df ->
  row_get df' r name default = row_get df r name default.
Proof. intros H. unfold row_get. now rewrite H. Qed.

Lemma rows_where_permutation (name : string) (v : cell)
    (df df' : DataFrame) :
  columns df' = columns df -> Permutation (rows df) (rows df') ->
  rows_where name v df' = rows_where name v df.
Proof.
  intros Hc Hp. unfold rows_where. f_equal.
  rewrite (filter_ext _ (fun r => cell_eqb (row_get df r name VNaN) v))
    by (intros r; now rewrite (row_get_columns df df')).
  symmetry. now apply filter_length_permutation.
Qed.

Lemma rows_agreeing_permutation (a b : string) (df df' : DataFrame) :
  columns df' = columns df -> Permutation (rows df) (rows df') ->
  rows_agreeing a b df' = rows_agreeing a b df.
Proof.
  intros Hc Hp. unfold rows_agreeing. f_equal.
  rewrite (filter_ext _ (fun r => cell_eqb (row_get df r a VNaN)
                                           (row_get df r b VNaN)))
    by (intros r; now rewrite !(row_get_columns df df')).
  symmetry. now apply filter_length_permutation.
Qed.

Lemma len_permutation (df df' : DataFrame) :
  Permutation (rows df) (rows df') -> len df' = len df.
Proof.
  intros Hp. unfold len. f_equal. symmetry. now apply Permutation_length.
Qed.

Lemma int_of_total_anoms (df_full df_expl : DataFrame) :
  total_anoms df_full df_expl =
    match label_column df_full with
    | Some name => NpInt64 (rows_where name (VInt 1) df_full)
    | None => PyInt (len df_expl)
    end.
Proof.
  destruct (label_column df_full) as [name|] eqn:Hn.
  - now apply total_anoms_label_column.
  - unfold label_column in Hn. unfold total_anoms.
    destruct (has_column "predicted" df_full); [discriminate|].
    destruct (has_column "classification" df_full); [discriminate|].
    reflexivity.
Qed.

(** X7. The summary and the accuracy do not depend on the order of the
    rows: for tables with the same columns and the same rows in another
    order, the total, the anomaly count, the normal count and the rate are
    the same, and so is the accuracy computed from a prediction table. *)
Theorem counts_ignore_row_order :
  forall df df' df_expl : DataFrame,
    columns df' = columns df ->
    Permutation (rows df) (rows df') ->
    total df' = total df /\
    total_anoms df' df_expl = total_anoms df df_expl /\
    total_norms df' df_expl = total_norms df df_expl /\
    anom_rate df' df_expl = anom_rate df df_expl /\
    accuracy (select ["true_label"; "predicted"] df') =
      accuracy (select ["true_label"; "predicted"] df).
Proof.
  intros df df' df_expl Hc Hp.
  pose proof (len_permutation df df' Hp) as Hl.
  assert (Ha : total_anoms df' df_expl = total_anoms df df_expl).
  { rewrite !int_of_total_anoms.
    replace (label_column df') with (label_column df)
      by (unfold label_column, has_column; now rewrite Hc).
    destruct (label_column df); [|reflexivity].
    now rewrite (rows_where_permutation _ _ df df'). }
  split; [exact Hl|]. split; [exact Ha|].
  split; [unfold total_norms, total; now rewrite Ha, Hl|].
  split; [rewrite !anom_rate_value; now rewrite Ha, Hl|].
  pose proof (rows_agreeing_permutation "true_label" "predicted" df df'
                Hc Hp) as Hg.
  destruct (rows df) as [|r rs] eqn:Er.
  - apply Permutation_nil in Hp.
    unfold accuracy, match_mean.
    rewrite !column_select_true_label, !column_select_predicted.
    now rewrite Hp, Er.
  - rewrite !accuracy_select.
    + now rewrite Hg, Hl.
    + now rewrite Er.
    + intros E. rewrite E in Hp. apply Permutation_sym in Hp.
      now apply Permutation_nil in Hp.
Qed.

(** The four pairs of the example, last pair first. *)
Lemma counts_ignore_row_order_witness :
  accuracy (select ["true_label"; "predicted"]
              (mkDF ["true_label"; "predicted"]
                    [[VInt 0; VInt 0]; [VInt 0; VInt 0]; [VInt 1; VInt 1];
                     [VInt 1; VInt 0]])) =
    accuracy (select ["true_label"; "predicted"] spec_predictions).
Proof.
  refine (proj2 (proj2 (proj2 (proj2
    (counts_ignore_row_order spec_predictions
       (mkDF ["true_label"; "predicted"]
             [[VInt 0; VInt 0]; [VInt 0; VInt 0]; [VInt 1; VInt 1];
              [VInt 1; VInt 0]])
       empty_frame eq_refl _))))).
  simpl.
  apply perm_trans with
    (l' := [[VInt 0; VInt 0]; [VInt 1; VInt 1]; [VInt 0; VInt 0];
            [VInt 1; VInt 0]]).
  - apply perm_skip, perm_skip, perm_swap.
  - apply perm_skip, perm_swap.
Defined.

(* ------------------------------------------------------------------ *)
(** ** The accuracy as a percentage *)
(* ------------------------------------------------------------------ *)

Lemma filter_length_lt {A : Type} (f : A -> bool) (l : list A) (x : A) :
  In x l -> f x = false -> (length (filter f l) < length l)%nat.
Proof.
  induction l as [|y l IH]; intros Hin Hx; [contradiction|].
  pose proof (filter_length_le f l) as Hle. cbn [filter].
  destruct Hin as [-> | Hin].
  - rewrite Hx. cbn [length]. lia.
  - specialize (IH Hin Hx). destruct (f y); cbn [length]; lia.
Qed.

(** A missing value equals nothing. *)
Lemma cell_eqb_missing (c : cell) :
  cell_eqb VNaN c = false /\ cell_eqb c VNaN = false.
Proof. unfold cell_eqb. destruct c; cbn [num]; split; reflexivity. Qed.

Lemma rows_agreeing_bounds (a b : string) (df : DataFrame) :
  0 <= rows_agreeing a b df <= len df.
Proof.
  unfold rows_agreeing, len.
  pose proof (filter_length_le
    (fun r => cell_eqb (row_get df r a VNaN) (row_get df r b VNaN))
    (rows df)). lia.
Qed.

(** X8. For a prediction table with rows, the accuracy is a percentage
    between 0 and 100.  It is 100 exactly when the two labels are equal in
    every row, and 0 exactly when they are equal in none.  A row in which
    either label is missing counts as a wrong prediction, so with such a
    row the accuracy is below 100. *)
Theorem accuracy_is_a_percentage :
  forall df_pred : DataFrame,
    empty df_pred = false ->
    exists q : Q,
      accuracy (select ["true_label"; "predicted"] df_pred) = Finite q /\
      (0 <= q)%Q /\ (q <= 100)%Q /\
      ((q == 100)%Q <->
         rows_agreeing "true_label" "predicted" df_pred = len df_pred) /\
      ((q == 0)%Q <-> rows_agreeing "true_label" "predicted" df_pred = 0) /\
      (forall row,
         In row (rows df_pred) ->
         row_get df_pred row "true_label" VNaN = VNaN
           \/ row_get df_pred row "predicted" VNaN = VNaN ->
         (q < 100)%Q).
Proof.
  intros df_pred He.
  pose proof (empty_false_rows _ He) as Hpos.
  assert (Hrows : rows df_pred <> []).
  { intros E. unfold empty in He. now rewrite E in He. }
  pose proof (rows_agreeing_bounds "true_label" "predicted" df_pred) as Hb.
  destruct (share_bounds _ _ Hb Hpos) as (B0 & B1 & B2 & B3).
  eexists. split; [now apply accuracy_select|].
  split; [exact B0|]. split; [exact B1|]. split; [exact B2|].
  split; [exact B3|].
  intros row Hin Hmiss.
  apply Qle_lteq in B1 as [Hlt | Heq]; [exact Hlt|].
  apply B2 in Heq. exfalso.
  assert (Hlt : (length (filter
              (fun r => cell_eqb (row_get df_pred r "true_label" VNaN)
                                 (row_get df_pred r "predicted" VNaN))
              (rows df_pred)) < length (rows df_pred))%nat).
  { apply filter_length_lt with (x := row); [exact Hin|].
    destruct Hmiss as [-> | ->]; apply cell_eqb_missing. }
  unfold rows_agreeing, len in Heq. lia.
Qed.

(** The pairs (0,0), (1,1), (1,0), (0,0): 75, a percentage. *)
Lemma accuracy_is_a_percentage_witness :
  exists q : Q,
    accuracy (select ["true_label"; "predicted"] spec_predictions)
      = Finite q /\ (0 <= q)%Q /\ (q <= 100)%Q.
Proof.
  destruct (accuracy_is_a_percentage spec_predictions eq_refl)
    as (q & Hq & H0 & H1 & _).
  exists q. split; [exact Hq|]. split; [exact H0 | exact H1].
Defined.

(* ------------------------------------------------------------------ *)
(** ** The sample of the scatter plot *)
(* ------------------------------------------------------------------ *)

Lemma map_nth_seq {A : Type} (l : list A) (d : A) :
  map (fun i => nth i l d) (seq 0 (length l)) = l.
Proof.
  apply nth_ext with (d := nth 0 l d) (d' := d).
  - now rewrite length_map, length_seq.
  - intros n Hn. rewrite length_map, length_seq in Hn.
    rewrite (map_nth (fun i => nth i l d) (seq 0 (length l)) 0%nat n).
    now rewrite seq_nth.
Qed.

Lemma draw_all_permutation (p : list nat) (n : nat) :
  length p = n -> NoDup p -> Forall (fun i => (i < n)%nat) p ->
  Permutation p (seq 0 n).
Proof.
  intros Hl Hnd Hlt. apply NoDup_Permutation_bis; [exact Hnd | |].
  - rewrite length_seq. lia.
  - intros i Hi. apply in_seq. rewrite Forall_forall in Hlt.
    specialize (Hlt i Hi). lia.
Qed.

(** X9. The scatter plot samples [min(2000, n)] rows of the [n] rows of
    the prediction table, so the sample never asks for more rows than
    there are and is always drawn.  With a generator that draws distinct
    positions, the sample has the two label columns and that many rows,
    each a row of the table; the sample of a table of at most 2000 rows
    holds all its rows, in the order drawn. *)
Theorem scatter_sample_of_the_table :
  forall (choice : nat -> nat -> list nat) (df_pred : DataFrame),
    draws_without_replacement choice ->
    let acc_df := select ["true_label"; "predicted"] df_pred in
    let n := length (rows df_pred) in
    exists points : DataFrame,
      sample choice (Nat.min 2000 (length (rows acc_df))) acc_df
        = Ok points /\
      columns points = ["true_label"; "predicted"] /\
      length (rows points) = Nat.min 2000 n /\
      (forall r, In r (rows points) -> In r (rows acc_df)) /\
      ((n <= 2000)%nat -> Permutation (rows points) (rows acc_df)).
Proof.
  intros choice df_pred Hch acc_df n.
  assert (Hn : length (rows acc_df) = n).
  { unfold acc_df, select. cbn [rows]. now rewrite length_map. }
  destruct (Hch n (Nat.min 2000 n)) as (Hl & Hnd & Hlt); [lia|].
  eexists. split; [apply sample_at_most_all|].
  rewrite Hn. unfold take. cbn [columns rows].
  split; [reflexivity|]. split; [now rewrite length_map|]. split.
  - intros r Hr. apply in_map_iff in Hr as (i & <- & Hi).
    rewrite Forall_forall in Hlt. specialize (Hlt i Hi).
    apply nth_In. lia.
  - intros Hsmall.
    replace (Nat.min 2000 n) with n in * by lia.
    apply Permutation_trans
      with (map (fun i => nth i (rows acc_df) []) (seq 0 n)).
    + apply Permutation_map. now apply draw_all_permutation.
    + rewrite <- Hn, map_nth_seq. reflexivity.
Qed.

(** A generator that draws the first positions: the four pairs of the
    example are sampled whole. *)
Lemma scatter_sample_of_the_table_witness :
  exists points : DataFrame,
    sample (fun _ k => seq 0 k) 4
           (select ["true_label"; "predicted"] spec_predictions)
      = Ok points /\
    length (rows points) = 4%nat.
Proof.
  assert (Hch : draws_without_replacement (fun _ k => seq 0 k)).
  { intros n k Hk. split; [apply length_seq|]. split; [apply seq_NoDup|].
    apply Forall_forall. intros i Hi. apply in_seq in Hi. lia. }
  destruct (scatter_sample_of_the_table (fun _ k => seq 0 k)
              spec_predictions Hch) as (points & Hs & _ & Hl & _).
  exists points. split; [exact Hs | exact Hl].
Defined.

(* ------------------------------------------------------------------ *)
(** ** The heatmap and the number of classes *)
(* ------------------------------------------------------------------ *)

Lemma map_result_Forall {A B : Type} (f : A -> result B) (P : B -> Prop)
    (l : list A) (ys : list B) :
  (forall x y, f x = Ok y -> P y) ->
  map_result f l = Ok ys -> Forall P ys.
Proof.
  intros Hf. revert ys.
  induction l as [|x l IH]; cbn [map_result]; intros ys H.
  - injection H as <-. constructor.
  - destruct (f x) as [y| |e] eqn:E; cbn [bind_result] in H;
      try discriminate.
    destruct (map_result f l) as [ys'| |e]; cbn [bind_result] in H;
      try discriminate.
    injection H as <-. constructor; eauto.
Qed.

Lemma label_of_is_label (c : cell) (k : key) :
  label_of c = Ok k -> is_label k.
Proof.
  assert (Hred : forall q, is_label (KNum (Qred q))).
  { intros q. cbn [is_label]. apply Qred_complete, Qred_correct. }
  unfold label_of.
  destruct c; try discriminate;
    try (destruct (num _) as [q'|]; [|discriminate];
         destruct (Pos.eqb _ 1); [|discriminate];
         intros H; injection H as <-; apply Hred).
  intros H. injection H as <-. exact I.
Qed.

(** On labels of one kind the order of [np.unique] is antisymmetric. *)
Lemma key_leb_antisym (a b : key) :
  is_label a -> is_label b -> is_text a = is_text b ->
  key_leb a b = true -> key_leb b a = true -> a = b.
Proof.
  destruct a as [q|s|u], b as [q'|s'|u'];
    cbn [is_label is_text key_leb]; intros Ha Hb Hk Hab Hba;
    try discriminate; try contradiction.
  - apply Qle_bool_iff in Hab, Hba.
    rewrite <- Ha, <- Hb. f_equal.
    apply Qred_complete. now apply Qle_antisym.
  - f_equal. now apply String.leb_antisym.
Qed.

Lemma one_kind_same (ks : list key) (a b : key) :
  one_kind ks = true -> In a ks -> In b ks -> is_text a = is_text b.
Proof.
  unfold one_kind. intros H Ha Hb.
  apply orb_true_iff in H as [H|H]; rewrite forallb_forall in H;
    pose proof (H a Ha) as Ha'; pose proof (H b Hb) as Hb';
    destruct (is_text a), (is_text b); cbn in *; congruence.
Qed.

Lemma in_insert_unique (x k : key) (l : list key) :
  In x (insert_unique k l) <-> x = k \/ In x l.
Proof.
  induction l as [|y l IH]; cbn [insert_unique].
  - cbn. intuition congruence.
  - destruct (key_eqb k y) eqn:E.
    + apply key_eqb_eq in E. subst. cbn. intuition congruence.
    + destruct (key_leb k y); cbn [In]; [intuition congruence|].
      rewrite IH. intuition congruence.
Qed.

Lemma in_unique_labels_from (x : key) (ks acc : list key) :
  In x (fold_left (fun acc k => insert_unique k acc) ks acc) <->
  In x ks \/ In x acc.
Proof.
  revert acc. induction ks as [|k ks IH]; intros acc; cbn [fold_left].
  - cbn. tauto.
  - rewrite IH, in_insert_unique. cbn [In]. intuition congruence.
Qed.

(** Two labels in their order stay as they are when either is met again. *)
Lemma insert_pair_stable (x y : key) (ks : list key) :
  x <> y -> key_leb y x = false ->
  Forall (fun k => k = x \/ k = y) ks ->
  fold_left (fun acc k => insert_unique k acc) ks [x; y] = [x; y].
Proof.
  intros Hne Hle H.
  induction H as [|k ks [-> | ->] _ IH]; cbn [fold_left];
    [reflexivity| |].
  - cbn [insert_unique]. rewrite key_eqb_refl. exact IH.
  - cbn [insert_unique].
    rewrite (proj2 (key_eqb_neq y x)) by congruence.
    rewrite Hle, key_eqb_refl. exact IH.
Qed.

Lemma insert_single_same (x : key) (ks : list key) :
  Forall (fun k => k = x) ks ->
  fold_left (fun acc k => insert_unique k acc) ks [x] = [x].
Proof.
  induction 1 as [|k ks -> _ IH]; cbn [fold_left]; [reflexivity|].
  cbn [insert_unique]. rewrite key_eqb_refl. exact IH.
Qed.

Lemma insert_single_other (x y : key) (ks : list key) :
  x <> y ->
  (key_leb x y = true -> key_leb y x = true -> False) ->
  Forall (fun k => k = x \/ k = y) ks ->
  In y ks ->
  length (fold_left (fun acc k => insert_unique k acc) ks [x]) = 2%nat.
Proof.
  intros Hne Hanti H.
  induction H as [|k ks Hk Hks IH]; intros Hin; [contradiction|].
  cbn [fold_left]. destruct Hk as [-> | ->].
  - cbn [insert_unique]. rewrite key_eqb_refl. apply IH.
    destruct Hin; [congruence | assumption].
  - cbn [insert_unique].
    rewrite (proj2 (key_eqb_neq y x)) by congruence.
    destruct (key_leb y x) eqn:E.
    + rewrite (insert_pair_stable y x); [reflexivity | congruence | |].
      * destruct (key_leb x y); [exfalso; auto | reflexivity].
      * eapply Forall_impl; [|exact Hks]. cbn. tauto.
    + now rewrite (insert_pair_stable x y).
Qed.

Lemma two_labels_length (ks : list key) :
  Forall is_label ks -> one_kind ks = true -> two_labels ks ->
  length (unique_labels ks) = 2%nat.
Proof.
  intros Hl Hk (a & b & Hne & Ha & Hb & Hall).
  assert (Hanti : forall x y, In x ks -> In y ks -> x <> y ->
                    key_leb x y = true -> key_leb y x = true -> False).
  { intros x y Hx Hy Hxy H1 H2. apply Hxy.
    rewrite Forall_forall in Hl.
    apply key_leb_antisym; auto. now apply (one_kind_same ks). }
  unfold unique_labels.
  destruct ks as [|k ks]; [contradiction|].
  cbn [fold_left insert_unique].
  assert (Hks : Forall (fun k => k = a \/ k = b) ks).
  { apply Forall_forall. intros x Hx. apply Hall. now right. }
  destruct (Hall k (or_introl eq_refl)) as [-> | ->].
  - apply insert_single_other with (y := b).
    + exact Hne.
    + apply Hanti; [now left | exact Hb | exact Hne].
    + exact Hks.
    + destruct Hb; [congruence | assumption].
  - apply insert_single_other with (y := a).
    + congruence.
    + apply Hanti; [now left | exact Ha | congruence].
    + eapply Forall_impl; [|exact Hks]. cbn. tauto.
    + destruct Ha; [congruence | assumption].
Qed.

Lemma length_two_labels (ks : list key) :
  length (unique_labels ks) = 2%nat -> two_labels ks.
Proof.
  intros H.
  assert (Hin : forall x, In x (unique_labels ks) <-> In x ks).
  { intros x. unfold unique_labels. rewrite in_unique_labels_from.
    cbn. tauto. }
  destruct (unique_labels ks) as [|x [|y [|z l]]] eqn:E; try discriminate.
  exists x, y. split; [|split; [|split]].
  - intros ->.
    assert (Hall : Forall (fun k => k = y) ks).
    { apply Forall_forall. intros k Hk. apply Hin in Hk.
      cbn in Hk. intuition congruence. }
    unfold unique_labels in E.
    destruct ks as [|k ks]; [discriminate|].
    inversion Hall as [|? ? -> Hks]; subst.
    cbn [fold_left insert_unique] in E.
    rewrite insert_single_same in E by exact Hks. discriminate.
  - apply Hin. now left.
  - apply Hin. right. now left.
  - intros k Hk. apply Hin in Hk. cbn in Hk. intuition congruence.
Qed.

(** The matrix of [confusion_matrix] has one row and one column per
    label; the labelled frame is built from it when there are two. *)
Lemma cm_df_by_labels (acc_df : DataFrame) (t p : list key) :
  map_result label_of (column "true_label" acc_df) = Ok t ->
  map_result label_of (column "predicted" acc_df) = Ok p ->
  one_kind (t ++ p) = true ->
  let labels := unique_labels (t ++ p) in
  let m := map (fun a => map (fun b => cooccur a b (combine t p)) labels)
               labels in
  cm acc_df = Ok m /\
  cm_df acc_df =
    if (length labels =? 2)%nat
    then Ok (mkMatrix ["Actual Normal"; "Actual Attack"]
                      ["Pred Normal"; "Pred Attack"] m)
    else Raise ValueError.
Proof.
  intros Ht Hp Hk. cbv zeta.
  unfold cm_df, cm, confusion_matrix. rewrite Ht, Hp.
  cbn [bind_result]. rewrite Hk. split; [reflexivity|].
  cbn [bind_result]. unfold frame_of_matrix.
  rewrite length_map. cbn [length].
  destruct (Nat.eqb_spec (length (unique_labels (t ++ p))) 2) as [E|E];
    cbn [andb]; [|reflexivity].
  rewrite (proj2 (forallb_forall _ _)); [reflexivity|].
  intros r Hr. apply in_map_iff in Hr as (a & <- & _).
  rewrite length_map, E. reflexivity.
Qed.

(** The labelled matrix is built exactly when both label columns hold
    valid class labels of one kind and two distinct labels occur. *)
Lemma cm_df_two_labels (acc_df : DataFrame) :
  (exists m : Matrix, cm_df acc_df = Ok m) <->
  (exists t p : list key,
     map_result label_of (column "true_label" acc_df) = Ok t /\
     map_result label_of (column "predicted" acc_df) = Ok p /\
     one_kind (t ++ p) = true /\
     two_labels (t ++ p)).
Proof.
  split.
  - intros [m Hm].
    destruct (map_result label_of (column "true_label" acc_df))
      as [t| |e] eqn:Ht;
      [|unfold cm_df, cm, confusion_matrix in Hm; rewrite Ht in Hm;
        discriminate ..].
    destruct (map_result label_of (column "predicted" acc_df))
      as [p| |e] eqn:Hp;
      [|unfold cm_df, cm, confusion_matrix in Hm; rewrite Ht, Hp in Hm;
        discriminate ..].
    destruct (one_kind (t ++ p)) eqn:Hk;
      [|unfold cm_df, cm, confusion_matrix in Hm;
        rewrite Ht, Hp in Hm; cbn [bind_result] in Hm;
        rewrite Hk in Hm; discriminate].
    exists t, p. split; [reflexivity|]. split; [reflexivity|].
    split; [exact Hk|].
    apply length_two_labels.
    destruct (cm_df_by_labels acc_df t p Ht Hp Hk) as [_ Hd].
    rewrite Hd in Hm.
    destruct (Nat.eqb_spec (length (unique_labels (t ++ p))) 2);
      [assumption | discriminate].
  - intros (t & p & Ht & Hp & Hk & Htwo).
    destruct (cm_df_by_labels acc_df t p Ht Hp Hk) as [_ Hd].
    rewrite Hd, two_labels_length; [eexists; reflexivity | | exact Hk
                                    | exact Htwo].
    apply Forall_app. split;
      eapply map_result_Forall; eauto using label_of_is_label.
Qed.

(** With valid labels of one kind that are not two, the matrix is square
    with one row per label, and naming its rows and columns fails. *)
Lemma cm_df_other_count (acc_df : DataFrame) (t p : list key) :
  map_result label_of (column "true_label" acc_df) = Ok t ->
  map_result label_of (column "predicted" acc_df) = Ok p ->
  one_kind (t ++ p) = true ->
  ~ two_labels (t ++ p) ->
  exists vals : list (list Z),
    cm acc_df = Ok vals /\
    length vals = length (unique_labels (t ++ p)) /\
    Forall (fun r => length r = length vals) vals /\
    length vals <> 2%nat /\
    cm_df acc_df = Raise ValueError.
Proof.
  intros Ht Hp Hk Hnot.
  destruct (cm_df_by_labels acc_df t p Ht Hp Hk) as [Hc Hd].
  eexists. split; [exact Hc|].
  rewrite length_map. split; [reflexivity|]. split.
  - apply Forall_forall. intros r Hr.
    apply in_map_iff in Hr as (a & <- & _). now rewrite length_map.
  - assert (Hlen : length (unique_labels (t ++ p)) <> 2%nat).
    { intros E. apply Hnot. now apply length_two_labels. }
    split; [exact Hlen|]. rewrite Hd.
    destruct (Nat.eqb_spec (length (unique_labels (t ++ p))) 2);
      [contradiction | reflexivity].
Qed.

Lemma accuracy_front_no_heatmap (choice : nat -> nat -> list nat)
    (df_pred : DataFrame) :
  has_heatmap (accuracy_front choice df_pred) = false.
Proof. reflexivity. Qed.

Lemma heatmap_after_front (choice : nat -> nat -> list nat)
    (df_pred : DataFrame) (m : Matrix) :
  has_heatmap (accuracy_front choice df_pred
                 ++ [PlotlyChart (Heatmap m "Confusion Matrix")]) = true.
Proof. reflexivity. Qed.

(** X10. On a predictions table with rows and both label columns, the
    accuracy section shows the confusion matrix exactly when the scatter
    plot before it is drawn (its trendline is fitted) and both label
    columns hold valid class labels of one kind, of which two distinct
    ones occur, no more and no fewer.  When the scatter plot is drawn and
    the labels are valid and of one kind, but one class only occurs, or
    three and more, [confusion_matrix] still returns its square matrix,
    one row and one column per label; giving it the two fixed row and
    column names raises a [ValueError], and the section ends with it
    after the scatter plot. *)
Theorem heatmap_needs_two_labels :
  forall (choice : nat -> nat -> list nat) (float_text : string -> bool)
         (df_pred : DataFrame),
    let acc_df := select ["true_label"; "predicted"] df_pred in
    empty df_pred = false ->
    has_column "true_label" df_pred = true ->
    has_column "predicted" df_pred = true ->
    (has_heatmap (snd (run (accuracy_section choice float_text df_pred)))
       = true <->
     trendline_of choice float_text df_pred = Ok tt /\
     exists t p : list key,
       map_result label_of (column "true_label" acc_df) = Ok t /\
       map_result label_of (column "predicted" acc_df) = Ok p /\
       one_kind (t ++ p) = true /\
       two_labels (t ++ p)) /\
    (forall t p : list key,
       trendline_of choice float_text df_pred = Ok tt ->
       map_result label_of (column "true_label" acc_df) = Ok t ->
       map_result label_of (column "predicted" acc_df) = Ok p ->
       one_kind (t ++ p) = true ->
       ~ two_labels (t ++ p) ->
       exists vals : list (list Z),
         cm acc_df = Ok vals /\
         length vals = length (unique_labels (t ++ p)) /\
         Forall (fun r => length r = length vals) vals /\
         length vals <> 2%nat /\
         run (accuracy_section choice float_text df_pred) =
           (Raise ValueError, accuracy_front choice df_pred)).
Proof.
  intros choice float_text df_pred acc_df He Ht Hp.
  rewrite (run_accuracy_section choice float_text df_pred He Ht Hp).
  fold acc_df. split; [split|].
  - intros H.
    destruct (trendline_of choice float_text df_pred) as [[]| |e];
      [|discriminate H ..].
    split; [reflexivity|]. apply cm_df_two_labels.
    destruct (cm_df acc_df) as [m| |e];
      [now exists m | discriminate H ..].
  - intros [Hfit Hlab]. rewrite Hfit.
    apply cm_df_two_labels in Hlab as [m Hm]. rewrite Hm.
    apply heatmap_after_front.
  - intros t p Hfit Hlt Hlp Hk Hnot. rewrite Hfit.
    destruct (cm_df_other_count acc_df t p Hlt Hlp Hk Hnot)
      as (vals & Hc & Hlen & Hsq & Hn & Hd).
    exists vals. rewrite Hd. repeat split; assumption.
Qed.

(** The four pairs (0,0), (0,1), (1,0), (1,1): the heatmap is shown, so
    the trendline is fitted and two labels occur. *)
Lemma heatmap_needs_two_labels_witness :
  trendline_of (fun _ k => seq 0 k) (fun _ => false) spec_pairs = Ok tt /\
  exists t p : list key,
    map_result label_of
      (column "true_label"
              (select ["true_label"; "predicted"] spec_pairs)) = Ok t /\
    map_result label_of
      (column "predicted"
              (select ["true_label"; "predicted"] spec_pairs)) = Ok p /\
    one_kind (t ++ p) = true /\
    two_labels (t ++ p).
Proof.
  exact (proj1
    (proj1
       (heatmap_needs_two_labels (fun _ k => seq 0 k) (fun _ => false)
          spec_pairs eq_refl eq_refl eq_refl))
    eq_refl).
Defined.

(* ------------------------------------------------------------------ *)
(** ** The scatter plot and labels that are text *)
(* ------------------------------------------------------------------ *)

Lemma filter_all {A : Type} (f : A -> bool) (l : list A) :
  (forall a, In a l -> f a = true) -> filter f l = l.
Proof.
  induction l as [|a l IH]; intros H; [reflexivity|].
  cbn [filter]. rewrite (H a (or_introl eq_refl)), IH; [reflexivity|].
  intros b Hb. apply H. now right.
Qed.

(** Rows taken at positions of the table hold cells of its columns. *)
Lemma take_column_cells (name : string) (locs : list nat) (df : DataFrame)
    (P : cell -> bool) :
  has_column name df = true ->
  Forall (fun j => (j < length (rows df))%nat) locs ->
  forallb P (column name df) = true ->
  forallb P (column name (take locs df)) = true /\
  length (column name (take locs df)) = length locs.
Proof.
  intros H Hlocs HP. destruct (position_present _ _ H) as [i Hi].
  unfold column, take in *. cbn [columns rows]. rewrite Hi in *. split.
  - rewrite forallb_forall in *. intros c Hc.
    apply in_map_iff in Hc as (r & <- & Hr).
    apply in_map_iff in Hr as (j & <- & Hj).
    rewrite Forall_forall in Hlocs. specialize (Hlocs j Hj).
    apply HP. apply in_map. now apply nth_In.
  - now rewrite !length_map.
Qed.

(** With two rows or more, text under [x] that is not a number, and
    nothing missing under [y], the fit stops at the conversion. *)
Lemma ols_trendline_text (float_text : string -> bool) (x y : list cell) :
  (2 <= length x)%nat ->
  length y = length x ->
  forallb (not_a_number float_text) x = true ->
  forallb present y = true ->
  ols_trendline float_text x y = Raise ValueError.
Proof.
  intros Hlen Hy Hx Hp. unfold ols_trendline. cbv zeta.
  rewrite forallb_forall in Hx, Hp.
  assert (Hstr : forall c, In c x ->
            exists s, c = VStr s /\ float_text s = false).
  { intros c Hc. specialize (Hx c Hc). destruct c; try discriminate.
    eexists. split; [reflexivity|]. now apply negb_true_iff. }
  rewrite filter_all.
  2:{ intros [a b] Hab. cbn [fst snd].
      destruct (Hstr a (in_combine_l _ _ _ _ Hab)) as (s & -> & _).
      now rewrite (Hp b (in_combine_r _ _ _ _ Hab)). }
  rewrite length_combine, Hy, Nat.min_id.
  destruct (Nat.ltb_spec 1 (length x)) as [_|]; [|lia].
  assert (Hsort : sortable x = true).
  { unfold sortable. apply orb_true_iff. left.
    apply forallb_forall. intros c Hc.
    now destruct (Hstr c Hc) as (s & -> & _). }
  rewrite Hsort. cbn [negb].
  destruct x as [|c x']; [cbn [length] in Hlen; lia|].
  destruct (Hstr c (or_introl eq_refl)) as (s & -> & Hs).
  cbn [forallb converts]. now rewrite Hs.
Qed.

(** X19. Labels that are text stop the accuracy section at the scatter
    plot.  On a predictions table with two rows or more in which every
    [true_label] is a text that Python does not read as a number and no
    [predicted] is missing, and with a generator that draws distinct
    positions, [px.scatter] cannot convert the labels for its trendline:
    the section ends with a [ValueError] after the accuracy metric, with
    neither the scatter plot nor the confusion matrix on the page, also
    when the labels are two valid classes. *)
Theorem scatter_needs_numeric_labels :
  forall (choice : nat -> nat -> list nat) (float_text : string -> bool)
         (df_pred : DataFrame),
    let acc_df := select ["true_label"; "predicted"] df_pred in
    has_column "true_label" df_pred = true ->
    has_column "predicted" df_pred = true ->
    draws_without_replacement choice ->
    (2 <= length (rows df_pred))%nat ->
    forallb (not_a_number float_text) (column "true_label" acc_df) = true ->
    forallb present (column "predicted" acc_df) = true ->
    trendline_of choice float_text df_pred = Raise ValueError /\
    run (accuracy_section choice float_text df_pred) =
      (Raise ValueError,
       [ Subheader "📈 Model Accuracy & Regression Plot";
         Metric "Model Accuracy" [FmtFloat2 (accuracy acc_df); Lit "%"] ]) /\
    has_heatmap (snd (run (accuracy_section choice float_text df_pred)))
      = false.
Proof.
  intros choice float_text df_pred acc_df Ht Hp Hch Hrows Hx Hy.
  set (n := length (rows df_pred)) in *.
  assert (Hn : length (rows acc_df) = n).
  { unfold acc_df, select. cbn [rows]. now rewrite length_map. }
  destruct (Hch n (Nat.min 2000 n)) as (Hl & _ & Hlt); [lia|].
  assert (Hin : Forall (fun j => (j < length (rows acc_df))%nat)
                       (choice n (Nat.min 2000 n)))
    by now rewrite Hn.
  destruct (take_column_cells "true_label" _ acc_df _ eq_refl Hin Hx)
    as [Hx' Hlx].
  destruct (take_column_cells "predicted" _ acc_df _ eq_refl Hin Hy)
    as [Hy' Hly].
  assert (Hfit : trendline_of choice float_text df_pred = Raise ValueError).
  { unfold trendline_of, sample_points. fold acc_df. fold n.
    apply ols_trendline_text; [rewrite Hlx, Hl; lia | congruence
                               | exact Hx' | exact Hy']. }
  assert (He : empty df_pred = false).
  { unfold empty. unfold n in Hrows.
    destruct (rows df_pred); [cbn [length] in Hrows; lia|].
    unfold has_column in Ht. destruct (columns df_pred);
      [discriminate | reflexivity]. }
  assert (Hrun : run (accuracy_section choice float_text df_pred) =
                 (Raise ValueError, accuracy_head df_pred)).
  { rewrite (run_accuracy_section choice float_text df_pred He Ht Hp).
    now rewrite Hfit. }
  split; [exact Hfit|]. split; [exact Hrun|]. now rewrite Hrun.
Qed.

(** Two rows labelled normal and attack: two valid classes, yet the
    section ends at the scatter plot. *)
Lemma scatter_needs_numeric_labels_witness :
  run (accuracy_section (fun _ k => seq 0 k) (fun _ => false) text_labels) =
    (Raise ValueError,
     [ Subheader "📈 Model Accuracy & Regression Plot";
       Metric "Model Accuracy" [FmtFloat2 (Finite (100 # 2)); Lit "%"] ]).
Proof.
  assert (Hch : draws_without_replacement (fun _ k => seq 0 k)).
  { intros n k Hk. split; [apply length_seq|]. split; [apply seq_NoDup|].
    apply Forall_forall. intros i Hi. apply in_seq in Hi. lia. }
  exact (eq_trans
    (proj1 (proj2
       (scatter_needs_numeric_labels (fun _ k => seq 0 k) (fun _ => false)
          text_labels eq_refl eq_refl Hch (le_n 2) eq_refl eq_refl)))
    eq_refl).
Defined.

(** The same table would pass [confusion_matrix]: it has two classes. *)
Example text_labels_two_classes :
  exists m : Matrix,
    cm_df (select ["true_label"; "predicted"] text_labels) = Ok m.
Proof. eexists. reflexivity. Qed.

(** *** Two classes: the cells and the accuracy *)

Lemma binary_pairs_total (y_true y_pred : list cell) :
  Forall binary y_true -> Forall binary y_pred ->
  length y_true = length y_pred ->
  pairs_where 0 0 y_true y_pred + pairs_where 0 1 y_true y_pred
    + pairs_where 1 0 y_true y_pred + pairs_where 1 1 y_true y_pred
    = Z.of_nat (length y_true) /\
  Z.of_nat (length (filter (fun p => cell_eqb (fst p) (snd p))
                           (combine y_true y_pred)))
    = pairs_where 0 0 y_true y_pred + pairs_where 1 1 y_true y_pred.
Proof.
  intros Ht. revert y_pred. unfold pairs_where.
  induction Ht as [|c y_true Hc _ IH]; intros y_pred Hp Hlen.
  - split; reflexivity.
  - destruct Hp as [|d y_pred Hd Hp]; [discriminate|].
    injection Hlen as Hlen. destruct (IH y_pred Hp Hlen) as [IH1 IH2].
    cbn [combine filter fst snd].
    destruct Hc as [-> | ->], Hd as [-> | ->];
      repeat match goal with
             | |- context [cell_eqb (VInt ?a) (VInt ?b)] =>
                 let v := eval vm_compute in (cell_eqb (VInt a) (VInt b)) in
                 change (cell_eqb (VInt a) (VInt b)) with v
             end;
      cbn [andb length]; split; lia.
Qed.

(** X11. For a prediction table with rows whose labels are all 0 or 1
    and in which both classes occur, the heatmap is the 2x2 matrix with
    the actual class by row and the predicted class by column, Normal
    before Attack whatever the order of the rows.  Its four cells add up
    to the number of rows, and the accuracy shown above it is its
    diagonal, as a share of the rows, times 100. *)
Theorem binary_heatmap_matches_accuracy :
  forall df_pred : DataFrame,
    let acc_df := select ["true_label"; "predicted"] df_pred in
    let y_true := column "true_label" acc_df in
    let y_pred := column "predicted" acc_df in
    let tn := pairs_where 0 0 y_true y_pred in
    let fp := pairs_where 0 1 y_true y_pred in
    let fn := pairs_where 1 0 y_true y_pred in
    let tp := pairs_where 1 1 y_true y_pred in
    empty df_pred = false ->
    Forall binary y_true -> Forall binary y_pred ->
    In (VInt 0) (y_true ++ y_pred) -> In (VInt 1) (y_true ++ y_pred) ->
    cm_df acc_df =
      Ok (mkMatrix ["Actual Normal"; "Actual Attack"]
                   ["Pred Normal"; "Pred Attack"]
                   [[tn; fp]; [fn; tp]]) /\
    tn + fp + fn + tp = len df_pred /\
    accuracy acc_df =
      Finite (inject_Z (tn + tp) / inject_Z (len df_pred) * 100).
Proof.
  intros df_pred acc_df y_true y_pred tn fp fn tp He Ht Hp H0 H1.
  assert (Hrows : rows df_pred <> []).
  { intros E. unfold empty in He. now rewrite E in He. }
  assert (Elt : y_true =
                map (fun r => row_get df_pred r "true_label" VNaN)
                    (rows df_pred))
    by apply column_select_true_label.
  assert (Elp : y_pred =
                map (fun r => row_get df_pred r "predicted" VNaN)
                    (rows df_pred))
    by apply column_select_predicted.
  assert (Hlen : length y_true = length y_pred)
    by (rewrite Elt, Elp; now rewrite !length_map).
  destruct (binary_pairs_total y_true y_pred Ht Hp Hlen) as [Hsum Hdiag].
  split; [now apply cm_df_binary|]. split.
  - unfold tn, fp, fn, tp. rewrite Hsum, Elt, length_map. reflexivity.
  - unfold acc_df. rewrite (accuracy_select _ Hrows).
    replace (rows_agreeing "true_label" "predicted" df_pred)
      with (tn + tp); [reflexivity|].
    unfold tn, tp. rewrite <- Hdiag, Elt, Elp, combine_map.
    unfold rows_agreeing. now rewrite filter_map_length.
Qed.

(** The pairs (0,0), (1,1), (1,0), (0,0): two and one on the diagonal,
    three of four. *)
Lemma binary_heatmap_matches_accuracy_witness :
  cm_df (select ["true_label"; "predicted"] spec_predictions) =
    Ok (mkMatrix ["Actual Normal"; "Actual Attack"]
                 ["Pred Normal"; "Pred Attack"]
                 [[2; 0]; [1; 1]]).
Proof.
  refine (eq_trans (proj1
    (binary_heatmap_matches_accuracy spec_predictions eq_refl _ _ _ _))
    eq_refl).
  - repeat (constructor;
            [first [left; reflexivity | right; reflexivity]|]).
    constructor.
  - repeat (constructor;
            [first [left; reflexivity | right; reflexivity]|]).
    constructor.
  - simpl. tauto.
  - simpl. tauto.
Defined.

(* ------------------------------------------------------------------ *)
(** ** The lines of the insights section *)
(* ------------------------------------------------------------------ *)

(** Whatever the sort does, a top value is a value of the column. *)
Lemma in_top3 (argsort : list nat -> list nat) (s : list cell) (k : key) :
  In k (top3 argsort s) -> In k (dropna s).
Proof.
  unfold top3, value_counts, sort_values_desc. intros H.
  apply in_map_iff in H as ([k' c] & <- & H). cbn [fst].
  apply in_firstn in H. apply in_take_at in H as (i & _ & Hi).
  apply nth_error_In in Hi.
  apply (keys_count_table (dropna s)). apply in_map_iff.
  exists (k', c). auto.
Qed.

Lemma in_dropna (s : list cell) (k : key) :
  In k (dropna s) -> exists c, In c s /\ key_of c = Some k.
Proof.
  induction s as [|c s IH]; cbn [dropna]; [contradiction|].
  destruct (key_of c) as [k'|] eqn:E; intros H.
  - destruct H as [<- | H]; [exists c; split; [now left | exact E]|].
    destruct (IH H) as (c' & Hc' & E'). exists c'. split; [now right|].
    exact E'.
  - destruct (IH H) as (c' & Hc' & E'). exists c'. split; [now right|].
    exact E'.
Qed.

Lemma top_threats_text (argsort : list nat -> list nat)
    (df_expl : DataFrame) :
  forallb text_or_missing (column "reasons" df_expl) = true ->
  forallb is_text (top_threats argsort df_expl) = true.
Proof.
  intros H. apply forallb_forall. intros k Hk.
  unfold top_threats in Hk. apply in_top3 in Hk.
  apply in_dropna in Hk as (c & Hc & E).
  rewrite forallb_forall in H. specialize (H c Hc).
  unfold text_or_missing in H. now rewrite E in H.
Qed.

(** X12. The threats line joins its three values as they are, so they
    have to be text.  On a table with rows and a [reasons] column: if one
    of the three most frequent reasons is not text (a number, say), the
    join raises a [TypeError] and the section ends under its heading, with
    no line written, not even the sources line, which converts its values
    and would have been written; if every reason is text or missing, the
    three values are text and the section does not end that way. *)
Theorem threats_line_needs_text :
  forall (argsort : list nat -> list nat)
         (to_datetime : list cell -> outcome (list parsed))
         (df_expl : DataFrame),
    empty df_expl = false ->
    has_column "reasons" df_expl = true ->
    (forallb is_text (top_threats argsort df_expl) = false ->
       run (insights_section argsort to_datetime df_expl) =
         (Raise TypeError, [insights_head])) /\
    (forallb text_or_missing (column "reasons" df_expl) = true ->
       forallb is_text (top_threats argsort df_expl) = true /\
       join ", " (top_threats argsort df_expl) =
         Ok (String.concat ", "
               (map text_of (top_threats argsort df_expl))) /\
       run (insights_section argsort to_datetime df_expl) <>
         (Raise TypeError, [insights_head])).
Proof.
  intros argsort to_datetime df_expl He Hr. split.
  - intros Hn. rewrite run_insights_section by exact He.
    now rewrite Hr, Hn.
  - intros Ht. pose proof (top_threats_text argsort df_expl Ht) as Htop.
    split; [exact Htop|]. split; [now rewrite join_cases, Htop|].
    rewrite run_insights_section by exact He.
    rewrite Hr, Htop. cbn [andb negb]. cbv iota.
    destruct (has_column "timestamp" df_expl); cbv iota; [|discriminate].
    unfold insights_lines. rewrite Hr. cbn [List.app].
    destruct (to_datetime _); [|intros E; discriminate E].
    destruct (peak _) as [[h|]| |e]; intros E; discriminate E.
Qed.

(** One explanation whose reason is the number 404. *)
Lemma threats_line_needs_text_witness :
  run (insights_section aquicksort parse_nothing numeric_reason) =
    (Raise TypeError, [insights_head]).
Proof.
  exact (proj1
    (threats_line_needs_text aquicksort parse_nothing numeric_reason
       eq_refl eq_refl) eq_refl).
Defined.

(** X13. On a table with rows and no [timestamp] column, whose reasons
    are text or missing, the insights section ends normally and hands on
    the table unchanged.  Under its heading it writes the threats line if
    there is a [reasons] column and the sources line if there is a [host]
    column, in this order, and nothing else; hosts of any type are
    written. *)
Theorem insights_without_timestamps :
  forall (argsort : list nat -> list nat)
         (to_datetime : list cell -> outcome (list parsed))
         (df_expl : DataFrame),
    empty df_expl = false ->
    has_column "timestamp" df_expl = false ->
    forallb text_or_missing (column "reasons" df_expl) = true ->
    run (insights_section argsort to_datetime df_expl) =
      (Ok df_expl, insights_head :: insights_lines argsort df_expl).
Proof.
  intros argsort to_datetime df_expl He Hts Ht.
  rewrite run_insights_section by exact He.
  rewrite (top_threats_text argsort df_expl Ht), Hts.
  now rewrite andb_false_r.
Qed.

(** Five explanations with reasons and hosts: both lines. *)
Lemma insights_without_timestamps_witness :
  run (insights_section aquicksort parse_nothing five_reasons) =
    (Ok five_reasons,
     [insights_head;
      threats_line [KStr "x"; KStr "y"; KStr "z"];
      sources_line [KStr "10.0.0.2"; KStr "10.0.0.1"; KStr "10.0.0.3"]]).
Proof.
  exact (eq_trans
    (insights_without_timestamps aquicksort parse_nothing five_reasons
       eq_refl eq_refl eq_refl)
    eq_refl).
Defined.

(** *** The peak line *)

Lemma reasons_do_not_raise (argsort : list nat -> list nat)
    (df_expl : DataFrame) :
  forallb text_or_missing (column "reasons" df_expl) = true ->
  has_column "reasons" df_expl
    && negb (forallb is_text (top_threats argsort df_expl)) = false.
Proof.
  intros Ht. rewrite (top_threats_text argsort df_expl Ht).
  apply andb_false_r.
Qed.

(** X14. Under pandas 2.  On a well-formed table with rows and a
    [timestamp] column (and reasons that are text or missing), suppose
    [pd.to_datetime] returns one value per row and at least one value
    parses.  If what it returns is a datetime column (no value keeps a UTC
    offset of its own), the insights section ends normally, hands on the
    table with its timestamps rewritten, and writes the peak line last.
    The hour it names starts on the hour, holds at least one parsed
    timestamp, and holds at least as many as any other hour; among the
    hours that hold as many it is the earliest.  Values that do not parse
    are not counted.  If the values carry different offsets, the column is
    left as objects, [resample] refuses it with a [TypeError], and the
    section ends after the threats and sources lines, with no peak
    line. *)
Theorem peak_line_names_busiest_hour :
  forall (argsort : list nat -> list nat)
         (to_datetime : list cell -> outcome (list parsed))
         (df_expl : DataFrame) (stamps : list parsed)
         (t : Z) (ts : list Z),
    empty df_expl = false ->
    well_formed df_expl ->
    has_column "timestamp" df_expl = true ->
    forallb text_or_missing (column "reasons" df_expl) = true ->
    to_datetime (column "timestamp" df_expl) = Returns stamps ->
    length stamps = length (rows df_expl) ->
    valid (map instant stamps) = t :: ts ->
    (datetime64 stamps = true ->
     exists h : Z,
       run (insights_section argsort to_datetime df_expl) =
         (Ok (coerce_timestamps to_datetime df_expl),
          insights_head :: insights_lines argsort df_expl
            ++ [peak_line h]) /\
       h mod HOUR = 0 /\
       0 < in_window h (t :: ts) /\
       forall h', h' mod HOUR = 0 ->
         in_window h' (t :: ts) <= in_window h (t :: ts) /\
         (in_window h' (t :: ts) = in_window h (t :: ts) -> h <= h')) /\
    (datetime64 stamps = false ->
     run (insights_section argsort to_datetime df_expl) =
       (Raise TypeError,
        insights_head :: insights_lines argsort df_expl)).
Proof.
  intros argsort to_datetime df_expl stamps t ts He Hwf Hc Ht Hs Hlen Hv.
  split; intros Hd.
  - destruct (peak_busiest_hour to_datetime df_expl stamps t ts
                Hwf Hc Hs Hlen Hd Hv) as (h & Hp & Hrest).
    exists h. split; [|exact Hrest].
    rewrite run_insights_section by exact He.
    now rewrite (reasons_do_not_raise argsort df_expl Ht), Hc, Hs, Hp.
  - rewrite run_insights_section by exact He.
    rewrite (reasons_do_not_raise argsort df_expl Ht), Hc, Hs.
    now rewrite (peak_mixed_offsets to_datetime df_expl stamps
                   Hwf Hc Hs Hlen Hd).
Qed.

(** Three timestamps in the hour from 10:00, seven in the hour from
    11:00, one that does not parse: the peak is 11:00. *)
Lemma peak_line_names_busiest_hour_witness :
  exists h : Z,
    run (insights_section aquicksort parse_two_hours two_hours) =
      (Ok (coerce_timestamps parse_two_hours two_hours),
       insights_head :: insights_lines aquicksort two_hours
         ++ [peak_line h]) /\
    h mod HOUR = 0.
Proof.
  assert (Hwf : well_formed two_hours).
  { split; [repeat constructor; simpl; tauto|].
    repeat constructor. }
  let o := eval vm_compute in
              (parse_two_hours (column "timestamp" two_hours)) in
  match o with
  | Returns ?stamps =>
      let l := eval vm_compute in (valid (map instant stamps)) in
      match l with
      | ?t :: ?ts =>
          assert (Hs : parse_two_hours (column "timestamp" two_hours)
                       = Returns stamps)
            by (vm_compute; reflexivity);
          assert (Hv : valid (map instant stamps) = t :: ts)
            by (vm_compute; reflexivity);
          assert (Hd : datetime64 stamps = true)
            by (vm_compute; reflexivity);
          destruct (proj1 (peak_line_names_busiest_hour aquicksort
                             parse_two_hours two_hours stamps t ts
                             eq_refl Hwf eq_refl eq_refl Hs eq_refl Hv) Hd)
            as (h & Hrun & Hmod & _)
      end
  end.
  exists h. split; [exact Hrun | exact Hmod].
Defined.

(** Two timestamps with different UTC offsets: both parse, the column
    stays a column of objects, and the section ends with a [TypeError]. *)
Example insights_mixed_offsets :
  column "timestamp" (coerce_timestamps parse_two_zones two_zones) =
    [VDatetime (9 * HOUR) HOUR; VDatetime (8 * HOUR) (2 * HOUR)] /\
  run (insights_section aquicksort parse_two_zones two_zones) =
    (Raise TypeError, [insights_head]).
Proof. split; reflexivity. Qed.

Lemma nothing_parsed (stamps : list parsed) :
  valid (map instant stamps) = [] ->
  datetime64 stamps = true /\ map instant stamps = map (fun _ => None) stamps.
Proof.
  unfold datetime64. induction stamps as [|[ns| |ns off] l IH];
    cbn [map instant valid forallb andb]; intros H; try discriminate.
  - now split.
  - destruct (IH H) as [H1 H2]. split; [exact H1 | now rewrite H2].
Qed.

Lemma peak_nothing_parses
    (to_datetime : list cell -> outcome (list parsed))
    (df_expl : DataFrame) (stamps : list parsed) :
  empty df_expl = false ->
  well_formed df_expl ->
  has_column "timestamp" df_expl = true ->
  to_datetime (column "timestamp" df_expl) = Returns stamps ->
  length stamps = length (rows df_expl) ->
  valid (map instant stamps) = [] ->
  peak (coerce_timestamps to_datetime df_expl) = Raise AttributeError.
Proof.
  intros He Hwf Hc Hs Hlen Hv.
  destruct (nothing_parsed stamps Hv) as [Hd _].
  unfold peak.
  rewrite (hourly_coerce_timestamps _ _ _ Hwf Hc Hs Hlen), Hd.
  unfold resample_hourly_size. rewrite Hv.
  destruct stamps as [|p l]; [|reflexivity].
  pose proof (empty_false_rows _ He) as Hpos. unfold len in Hpos.
  cbn [length] in Hlen. lia.
Qed.

(** X15. Under pandas 2.  On a well-formed table with rows and a
    [timestamp] column (and reasons that are text or missing), for which
    [pd.to_datetime] returns one value per row: if no value parses, every
    timestamp is rewritten to [NaT], resampling raises an
    [AttributeError], and the insights section ends with it after the
    threats and sources lines.  The guard on the length of the hourly
    series does not help: on a table with rows that series is never
    empty, so the guard is passed whenever it is reached. *)
Theorem no_timestamp_parses :
  forall (argsort : list nat -> list nat)
         (to_datetime : list cell -> outcome (list parsed))
         (df_expl : DataFrame) (stamps : list parsed),
    empty df_expl = false ->
    well_formed df_expl ->
    has_column "timestamp" df_expl = true ->
    forallb text_or_missing (column "reasons" df_expl) = true ->
    to_datetime (column "timestamp" df_expl) = Returns stamps ->
    length stamps = length (rows df_expl) ->
    (valid (map instant stamps) = [] ->
       run (insights_section argsort to_datetime df_expl) =
         (Raise AttributeError,
          insights_head :: insights_lines argsort df_expl)) /\
    peak (coerce_timestamps to_datetime df_expl) <> Ok None.
Proof.
  intros argsort to_datetime df_expl stamps He Hwf Hc Ht Hs Hlen. split.
  - intros Hv. rewrite run_insights_section by exact He.
    rewrite (reasons_do_not_raise argsort df_expl Ht), Hc, Hs.
    now rewrite (peak_nothing_parses to_datetime df_expl stamps
                   He Hwf Hc Hs Hlen Hv).
  - destruct (datetime64 stamps) eqn:Hd.
    + destruct (valid (map instant stamps)) as [|t ts] eqn:Hv.
      * now rewrite (peak_nothing_parses to_datetime df_expl stamps
                       He Hwf Hc Hs Hlen Hv).
      * destruct (peak_busiest_hour to_datetime df_expl stamps t ts
                    Hwf Hc Hs Hlen Hd Hv) as (h & Hp & _).
        rewrite Hp. discriminate.
    + now rewrite (peak_mixed_offsets to_datetime df_expl stamps
                     Hwf Hc Hs Hlen Hd).
Qed.

(** One explanation whose timestamp does not parse. *)
Lemma no_timestamp_parses_witness :
  run (insights_section aquicksort parse_nothing bad_timestamp) =
    (Raise AttributeError,
     insights_head :: insights_lines aquicksort bad_timestamp).
Proof.
  assert (Hwf : well_formed bad_timestamp).
  { split; [repeat constructor; simpl; intuition discriminate|].
    repeat constructor. }
  exact (proj1
    (no_timestamp_parses aquicksort parse_nothing bad_timestamp _
       eq_refl Hwf eq_refl eq_refl eq_refl eq_refl) eq_refl).
Defined.

(* ------------------------------------------------------------------ *)
(** ** The summary on the page *)
(* ------------------------------------------------------------------ *)

(** X16. With a full table that has rows the summary is always on the
    page, whatever the other two tables hold and however a later section
    ends: after the warnings come the three metrics, a divider, the
    traffic mix with its pie chart and a divider.  The rate shown is a
    finite number, and the two slices of the pie add up to the total
    shown. *)
Theorem summary_always_written :
  forall (argsort : list nat -> list nat)
         (choice : nat -> nat -> list nat)
         (float_text : string -> bool)
         (to_datetime : list cell -> outcome (list parsed))
         (df_full df_expl df_pred : DataFrame),
    empty df_full = false ->
    (exists rest : list widget,
       snd (run (dashboard argsort choice float_text to_datetime
                   df_full df_expl df_pred)) =
         warnings_page df_expl df_pred ++ summary_page df_full df_expl
           ++ rest) /\
    anom_rate df_full df_expl = Ok (rate_of df_full df_expl) /\
    total_norms df_full df_expl + int_of (total_anoms df_full df_expl)
      = len df_full.
Proof.
  intros argsort choice float_text to_datetime df_full df_expl df_pred He.
  split; [|split].
  - eexists. rewrite dashboard_nonempty_full by exact He. reflexivity.
  - apply anom_rate_value.
  - unfold total_norms, total. lia.
Qed.

(** One request without label columns and three explanations. *)
Lemma summary_always_written_witness :
  total_norms fallback_full fallback_expl
    + int_of (total_anoms fallback_full fallback_expl)
    = len fallback_full.
Proof.
  exact (proj2 (proj2
    (summary_always_written aquicksort (fun _ k => seq 0 k) (fun _ => false)
       parse_nothing fallback_full fallback_expl empty_frame eq_refl))).
Defined.

(** X17. In the fallback tier (a full table with rows and neither label
    column) the summary is within its bounds exactly when the explanations
    table has no more rows than the full table: then, and only then, the
    normal count is not negative and the rate is at most 100. *)
Theorem fallback_tier_bounded_iff :
  forall df_full df_expl : DataFrame,
    empty df_full = false ->
    label_column df_full = None ->
    int_of (total_anoms df_full df_expl) = len df_expl /\
    (0 <= total_norms df_full df_expl <-> len df_expl <= len df_full) /\
    exists q : Q,
      anom_rate df_full df_expl = Ok (Finite q) /\
      (0 <= q)%Q /\
      ((q <= 100)%Q <-> len df_expl <= len df_full).
Proof.
  intros df_full df_expl He Hn.
  pose proof (empty_false_rows _ He) as Hpos.
  assert (Ha : total_anoms df_full df_expl = PyInt (len df_expl))
    by now rewrite int_of_total_anoms, Hn.
  assert (Hexpl : 0 <= len df_expl) by (unfold len; lia).
  rewrite Ha. cbn [int_of]. split; [reflexivity|]. split.
  - unfold total_norms, total. rewrite Ha. cbn [int_of]. lia.
  - rewrite anom_rate_value, Ha. cbn [int_of].
    destruct (Z.ltb_spec 0 (len df_full)); [|lia].
    eexists. split; [reflexivity|].
    destruct (len df_full) as [|n|n]; try lia.
    unfold Qle, Qdiv, Qmult, Qinv, inject_Z. simpl.
    split; [nia|]. split; intros; nia.
Qed.

(** One request, three explanations: outside the bounds. *)
Lemma fallback_tier_bounded_iff_witness :
  int_of (total_anoms fallback_full fallback_expl) = len fallback_expl.
Proof.
  exact (proj1
    (fallback_tier_bounded_iff fallback_full fallback_expl
       eq_refl eq_refl)).
Defined.

(* ------------------------------------------------------------------ *)
(** ** The alerts and the first five rows *)
(* ------------------------------------------------------------------ *)

Lemma has_text_head (n : nat) (df : DataFrame) :
  has_text (head n df) = true -> has_text df = true.
Proof.
  unfold has_text, head. cbn [rows]. intros H.
  apply existsb_exists in H as (r & Hr & H).
  apply existsb_exists. exists r. split; [|exact H].
  apply (in_firstn _ _ _ Hr).
Qed.

(** X18. The alerts are read off the column labels and the first five
    rows: two explanations tables with the same labels and the same first
    five rows, with some text in them, give the same alerts, whatever rows
    follow.  (Unlike the counts of the summary, the alerts depend on the
    order of the rows.) *)
Theorem alerts_depend_on_first_five_rows :
  forall df df' : DataFrame,
    columns df' = columns df ->
    firstn 5 (rows df') = firstn 5 (rows df) ->
    has_text (head 5 df) = true ->
    run (alerts_section df') = run (alerts_section df).
Proof.
  intros df df' Hc Hr Ht. rewrite !run_alerts_section. unfold alerts_page.
  assert (He : empty df' = empty df).
  { unfold empty. rewrite Hc.
    destruct (rows df), (rows df'); try reflexivity; discriminate. }
  assert (Hdf : has_text df = true).
  { apply (has_text_head 5). exact Ht. }
  assert (Hdf' : has_text df' = true).
  { apply (has_text_head 5). unfold head, has_text in *.
    cbn [rows] in *. now rewrite Hr. }
  rewrite He, Hr.
  destruct (empty df); [reflexivity|]. do 2 f_equal.
  rewrite (map_ext_in (series_of df') (fun r => r))
    by (intros r _; now apply series_of_has_text).
  rewrite (map_ext_in (series_of df) (fun r => r))
    by (intros r _; now apply series_of_has_text).
  apply flat_map_ext. intros r. now apply alert_card_columns.
Qed.

(** Six explanations and the first five of them. *)
Lemma alerts_depend_on_first_five_rows_witness :
  run (alerts_section
         (mkDF ["reasons"]
               [[VStr "a"]; [VStr "b"]; [VStr "c"]; [VStr "d"]; [VStr "e"];
                [VStr "f"]])) =
  run (alerts_section
         (mkDF ["reasons"]
               [[VStr "a"]; [VStr "b"]; [VStr "c"]; [VStr "d"];
                [VStr "e"]])).
Proof.
  exact (alerts_depend_on_first_five_rows
           (mkDF ["reasons"]
                 [[VStr "a"]; [VStr "b"]; [VStr "c"]; [VStr "d"];
                  [VStr "e"]])
           (mkDF ["reasons"]
                 [[VStr "a"]; [VStr "b"]; [VStr "c"]; [VStr "d"];
                  [VStr "e"]; [VStr "f"]])
           eq_refl eq_refl eq_refl).
Defined.
